(** * NeuraBuddy front end: the interactive study sessions

    A shallow embedding of the React components that drive the four study
    modalities of the NeuraBuddy client

      - [Quiz]         (components/Quiz.jsx)
      - [FlashCards]   (components/FlashCards.jsx)
      - [Teaching]     (components/Teaching.jsx)
      - [ClinicalCase] (components/ClinicalCase.jsx)
      - [AppContext]   (context/AppContext.jsx, the localStorage-backed store)

    and of the pages around them

      - [Upload]       (components/Upload.jsx)
      - [Query]        (components/Query.jsx, the chat)
      - [StudyNotes]   (components/StudyNotes.jsx)
      - [Progress]     (components/Progress.jsx)

    Every component is a record of its [useState] cells.  An event handler is
    a function on that record.  An [async] handler is split where it awaits
    the HTTP client: the part before the [await] returns the request it sends
    and the closure it keeps, the part after it takes the settled promise
    ([Ok] response or [Err] error) and the state of that later moment, as
    React's functional updaters do.  What a handler cannot see but the page
    decides (a button that is not rendered, or rendered [disabled]) lives in
    the [step] function of each component, which dispatches a user event to
    its handler only when the rendered control accepts it.

    A JavaScript number that carries a score is an IEEE 754 double; it is
    kept by its value, a rational ([Q]), and the arithmetic on it rounds as
    the double arithmetic does ([Double]).  Counts and indices are
    integers. *)

From Stdlib Require Import ZArith QArith Qround Qabs Qpower Lqa.
From Stdlib Require Import String Ascii List Bool Lia.
From stdpp Require Import base option gmap strings list fin_maps.
Import ListNotations.

Set Default Proof Using "Type".
Local Open Scope string_scope.
Local Open Scope Z_scope.

(** ** JavaScript helpers shared by the components *)

Module JS.

(** [String.prototype.trim] on the ASCII white space characters
    (TAB, LF, VT, FF, CR, SPACE). *)
Definition is_space (c : ascii) : bool :=
  match nat_of_ascii c with
  | 9%nat | 10%nat | 11%nat | 12%nat | 13%nat | 32%nat => true
  | _ => false
  end.

Fixpoint trimStart (s : string) : string :=
  match s with
  | String c s' => if is_space c then trimStart s' else s
  | EmptyString => EmptyString
  end.

Definition trimEnd (s : string) : string :=
  String.rev (trimStart (String.rev s)).

Definition trim (s : string) : string := trimEnd (trimStart s).

(** Truthiness of a string: only [''] is falsy. *)
Definition truthy (s : string) : bool :=
  match s with EmptyString => false | _ => true end.

(** [a || b] on strings. *)
Definition or_else (a b : string) : string := if truthy a then a else b.

(** [a || b] where [a] may be [undefined]. *)
Definition opt_or_else (a : option string) (b : string) : string :=
  match a with Some x => or_else x b | None => b end.

(** [s || null] and [s || undefined]: the empty string becomes absent. *)
Definition or_null (s : string) : option string :=
  if truthy s then Some s else None.

(** [Array.prototype.join]. *)
Fixpoint join (sep : string) (l : list string) : string :=
  match l with
  | [] => ""
  | [x] => x
  | x :: rest => x ++ sep ++ join sep rest
  end.

(** [parseInt] on a decimal numeral: leading white space, an optional sign,
    then the longest run of digits; [None] is [NaN]. *)
Definition digit (c : ascii) : option Z :=
  let n := nat_of_ascii c in
  if (48 <=? n)%nat && (n <=? 57)%nat then Some (Z.of_nat (n - 48)) else None.

Fixpoint digits (acc : option Z) (s : string) : option Z :=
  match s with
  | String c s' =>
      match digit c with
      | Some d => digits (Some (10 * default 0 acc + d)) s'
      | None => acc
      end
  | EmptyString => acc
  end.

Definition parseInt (s : string) : option Z :=
  match trimStart s with
  | String "-" s' => Z.opp <$> digits None s'
  | String "+" s' => digits None s'
  | s' => digits None s'
  end.

(** [parseInt(v) || d]: [NaN] and [0] are falsy. *)
Definition int_or (n : option Z) (d : Z) : Z :=
  match n with
  | Some 0 | None => d
  | Some v => v
  end.

(** [Math.round]: the nearest integer, ties towards plus infinity. *)
Definition Math_round (x : Q) : Z := Qfloor (x + (1 # 2))%Q.

(** [Number.prototype.toFixed(d)] as the integer numerator over [10^d]:
    the nearest multiple of [10^-d], ties away from zero. *)
Definition toFixed (d : nat) (x : Q) : Z :=
  let scaled := (x * inject_Z (10 ^ Z.of_nat d))%Q in
  if Qle_bool 0 scaled then Qfloor (scaled + (1 # 2))%Q
  else - Qfloor (- scaled + (1 # 2))%Q.

End JS.

(** ** JavaScript numbers

    The arithmetic of IEEE 754 binary64 on finite values: the exact result
    of an operation is rounded to the nearest double, a tie going to the
    double whose last bit is 0.  Doubles have 53 significant bits, so around
    [x] with [2^e <= |x| < 2^(e+1)] they are the multiples of [2^(e-52)];
    below [2^-1022] (the subnormal range) they are the multiples of
    [2^-1074].  A result of magnitude [2^1024] or more is [Infinity] in
    JavaScript; here it stays a rational, so the model is that of
    JavaScript for results below [2^1024]. *)

Module Double.

(** [floor (log2 |x|)], for [x] other than 0. *)
Definition exponent (x : Q) : Z :=
  let d := Z.log2 (Z.abs (Qnum x)) - Z.log2 (Zpos (Qden x)) in
  if Qle_bool (2 ^ d) (Qabs x) then d else d - 1.

(** The distance between neighbouring doubles around [x]. *)
Definition ulp (x : Q) : Q := (2 ^ (Z.max (exponent x) (-1022) - 52))%Q.

(** The nearest integer, a tie going to the even one. *)
Definition nearestEven (x : Q) : Z :=
  let f := Qfloor x in
  match (x - inject_Z f ?= 1 # 2)%Q with
  | Lt => f
  | Gt => f + 1
  | Eq => if Z.even f then f else f + 1
  end.

(** The double nearest to [x]. *)
Definition round (x : Q) : Q :=
  if Qeq_bool x 0 then 0%Q
  else Qred (inject_Z (nearestEven (x / ulp x)) * ulp x).

(** [x + y], [x * y] and [x / y] on doubles. *)
Definition add (x y : Q) : Q := round (x + y).
Definition mul (x y : Q) : Q := round (x * y).
Definition div (x y : Q) : Q := round (x / y).

(** A length or a count (below [2^53], so exact). *)
Definition ofNat (n : nat) : Q := inject_Z (Z.of_nat n).

(** A number written in decimal, in the source or in a JSON text. *)
Definition ofDecimal (x : Q) : Q := round x.

End Double.

(** ** The HTTP client (api/client.js) *)

Module Api.

(** The [detail] member of a FastAPI error body: a string, a list of
    validation items, or some other object. *)
Record DetailItem := { d_msg : option string; d_json : string }.

Inductive Detail :=
| DetailString (s : string)
| DetailArray (items : list DetailItem)
| DetailObject (msg : option string).

(** An axios error.  [err_response] is [None] when no response arrived
    (time-out, network down); otherwise it holds [response.data.detail]. *)
Record AxiosError := {
  err_response : option (option Detail);
  err_code : option string;
  err_message : string
}.

(** The response interceptor installed on the client. *)
Definition interceptor (error : AxiosError) : AxiosError :=
  match err_response error with
  | Some _ => error
  | None =>
      {| err_response := None;
         err_code := err_code error;
         err_message :=
           if bool_decide (err_code error = Some "ECONNABORTED")
           then "Request timeout. Please try again."
           else if bool_decide (err_message error = "Network Error")
           then "Unable to connect to server. Please check if the backend is running."
           else "Network error. Please check your connection and try again." |}
  end.

(** A settled promise. *)
Inductive Settled (A : Type) :=
| Ok (response : A)
| Err (error : AxiosError).
Arguments Ok {A} response.
Arguments Err {A} error.

(** [error.response?.data?.detail] *)
Definition detail (error : AxiosError) : option Detail :=
  d ← err_response error; d.

(** What ends up on screen: a text, or a [detail] value printed as is. *)
Inductive Shown :=
| Text (s : string)
| Raw (d : Detail).

(** [error.response?.data?.detail || fallback] *)
Definition detail_or (error : AxiosError) (fallback : string) : Shown :=
  match detail error with
  | Some (DetailString s) => Text (JS.or_else s fallback)
  | Some d => Raw d
  | None => Text fallback
  end.

End Api.

Import Api.

(** ** Quiz (components/Quiz.jsx) *)

Module Quiz.

(** *** Data received from the service *)

Record Feedback := {
  is_correct : bool;
  fb_feedback : string;
  fb_explanation : option string;
  fb_correct_answer : string;
  fb_related_anatomy : option string
}.

Record Question := {
  question_id : string;
  question_type : string;
  question : string;
  options : option (list string);
  correct_answer : string
}.

(** The response of [api.startQuiz], kept whole in the [quiz] cell. *)
Record QuizData := {
  quiz_id : string;
  quiz_topic : option string;
  difficulty_level : string;
  questions : list Question
}.

(** The response of [api.submitAnswer]; only [feedback] is read. *)
Record SubmitResponse := { response_feedback : option Feedback }.

(** One entry of the [answers] object. *)
Record Answer := { answer : string; answer_feedback : option Feedback }.

(** *** Requests *)

Record StartRequest := {
  start_user_id : string;
  start_topic : option string;
  start_difficulty_level : string;
  start_system_filter : option string;
  num_questions : Z
}.

Record AnswerRequest := {
  req_quiz_id : string;
  req_question_id : string;
  req_answer : string;
  req_user_id : string
}.

Inductive Effect :=
| PostQuizStart (data : StartRequest)
| PostQuizAnswer (data : AnswerRequest)
| Alert (msg : Shown).

(** *** Component state: the [useState] cells of [Quiz] *)

Record State := {
  quiz : option QuizData;
  currentQuestionIndex : nat;
  selectedAnswer : string;
  answers : gmap string Answer;
  feedback : option Feedback;
  loading : bool;
  starting : bool;
  topic : string;
  difficulty : string;
  systemFilter : option string;
  numQuestions : Z;
  userId : string
}.

Definition initial (uid : string) : State :=
  {| quiz := None; currentQuestionIndex := 0; selectedAnswer := "";
     answers := ∅; feedback := None; loading := false; starting := false;
     topic := ""; difficulty := "undergrad"; systemFilter := None;
     numQuestions := 5; userId := uid |}.

Definition setQuiz v s :=
  {| quiz := v; currentQuestionIndex := currentQuestionIndex s;
     selectedAnswer := selectedAnswer s; answers := answers s;
     feedback := feedback s; loading := loading s; starting := starting s;
     topic := topic s; difficulty := difficulty s;
     systemFilter := systemFilter s; numQuestions := numQuestions s;
     userId := userId s |}.
Definition setCurrentQuestionIndex v s :=
  {| quiz := quiz s; currentQuestionIndex := v;
     selectedAnswer := selectedAnswer s; answers := answers s;
     feedback := feedback s; loading := loading s; starting := starting s;
     topic := topic s; difficulty := difficulty s;
     systemFilter := systemFilter s; numQuestions := numQuestions s;
     userId := userId s |}.
Definition setSelectedAnswer v s :=
  {| quiz := quiz s; currentQuestionIndex := currentQuestionIndex s;
     selectedAnswer := v; answers := answers s;
     feedback := feedback s; loading := loading s; starting := starting s;
     topic := topic s; difficulty := difficulty s;
     systemFilter := systemFilter s; numQuestions := numQuestions s;
     userId := userId s |}.
Definition setAnswers v s :=
  {| quiz := quiz s; currentQuestionIndex := currentQuestionIndex s;
     selectedAnswer := selectedAnswer s; answers := v;
     feedback := feedback s; loading := loading s; starting := starting s;
     topic := topic s; difficulty := difficulty s;
     systemFilter := systemFilter s; numQuestions := numQuestions s;
     userId := userId s |}.
Definition setFeedback v s :=
  {| quiz := quiz s; currentQuestionIndex := currentQuestionIndex s;
     selectedAnswer := selectedAnswer s; answers := answers s;
     feedback := v; loading := loading s; starting := starting s;
     topic := topic s; difficulty := difficulty s;
     systemFilter := systemFilter s; numQuestions := numQuestions s;
     userId := userId s |}.
Definition setLoading v s :=
  {| quiz := quiz s; currentQuestionIndex := currentQuestionIndex s;
     selectedAnswer := selectedAnswer s; answers := answers s;
     feedback := feedback s; loading := v; starting := starting s;
     topic := topic s; difficulty := difficulty s;
     systemFilter := systemFilter s; numQuestions := numQuestions s;
     userId := userId s |}.
Definition setStarting v s :=
  {| quiz := quiz s; currentQuestionIndex := currentQuestionIndex s;
     selectedAnswer := selectedAnswer s; answers := answers s;
     feedback := feedback s; loading := loading s; starting := v;
     topic := topic s; difficulty := difficulty s;
     systemFilter := systemFilter s; numQuestions := numQuestions s;
     userId := userId s |}.
Definition setTopic v s :=
  {| quiz := quiz s; currentQuestionIndex := currentQuestionIndex s;
     selectedAnswer := selectedAnswer s; answers := answers s;
     feedback := feedback s; loading := loading s; starting := starting s;
     topic := v; difficulty := difficulty s;
     systemFilter := systemFilter s; numQuestions := numQuestions s;
     userId := userId s |}.
Definition setDifficulty v s :=
  {| quiz := quiz s; currentQuestionIndex := currentQuestionIndex s;
     selectedAnswer := selectedAnswer s; answers := answers s;
     feedback := feedback s; loading := loading s; starting := starting s;
     topic := topic s; difficulty := v;
     systemFilter := systemFilter s; numQuestions := numQuestions s;
     userId := userId s |}.
Definition setSystemFilter v s :=
  {| quiz := quiz s; currentQuestionIndex := currentQuestionIndex s;
     selectedAnswer := selectedAnswer s; answers := answers s;
     feedback := feedback s; loading := loading s; starting := starting s;
     topic := topic s; difficulty := difficulty s;
     systemFilter := v; numQuestions := numQuestions s;
     userId := userId s |}.
Definition setNumQuestions v s :=
  {| quiz := quiz s; currentQuestionIndex := currentQuestionIndex s;
     selectedAnswer := selectedAnswer s; answers := answers s;
     feedback := feedback s; loading := loading s; starting := starting s;
     topic := topic s; difficulty := difficulty s;
     systemFilter := systemFilter s; numQuestions := v;
     userId := userId s |}.

(** [answers[id]?.answer || ''] and [answers[id]?.feedback || null] *)
Definition recordedAnswer (s : State) (id : string) : string :=
  default "" (answer <$> answers s !! id).
Definition recordedFeedback (s : State) (id : string) : option Feedback :=
  a ← answers s !! id; answer_feedback a.

(** *** Handlers *)

(** [startQuiz], up to [await api.startQuiz(...)]. *)
Definition startQuiz (s : State) : State * list Effect :=
  (setStarting true s,
   [PostQuizStart
      {| start_user_id := userId s;
         start_topic := JS.or_null (JS.trim (topic s));
         start_difficulty_level := difficulty s;
         start_system_filter := systemFilter s;
         num_questions := numQuestions s |}]).

(** The message built in the [catch] block of [startQuiz]. *)
Definition startErrorMessage (error : AxiosError) : string :=
  match detail error with
  | Some (DetailArray items) =>
      JS.join "; " (map (λ d, JS.opt_or_else (d_msg d) (d_json d)) items)
  | Some (DetailString d) =>
      JS.or_else d (JS.or_else (err_message error) "Failed to start quiz")
  | Some (DetailObject m) =>
      JS.opt_or_else m (JS.or_else (err_message error) "Failed to start quiz")
  | None => JS.or_else (err_message error) "Failed to start quiz"
  end.

(** [startQuiz], from the settled promise on. *)
Definition startQuiz_settled (r : Settled QuizData) (s : State)
  : State * list Effect :=
  match r with
  | Ok response =>
      (setStarting false
         (setFeedback None
            (setAnswers ∅
               (setSelectedAnswer ""
                  (setCurrentQuestionIndex 0%nat
                     (setQuiz (Some response) s))))), [])
  | Err error =>
      (setStarting false s, [Alert (Text (startErrorMessage error))])
  end.

(** What [submitAnswer] keeps across its [await]: [questionId] and the
    [selectedAnswer] of the render that ran the handler. *)
Record SubmitClosure := {
  questionId : string;
  closed_selectedAnswer : string
}.

(** [submitAnswer], up to [await api.submitAnswer(...)].  Reading
    [question_id] of a question that does not exist throws after
    [setLoading(true)] and outside the [try]. *)
Definition submitAnswer (s : State)
  : State * list Effect * option SubmitClosure :=
  match quiz s with
  | Some q =>
      if negb (JS.truthy (JS.trim (selectedAnswer s))) || loading s
      then (s, [], None)
      else
        match questions q !! currentQuestionIndex s with
        | Some cq =>
            (setLoading true s,
             [PostQuizAnswer
                {| req_quiz_id := quiz_id q;
                   req_question_id := question_id cq;
                   req_answer := JS.trim (selectedAnswer s);
                   req_user_id := userId s |}],
             Some {| questionId := question_id cq;
                     closed_selectedAnswer := selectedAnswer s |})
        | None => (setLoading true s, [], None)
        end
  | None => (s, [], None)
  end.

(** [submitAnswer], from the settled promise on. *)
Definition submitAnswer_settled (c : SubmitClosure)
    (r : Settled SubmitResponse) (s : State) : State * list Effect :=
  match r with
  | Ok response =>
      (setLoading false
         (setFeedback (response_feedback response)
            (setAnswers
               (<[questionId c :=
                    {| answer := JS.trim (closed_selectedAnswer c);
                       answer_feedback := response_feedback response |}]>
                  (answers s)) s)), [])
  | Err error =>
      (setLoading false s, [Alert (detail_or error "Failed to submit answer")])
  end.

(** The view of question number [idx]: index, recorded answer, recorded
    feedback.  Shared by [nextQuestion], [previousQuestion] and the
    question dots. *)
Definition showQuestion (idx : nat) (id : string) (s : State) : State :=
  setFeedback (recordedFeedback s id)
    (setSelectedAnswer (recordedAnswer s id)
       (setCurrentQuestionIndex idx s)).

Definition nextQuestion (s : State) : State :=
  match quiz s with
  | Some q =>
      if Z.of_nat (currentQuestionIndex s) <? Z.of_nat (length (questions q)) - 1
      then
        match questions q !! (currentQuestionIndex s + 1)%nat with
        | Some nq => showQuestion (currentQuestionIndex s + 1)%nat (question_id nq) s
        | None => s
        end
      else s
  | None => s
  end.

Definition previousQuestion (s : State) : State :=
  match quiz s with
  | Some q =>
      if 0 <? Z.of_nat (currentQuestionIndex s)
      then
        match questions q !! (currentQuestionIndex s - 1)%nat with
        | Some pq => showQuestion (currentQuestionIndex s - 1)%nat (question_id pq) s
        | None => s
        end
      else s
  | None => s
  end.

(** The [onClick] of the dot drawn for question [q] at position [idx]. *)
Definition questionDot (idx : nat) (q : Question) (s : State) : State :=
  showQuestion idx (question_id q) s.

Definition resetQuiz (s : State) : State :=
  setFeedback None
    (setAnswers ∅
       (setSelectedAnswer ""
          (setCurrentQuestionIndex 0%nat
             (setQuiz None s)))).

(** *** Values derived during render *)

Definition currentQuestion (s : State) : option Question :=
  q ← quiz s; questions q !! currentQuestionIndex s.

Definition hasAnswered (s : State) : option Answer :=
  cq ← currentQuestion s; answers s !! question_id cq.

Definition isLastQuestion (s : State) : bool :=
  match quiz s with
  | Some q => (Z.of_nat (currentQuestionIndex s) =? Z.of_nat (length (questions q)) - 1)%Z
  | None => false
  end.

Definition allAnswered (s : State) : bool :=
  match quiz s with
  | Some q => (size (answers s) =? length (questions q))%nat
  | None => false
  end.

(** [a.feedback?.is_correct] *)
Definition answer_is_correct (a : Answer) : bool :=
  from_option is_correct false (answer_feedback a).

(** [Object.values(answers).filter(a => a.feedback?.is_correct).length] *)
Definition correctCount (s : State) : nat :=
  length (List.filter answer_is_correct (snd <$> map_to_list (answers s))).

(** [(correctCount / quiz.questions.length) * 100], or [0] for a quiz
    without questions. *)
Definition score (s : State) : Q :=
  match quiz s with
  | Some q =>
      if (0 <? length (questions q))%nat
      then Double.mul
             (Double.div (Double.ofNat (correctCount s))
                (Double.ofNat (length (questions q))))
             100
      else 0%Q
  | None => 0%Q
  end.

(** The number shown under "Score" (followed by the percent sign). *)
Definition displayedScore (s : State) : Z := JS.Math_round (score s).

(** *** The page: which controls are rendered, and what they accept *)

(** Requests in flight: the closures of the [submitAnswer] calls that are
    waiting for the service, and the number of waiting [startQuiz]
    calls. *)
Record World := {
  ui : State;
  pendingAnswers : list SubmitClosure;
  pendingStarts : nat
}.

Definition mount (uid : string) : World :=
  {| ui := initial uid; pendingAnswers := []; pendingStarts := 0 |}.

Definition withUi (f : State → State) (w : World) : World :=
  {| ui := f (ui w); pendingAnswers := pendingAnswers w;
     pendingStarts := pendingStarts w |}.

(** The two branches of the [return]: the set-up form while [quiz] is
    [null], the question view otherwise.  The question view reads
    [currentQuestion.question_id] and throws when there is no current
    question. *)
Inductive Screen :=
| SetupForm
| QuestionView (cq : Question)
| RenderError.

Definition screen (s : State) : Screen :=
  match quiz s with
  | None => SetupForm
  | Some q =>
      match questions q !! currentQuestionIndex s with
      | Some cq => QuestionView cq
      | None => RenderError
      end
  end.

Inductive Event :=
| ChangeTopic (value : string)
| ChangeDifficulty (value : string)
| ChangeNumQuestions (value : string)
| ChangeSystemFilter (value : string)
| ClickStartQuiz
| ClickOption (idx : nat)
| ChangeAnswerText (value : string)
| ClickSubmitAnswer
| ClickPrevious
| ClickDot (idx : nat)
| ClickNext
| ClickFinishQuiz
| ClickStartNewQuiz
| AnswerSettled (n : nat) (r : Settled SubmitResponse)
| StartSettled (r : Settled QuizData).

Definition onSetupForm (w : World) (e : Event) : World * list Effect :=
  match e with
  | ChangeTopic v => (withUi (setTopic v) w, [])
  | ChangeDifficulty v => (withUi (setDifficulty v) w, [])
  | ChangeNumQuestions v =>
      (withUi (setNumQuestions (JS.int_or (JS.parseInt v) 5)) w, [])
  | ChangeSystemFilter v => (withUi (setSystemFilter (JS.or_null v)) w, [])
  | ClickStartQuiz =>
      if starting (ui w) then (w, [])
      else
        let '(s', out) := startQuiz (ui w) in
        ({| ui := s'; pendingAnswers := pendingAnswers w;
            pendingStarts := S (pendingStarts w) |}, out)
  | _ => (w, [])
  end.

Definition onQuestionView (cq : Question) (w : World) (e : Event)
  : World * list Effect :=
  let s := ui w in
  match e with
  | ClickOption idx =>
      if bool_decide (question_type cq = "mcq") then
        match options cq with
        | Some opts =>
            match opts !! idx, hasAnswered s with
            | Some option, None => (withUi (setSelectedAnswer option) w, [])
            | _, _ => (w, [])
            end
        | None => (w, [])
        end
      else (w, [])
  | ChangeAnswerText v =>
      if bool_decide (question_type cq = "mcq") then (w, [])
      else
        match hasAnswered s with
        | None => (withUi (setSelectedAnswer v) w, [])
        | Some _ => (w, [])
        end
  | ClickSubmitAnswer =>
      match hasAnswered s with
      | None =>
          if negb (JS.truthy (JS.trim (selectedAnswer s))) || loading s
          then (w, [])
          else
            let '(s', out, c) := submitAnswer s in
            ({| ui := s';
                pendingAnswers := (pendingAnswers w ++ option_list c)%list;
                pendingStarts := pendingStarts w |}, out)
      | Some _ => (w, [])
      end
  | ClickPrevious =>
      if bool_decide (currentQuestionIndex s = 0%nat) then (w, [])
      else (withUi previousQuestion w, [])
  | ClickDot idx =>
      match quiz s with
      | Some q =>
          match questions q !! idx with
          | Some qd => (withUi (questionDot idx qd) w, [])
          | None => (w, [])
          end
      | None => (w, [])
      end
  | ClickNext =>
      if isLastQuestion s then (w, [])
      else
        match hasAnswered s with
        | Some _ => (withUi nextQuestion w, [])
        | None => (w, [])
        end
  | ClickFinishQuiz =>
      if isLastQuestion s then (withUi resetQuiz w, []) else (w, [])
  | ClickStartNewQuiz =>
      if allAnswered s then (withUi resetQuiz w, []) else (w, [])
  | _ => (w, [])
  end.

Definition step (w : World) (e : Event) : World * list Effect :=
  match e with
  | AnswerSettled n r =>
      match pendingAnswers w !! n with
      | Some c =>
          let '(s', out) := submitAnswer_settled c r (ui w) in
          ({| ui := s'; pendingAnswers := delete n (pendingAnswers w);
              pendingStarts := pendingStarts w |}, out)
      | None => (w, [])
      end
  | StartSettled r =>
      match pendingStarts w with
      | S k =>
          let '(s', out) := startQuiz_settled r (ui w) in
          ({| ui := s'; pendingAnswers := pendingAnswers w;
              pendingStarts := k |}, out)
      | O => (w, [])
      end
  | _ =>
      match screen (ui w) with
      | SetupForm => onSetupForm w e
      | QuestionView cq => onQuestionView cq w e
      | RenderError => (w, [])
      end
  end.

(** A run of the page: the world after a list of events, and everything
    sent or alerted on the way. *)
Fixpoint run (w : World) (es : list Event) : World * list Effect :=
  match es with
  | [] => (w, [])
  | e :: es' =>
      let '(w1, out1) := step w e in
      let '(w2, out2) := run w1 es' in
      (w2, (out1 ++ out2)%list)
  end.

Inductive reachable (uid : string) : World → Prop :=
| reachable_mount : reachable uid (mount uid)
| reachable_step w e : reachable uid w → reachable uid (step w e).1.

End Quiz.

(** ** The persistent store (context/AppContext.jsx) *)

Module AppContext.

Definition STORAGE_KEYS_chatMessages : string := "neurabuddy_chat_messages".
Definition STORAGE_KEYS_teachingSession : string := "neurabuddy_teaching_session".
Definition STORAGE_KEYS_flashCards : string := "neurabuddy_flash_cards".

Section Provider.
Context {V : Type}.

(** An item of [localStorage].  The text written by the provider is
    [JSON.stringify(next ?? null)]; it is kept here as the value that
    [JSON.parse] reads back from it, [None] for [null].  [Garbage] is a
    text that [JSON.parse] rejects. *)
Inductive Item :=
| Json (v : option V)
| Garbage.

(** The initialiser of a context cell:
    [saved ? JSON.parse(saved) : null], and [null] when parsing
    throws.  An absent key makes [getItem] return [null]. *)
Definition restore (key : string) (localStorage : gmap string Item)
  : option V :=
  match localStorage !! key with
  | Some (Json v) => v
  | Some Garbage => None
  | None => None
  end.

(** The [setItem] inside the setter of a context cell; when the storage
    refuses the write the exception is swallowed. *)
Definition persist (writable : bool) (key : string) (next : option V)
    (localStorage : gmap string Item) : gmap string Item :=
  if writable then <[key := Json next]> localStorage else localStorage.

End Provider.
Arguments Item V : clear implicits.

End AppContext.

(** ** Flash cards (components/FlashCards.jsx) *)

Module FlashCards.

Record Card := { front : string; back : string }.

(** The response of [api.evaluateFlashCardAnswer]. *)
Record Evaluation := {
  score : Q;
  feedback : string;
  is_correct : bool;
  is_partial : bool
}.

(** One entry of [cardResults]. *)
Record CardResult := {
  result_question : string;
  user_answer : string;
  correct_answer : string;
  result_score : Q;
  result_feedback : string
}.

(** The response of [api.analyzeFlashCardSession]. *)
Record Analysis := {
  performance_summary : string;
  strengths : list string;
  areas_to_improve : list string;
  recommended_topics : list string
}.

(** The response of [api.generateFlashCards]. *)
Record Generated := {
  flash_cards : option (list Card);
  generated_topic : option string
}.

(** The object kept in the [flashCardsData] context cell. *)
Record FlashCardsData := {
  data_cards : list Card;
  data_topic : string;
  data_currentIndex : nat
}.

Record GenerateRequest := {
  req_topic : option string;
  num_cards : Z;
  difficulty_level : string
}.

Record EvaluateRequest := {
  req_user_answer : string;
  req_correct_answer : string;
  req_question : string
}.

Record AnalyzeRequest := {
  analyze_topic : string;
  total_score : Q;
  max_score : nat;
  card_results : list CardResult
}.

Inductive Effect :=
| PostFlashCards (data : GenerateRequest)
| PostEvaluate (data : EvaluateRequest)
| PostAnalyze (data : AnalyzeRequest).

(** *** Component state: the [useState] cells of [FlashCards] *)

Record State := {
  topic : string;
  numCards : Z;
  difficulty : string;
  cards : list Card;
  currentIndex : nat;
  loading : bool;
  error : option Shown;
  userAnswer : string;
  showAnswer : bool;
  evaluation : option Evaluation;
  evaluating : bool;
  cardResults : list CardResult;
  totalScore : Q;
  sessionComplete : bool;
  analysis : option Analysis;
  analyzing : bool
}.

(** The initial values of the cells, given the [flashCardsData] of the
    context at mount time. *)
Definition initial (flashCardsData : option FlashCardsData) : State :=
  {| topic := from_option data_topic "" flashCardsData;
     numCards := 10;
     difficulty := "undergrad";
     cards := from_option data_cards [] flashCardsData;
     currentIndex := from_option data_currentIndex 0%nat flashCardsData;
     loading := false; error := None;
     userAnswer := ""; showAnswer := false; evaluation := None;
     evaluating := false; cardResults := []; totalScore := 0%Q;
     sessionComplete := false; analysis := None; analyzing := false |}.

Definition setTopic v s :=
  {| topic := v; numCards := numCards s; difficulty := difficulty s;
     cards := cards s; currentIndex := currentIndex s;
     loading := loading s; error := error s; userAnswer := userAnswer s;
     showAnswer := showAnswer s; evaluation := evaluation s;
     evaluating := evaluating s; cardResults := cardResults s;
     totalScore := totalScore s; sessionComplete := sessionComplete s;
     analysis := analysis s; analyzing := analyzing s |}.
Definition setNumCards v s :=
  {| topic := topic s; numCards := v; difficulty := difficulty s;
     cards := cards s; currentIndex := currentIndex s;
     loading := loading s; error := error s; userAnswer := userAnswer s;
     showAnswer := showAnswer s; evaluation := evaluation s;
     evaluating := evaluating s; cardResults := cardResults s;
     totalScore := totalScore s; sessionComplete := sessionComplete s;
     analysis := analysis s; analyzing := analyzing s |}.
Definition setDifficulty v s :=
  {| topic := topic s; numCards := numCards s; difficulty := v;
     cards := cards s; currentIndex := currentIndex s;
     loading := loading s; error := error s; userAnswer := userAnswer s;
     showAnswer := showAnswer s; evaluation := evaluation s;
     evaluating := evaluating s; cardResults := cardResults s;
     totalScore := totalScore s; sessionComplete := sessionComplete s;
     analysis := analysis s; analyzing := analyzing s |}.
Definition setCards v s :=
  {| topic := topic s; numCards := numCards s; difficulty := difficulty s;
     cards := v; currentIndex := currentIndex s; loading := loading s;
     error := error s; userAnswer := userAnswer s;
     showAnswer := showAnswer s; evaluation := evaluation s;
     evaluating := evaluating s; cardResults := cardResults s;
     totalScore := totalScore s; sessionComplete := sessionComplete s;
     analysis := analysis s; analyzing := analyzing s |}.
Definition setCurrentIndex v s :=
  {| topic := topic s; numCards := numCards s; difficulty := difficulty s;
     cards := cards s; currentIndex := v; loading := loading s;
     error := error s; userAnswer := userAnswer s;
     showAnswer := showAnswer s; evaluation := evaluation s;
     evaluating := evaluating s; cardResults := cardResults s;
     totalScore := totalScore s; sessionComplete := sessionComplete s;
     analysis := analysis s; analyzing := analyzing s |}.
Definition setLoading v s :=
  {| topic := topic s; numCards := numCards s; difficulty := difficulty s;
     cards := cards s; currentIndex := currentIndex s; loading := v;
     error := error s; userAnswer := userAnswer s;
     showAnswer := showAnswer s; evaluation := evaluation s;
     evaluating := evaluating s; cardResults := cardResults s;
     totalScore := totalScore s; sessionComplete := sessionComplete s;
     analysis := analysis s; analyzing := analyzing s |}.
Definition setError v s :=
  {| topic := topic s; numCards := numCards s; difficulty := difficulty s;
     cards := cards s; currentIndex := currentIndex s;
     loading := loading s; error := v; userAnswer := userAnswer s;
     showAnswer := showAnswer s; evaluation := evaluation s;
     evaluating := evaluating s; cardResults := cardResults s;
     totalScore := totalScore s; sessionComplete := sessionComplete s;
     analysis := analysis s; analyzing := analyzing s |}.
Definition setUserAnswer v s :=
  {| topic := topic s; numCards := numCards s; difficulty := difficulty s;
     cards := cards s; currentIndex := currentIndex s;
     loading := loading s; error := error s; userAnswer := v;
     showAnswer := showAnswer s; evaluation := evaluation s;
     evaluating := evaluating s; cardResults := cardResults s;
     totalScore := totalScore s; sessionComplete := sessionComplete s;
     analysis := analysis s; analyzing := analyzing s |}.
Definition setShowAnswer v s :=
  {| topic := topic s; numCards := numCards s; difficulty := difficulty s;
     cards := cards s; currentIndex := currentIndex s;
     loading := loading s; error := error s; userAnswer := userAnswer s;
     showAnswer := v; evaluation := evaluation s;
     evaluating := evaluating s; cardResults := cardResults s;
     totalScore := totalScore s; sessionComplete := sessionComplete s;
     analysis := analysis s; analyzing := analyzing s |}.
Definition setEvaluation v s :=
  {| topic := topic s; numCards := numCards s; difficulty := difficulty s;
     cards := cards s; currentIndex := currentIndex s;
     loading := loading s; error := error s; userAnswer := userAnswer s;
     showAnswer := showAnswer s; evaluation := v;
     evaluating := evaluating s; cardResults := cardResults s;
     totalScore := totalScore s; sessionComplete := sessionComplete s;
     analysis := analysis s; analyzing := analyzing s |}.
Definition setEvaluating v s :=
  {| topic := topic s; numCards := numCards s; difficulty := difficulty s;
     cards := cards s; currentIndex := currentIndex s;
     loading := loading s; error := error s; userAnswer := userAnswer s;
     showAnswer := showAnswer s; evaluation := evaluation s;
     evaluating := v; cardResults := cardResults s;
     totalScore := totalScore s; sessionComplete := sessionComplete s;
     analysis := analysis s; analyzing := analyzing s |}.
Definition setCardResults v s :=
  {| topic := topic s; numCards := numCards s; difficulty := difficulty s;
     cards := cards s; currentIndex := currentIndex s;
     loading := loading s; error := error s; userAnswer := userAnswer s;
     showAnswer := showAnswer s; evaluation := evaluation s;
     evaluating := evaluating s; cardResults := v;
     totalScore := totalScore s; sessionComplete := sessionComplete s;
     analysis := analysis s; analyzing := analyzing s |}.
Definition setTotalScore v s :=
  {| topic := topic s; numCards := numCards s; difficulty := difficulty s;
     cards := cards s; currentIndex := currentIndex s;
     loading := loading s; error := error s; userAnswer := userAnswer s;
     showAnswer := showAnswer s; evaluation := evaluation s;
     evaluating := evaluating s; cardResults := cardResults s;
     totalScore := v; sessionComplete := sessionComplete s;
     analysis := analysis s; analyzing := analyzing s |}.
Definition setSessionComplete v s :=
  {| topic := topic s; numCards := numCards s; difficulty := difficulty s;
     cards := cards s; currentIndex := currentIndex s;
     loading := loading s; error := error s; userAnswer := userAnswer s;
     showAnswer := showAnswer s; evaluation := evaluation s;
     evaluating := evaluating s; cardResults := cardResults s;
     totalScore := totalScore s; sessionComplete := v;
     analysis := analysis s; analyzing := analyzing s |}.
Definition setAnalysis v s :=
  {| topic := topic s; numCards := numCards s; difficulty := difficulty s;
     cards := cards s; currentIndex := currentIndex s;
     loading := loading s; error := error s; userAnswer := userAnswer s;
     showAnswer := showAnswer s; evaluation := evaluation s;
     evaluating := evaluating s; cardResults := cardResults s;
     totalScore := totalScore s; sessionComplete := sessionComplete s;
     analysis := v; analyzing := analyzing s |}.
Definition setAnalyzing v s :=
  {| topic := topic s; numCards := numCards s; difficulty := difficulty s;
     cards := cards s; currentIndex := currentIndex s;
     loading := loading s; error := error s; userAnswer := userAnswer s;
     showAnswer := showAnswer s; evaluation := evaluation s;
     evaluating := evaluating s; cardResults := cardResults s;
     totalScore := totalScore s; sessionComplete := sessionComplete s;
     analysis := analysis s; analyzing := v |}.

(** *** Handlers *)

(** A call of [setFlashCardsData] made by a handler: [None] when the
    handler makes none, [Some next] for [setFlashCardsData(next)]. *)
Definition ContextWrite : Type := option (option FlashCardsData).

(** [generate], up to [await api.generateFlashCards(...)]; the closure
    keeps [topic]. *)
Definition generate (s : State) : State * list Effect * string :=
  (setError None (setLoading true s),
   [PostFlashCards
      {| req_topic := JS.or_null (JS.trim (topic s));
         num_cards := numCards s;
         difficulty_level := difficulty s |}],
   topic s).

(** [generate], from the settled promise on. *)
Definition generate_settled (closed_topic : string) (r : Settled Generated)
    (s : State) : State * ContextWrite :=
  match r with
  | Ok res =>
      let newCards := default [] (flash_cards res) in
      (setLoading false
         (setAnalysis None
            (setSessionComplete false
               (setTotalScore 0%Q
                  (setCardResults []
                     (setEvaluation None
                        (setShowAnswer false
                           (setUserAnswer ""
                              (setCurrentIndex 0%nat
                                 (setCards newCards s))))))))),
       Some (Some {| data_cards := newCards;
                     data_topic :=
                       JS.opt_or_else (generated_topic res) closed_topic;
                     data_currentIndex := 0 |}))
  | Err err =>
      (setLoading false
         (setCards []
            (setError (Some (detail_or err "Failed to generate flash cards")) s)),
       None)
  end.

(** What [submitAnswer] keeps across its [await]: the card and the
    [userAnswer] of the render that ran the handler. *)
Record SubmitClosure := {
  currentCard : Card;
  closed_userAnswer : string
}.

(** [submitAnswer], up to [await api.evaluateFlashCardAnswer(...)].
    Without a current card, reading [currentCard.back] throws inside the
    [try]: the [catch] and [finally] blocks run at once. *)
Definition submitAnswer (s : State)
  : State * list Effect * option SubmitClosure :=
  if negb (JS.truthy (JS.trim (userAnswer s))) || evaluating s
  then (s, [], None)
  else
    match cards s !! currentIndex s with
    | Some card =>
        (setEvaluating true s,
         [PostEvaluate
            {| req_user_answer := JS.trim (userAnswer s);
               req_correct_answer := back card;
               req_question := front card |}],
         Some {| currentCard := card; closed_userAnswer := userAnswer s |})
    | None =>
        (setEvaluating false
           (setError (Some (Text "Failed to evaluate answer"))
              (setEvaluating true s)),
         [], None)
    end.

(** [submitAnswer], from the settled promise on. *)
Definition submitAnswer_settled (c : SubmitClosure) (r : Settled Evaluation)
    (s : State) : State :=
  match r with
  | Ok result =>
      setEvaluating false
        (setCardResults
           (cardResults s ++
              [ {| result_question := front (currentCard c);
                   user_answer := JS.trim (closed_userAnswer c);
                   correct_answer := back (currentCard c);
                   result_score := score result;
                   result_feedback := feedback result |} ])%list
           (setTotalScore (Double.add (totalScore s) (score result))
              (setShowAnswer true
                 (setEvaluation (Some result) s))))
  | Err _ =>
      setEvaluating false
        (setError (Some (Text "Failed to evaluate answer")) s)
  end.

Definition goToCard (idx : nat) (s : State) : State :=
  match cardResults s !! idx with
  | Some prevResult =>
      setEvaluation
        (Some {| score := result_score prevResult;
                 feedback := result_feedback prevResult;
                 is_correct := Qle_bool 1 (result_score prevResult);
                 is_partial :=
                   negb (Qle_bool (result_score prevResult) 0)
                   && negb (Qle_bool 1 (result_score prevResult)) |})
        (setShowAnswer true
           (setUserAnswer (user_answer prevResult)
              (setCurrentIndex idx s)))
  | None =>
      setEvaluation None
        (setShowAnswer false
           (setUserAnswer ""
              (setCurrentIndex idx s)))
  end.

(** [analyzeSession], up to [await api.analyzeFlashCardSession(...)]. *)
Definition analyzeSession (s : State) : State * list Effect :=
  (setAnalyzing true s,
   [PostAnalyze
      {| analyze_topic := JS.or_else (topic s) "neuroanatomy";
         total_score := totalScore s;
         max_score := length (cards s);
         card_results := cardResults s |}]).

(** [analyzeSession], from the settled promise on. *)
Definition analyzeSession_settled (r : Settled Analysis) (s : State) : State :=
  match r with
  | Ok result => setAnalyzing false (setAnalysis (Some result) s)
  | Err _ =>
      setAnalyzing false
        (setError (Some (Text "Failed to analyze session")) s)
  end.

(** [nextCard]; the second component tells whether [analyzeSession] was
    called. *)
Definition nextCard (s : State) : State * list Effect :=
  if Z.of_nat (currentIndex s) <? Z.of_nat (length (cards s)) - 1
  then (goToCard (currentIndex s + 1)%nat s, [])
  else analyzeSession (setSessionComplete true s).

Definition prevCard (s : State) : State :=
  if 0 <? Z.of_nat (currentIndex s)
  then goToCard (currentIndex s - 1)%nat s
  else s.

Definition startNewSession (recommendedTopic : option string) (s : State)
  : State * ContextWrite :=
  let s1 :=
    match recommendedTopic with
    | Some t => if JS.truthy t then setTopic t s else s
    | None => s
    end in
  (setAnalysis None
     (setSessionComplete false
        (setTotalScore 0%Q
           (setCardResults []
              (setEvaluation None
                 (setShowAnswer false
                    (setUserAnswer ""
                       (setCurrentIndex 0%nat
                          (setCards [] s1)))))))),
   Some None).

Definition startOver (s : State) : State * ContextWrite :=
  startNewSession None s.

(** *** Values derived during render *)

(** [totalScore.toFixed(1)], in tenths. *)
Definition finalScore (s : State) : Z := JS.toFixed 1 (totalScore s).

(** [((totalScore / cards.length) * 100).toFixed(0)]; without cards the
    quotient is [NaN] or [Infinity] and so is the text: [None]. *)
Definition finalPercentage (s : State) : option Z :=
  if (0 <? length (cards s))%nat
  then Some (JS.toFixed 0
               (Double.mul
                  (Double.div (totalScore s) (Double.ofNat (length (cards s))))
                  100))
  else None.

Definition setupVisible (s : State) : bool :=
  negb (0 <? length (cards s))%nat && negb (sessionComplete s).

Definition completionVisible (s : State) : option Analysis :=
  if sessionComplete s then analysis s else None.

Definition viewerVisible (s : State) : bool :=
  (0 <? length (cards s))%nat && negb (sessionComplete s).

(** *** The page, the context cell and the storage behind it *)

(** Besides the component: the [flashCardsData] cell of the provider, the
    browser's [localStorage], whether [setItem] succeeds there ([writable]),
    and the calls in flight: the closures of the waiting [generate] and
    [submitAnswer] calls, and the number of waiting [analyzeSession]
    calls. *)
Record World := {
  ui : State;
  flashCardsData : option FlashCardsData;
  localStorage : gmap string (AppContext.Item FlashCardsData);
  writable : bool;
  pendingGenerates : list string;
  pendingEvaluations : list SubmitClosure;
  pendingAnalyses : nat
}.

Definition withUi (f : State → State) (w : World) : World :=
  {| ui := f (ui w); flashCardsData := flashCardsData w;
     localStorage := localStorage w; writable := writable w;
     pendingGenerates := pendingGenerates w;
     pendingEvaluations := pendingEvaluations w;
     pendingAnalyses := pendingAnalyses w |}.

(** [setFlashCardsData(next)] of the provider: the cell and the item. *)
Definition setFlashCardsData (next : option FlashCardsData) (w : World)
  : World :=
  {| ui := ui w; flashCardsData := next;
     localStorage :=
       AppContext.persist (writable w) AppContext.STORAGE_KEYS_flashCards
         next (localStorage w);
     writable := writable w;
     pendingGenerates := pendingGenerates w;
     pendingEvaluations := pendingEvaluations w;
     pendingAnalyses := pendingAnalyses w |}.

Definition write (cw : ContextWrite) (w : World) : World :=
  match cw with
  | Some next => setFlashCardsData next w
  | None => w
  end.

(** The body of the component's [useEffect]. *)
Definition persistEffect (w : World) : World :=
  if (0 <? length (cards (ui w)))%nat && negb (sessionComplete (ui w))
  then
    setFlashCardsData
      (Some {| data_cards := cards (ui w);
               data_topic := topic (ui w);
               data_currentIndex := currentIndex (ui w) |}) w
  else w.

(** Its dependency array. *)
Definition deps (s : State) : nat * string * nat * bool :=
  (length (cards s), topic s, currentIndex s, sessionComplete s).

(** After a render the effect runs when a dependency has changed. *)
Definition afterRender (before : State) (w : World) : World :=
  if bool_decide (deps before = deps (ui w)) then w else persistEffect w.

(** Loading the page: the provider reads the item, the component reads the
    cell, the effect runs once. *)
Definition mount (canWrite : bool)
    (stored : gmap string (AppContext.Item FlashCardsData)) : World :=
  let data := AppContext.restore AppContext.STORAGE_KEYS_flashCards stored in
  persistEffect
    {| ui := initial data; flashCardsData := data;
       localStorage := stored; writable := canWrite;
       pendingGenerates := []; pendingEvaluations := [];
       pendingAnalyses := 0 |}.

Inductive Event :=
| ChangeTopic (value : string)
| ChangeNumCards (value : string)
| ChangeDifficulty (value : string)
| ClickGenerate
| ClickStartOver
| ClickPrevious
| ChangeUserAnswer (value : string)
| ClickSubmitAnswer
| ClickNextCard
| ClickRecommendedTopic (i : nat)
| ClickNewSession
| GenerateSettled (n : nat) (r : Settled Generated)
| EvaluationSettled (n : nat) (r : Settled Evaluation)
| AnalysisSettled (r : Settled Analysis).

(** The set-up form, shown when [!cards.length && !sessionComplete]. *)
Definition onSetupForm (w : World) (e : Event) : World * list Effect :=
  match e with
  | ChangeTopic v => (withUi (setTopic v) w, [])
  | ChangeNumCards v =>
      (withUi (setNumCards (JS.int_or (JS.parseInt v) 10)) w, [])
  | ChangeDifficulty v => (withUi (setDifficulty v) w, [])
  | ClickGenerate =>
      if loading (ui w) then (w, [])
      else
        let '(s', out, t) := generate (ui w) in
        ({| ui := s'; flashCardsData := flashCardsData w;
            localStorage := localStorage w; writable := writable w;
            pendingGenerates := (pendingGenerates w ++ [t])%list;
            pendingEvaluations := pendingEvaluations w;
            pendingAnalyses := pendingAnalyses w |}, out)
  | _ => (w, [])
  end.

(** The card viewer, shown when [cards.length > 0 && !sessionComplete]. *)
Definition onViewer (w : World) (e : Event) : World * list Effect :=
  let s := ui w in
  match e with
  | ClickStartOver =>
      let '(s', cw) := startOver s in (write cw (withUi (λ _, s') w), [])
  | ClickPrevious =>
      if bool_decide (currentIndex s = 0%nat) then (w, [])
      else (withUi prevCard w, [])
  | ChangeUserAnswer v =>
      if showAnswer s || evaluating s then (w, [])
      else (withUi (setUserAnswer v) w, [])
  | ClickSubmitAnswer =>
      if showAnswer s
         || negb (JS.truthy (JS.trim (userAnswer s))) || evaluating s
      then (w, [])
      else
        let '(s', out, c) := submitAnswer s in
        ({| ui := s'; flashCardsData := flashCardsData w;
            localStorage := localStorage w; writable := writable w;
            pendingGenerates := pendingGenerates w;
            pendingEvaluations := (pendingEvaluations w ++ option_list c)%list;
            pendingAnalyses := pendingAnalyses w |}, out)
  | ClickNextCard =>
      match showAnswer s, evaluation s with
      | true, Some _ =>
          let '(s', out) := nextCard s in
          ({| ui := s'; flashCardsData := flashCardsData w;
              localStorage := localStorage w; writable := writable w;
              pendingGenerates := pendingGenerates w;
              pendingEvaluations := pendingEvaluations w;
              pendingAnalyses :=
                (pendingAnalyses w + length out)%nat |}, out)
      | _, _ => (w, [])
      end
  | _ => (w, [])
  end.

(** The summary, shown when [sessionComplete && analysis]. *)
Definition onCompletion (a : Analysis) (w : World) (e : Event)
  : World * list Effect :=
  match e with
  | ClickRecommendedTopic i =>
      match recommended_topics a !! i with
      | Some t =>
          let '(s', cw) := startNewSession (Some t) (ui w) in
          (write cw (withUi (λ _, s') w), [])
      | None => (w, [])
      end
  | ClickNewSession =>
      let '(s', cw) := startNewSession None (ui w) in
      (write cw (withUi (λ _, s') w), [])
  | _ => (w, [])
  end.

Definition dispatch (w : World) (e : Event) : World * list Effect :=
  match e with
  | GenerateSettled n r =>
      match pendingGenerates w !! n with
      | Some t =>
          let '(s', cw) := generate_settled t r (ui w) in
          (write cw
             {| ui := s'; flashCardsData := flashCardsData w;
                localStorage := localStorage w; writable := writable w;
                pendingGenerates := delete n (pendingGenerates w);
                pendingEvaluations := pendingEvaluations w;
                pendingAnalyses := pendingAnalyses w |}, [])
      | None => (w, [])
      end
  | EvaluationSettled n r =>
      match pendingEvaluations w !! n with
      | Some c =>
          ({| ui := submitAnswer_settled c r (ui w);
              flashCardsData := flashCardsData w;
              localStorage := localStorage w; writable := writable w;
              pendingGenerates := pendingGenerates w;
              pendingEvaluations := delete n (pendingEvaluations w);
              pendingAnalyses := pendingAnalyses w |}, [])
      | None => (w, [])
      end
  | AnalysisSettled r =>
      match pendingAnalyses w with
      | S k =>
          ({| ui := analyzeSession_settled r (ui w);
              flashCardsData := flashCardsData w;
              localStorage := localStorage w; writable := writable w;
              pendingGenerates := pendingGenerates w;
              pendingEvaluations := pendingEvaluations w;
              pendingAnalyses := k |}, [])
      | O => (w, [])
      end
  | _ =>
      if setupVisible (ui w) then onSetupForm w e
      else if viewerVisible (ui w) then onViewer w e
      else
        match completionVisible (ui w) with
        | Some a => onCompletion a w e
        | None => (w, [])
        end
  end.

Definition step (w : World) (e : Event) : World * list Effect :=
  let '(w', out) := dispatch w e in (afterRender (ui w) w', out).

Fixpoint run (w : World) (es : list Event) : World * list Effect :=
  match es with
  | [] => (w, [])
  | e :: es' =>
      let '(w1, out1) := step w e in
      let '(w2, out2) := run w1 es' in
      (w2, (out1 ++ out2)%list)
  end.

(** The worlds the page can be in after it was loaded with [stored] in the
    storage. *)
Inductive reachable (canWrite : bool)
    (stored : gmap string (AppContext.Item FlashCardsData)) : World → Prop :=
| reachable_mount : reachable canWrite stored (mount canWrite stored)
| reachable_step w e :
    reachable canWrite stored w → reachable canWrite stored (step w e).1.

End FlashCards.

(** ** Socratic teaching (components/Teaching.jsx) *)

Module Teaching.

(** The response of [api.teach]. *)
Record TeachResponse := {
  response_question : option string;
  response_explanation : option string;
  response_hint : option string;
  is_complete : bool;
  next_step : option string;
  concepts_covered : option (list string)
}.

Record TeachRequest := {
  req_topic : string;
  user_id : string;
  difficulty_level : string;
  previous_responses : list string
}.

Inductive Effect :=
| PostTeach (data : TeachRequest)
| Alert (msg : Shown).

(** The object kept in the [session] cell. *)
Record Session := {
  session_topic : string;
  session_difficulty : string;
  currentQuestion : option string;
  explanation : option string;
  hint : option string;
  isComplete : bool;
  nextStep : option string
}.

Record QaPair := { question : option string; answer : string }.

(** *** Component state: the [useState] cells of [Teaching] *)

Record State := {
  topic : string;
  difficulty : string;
  session : option Session;
  qaPairs : list QaPair;
  currentAnswer : string;
  loading : bool;
  concepts : list string;
  userId : string
}.

Definition initial (uid : string) : State :=
  {| topic := ""; difficulty := "undergrad"; session := None;
     qaPairs := []; currentAnswer := ""; loading := false;
     concepts := []; userId := uid |}.

Definition setTopic v s :=
  {| topic := v; difficulty := difficulty s; session := session s;
     qaPairs := qaPairs s; currentAnswer := currentAnswer s;
     loading := loading s; concepts := concepts s; userId := userId s |}.
Definition setDifficulty v s :=
  {| topic := topic s; difficulty := v; session := session s;
     qaPairs := qaPairs s; currentAnswer := currentAnswer s;
     loading := loading s; concepts := concepts s; userId := userId s |}.
Definition setSession v s :=
  {| topic := topic s; difficulty := difficulty s; session := v;
     qaPairs := qaPairs s; currentAnswer := currentAnswer s;
     loading := loading s; concepts := concepts s; userId := userId s |}.
Definition setQaPairs v s :=
  {| topic := topic s; difficulty := difficulty s; session := session s;
     qaPairs := v; currentAnswer := currentAnswer s; loading := loading s;
     concepts := concepts s; userId := userId s |}.
Definition setCurrentAnswer v s :=
  {| topic := topic s; difficulty := difficulty s; session := session s;
     qaPairs := qaPairs s; currentAnswer := v; loading := loading s;
     concepts := concepts s; userId := userId s |}.
Definition setLoading v s :=
  {| topic := topic s; difficulty := difficulty s; session := session s;
     qaPairs := qaPairs s; currentAnswer := currentAnswer s; loading := v;
     concepts := concepts s; userId := userId s |}.
Definition setConcepts v s :=
  {| topic := topic s; difficulty := difficulty s; session := session s;
     qaPairs := qaPairs s; currentAnswer := currentAnswer s;
     loading := loading s; concepts := v; userId := userId s |}.
Definition setUserId v s :=
  {| topic := topic s; difficulty := difficulty s; session := session s;
     qaPairs := qaPairs s; currentAnswer := currentAnswer s;
     loading := loading s; concepts := concepts s; userId := v |}.

(** *** Handlers *)

(** What [startSession] keeps across its [await]. *)
Record StartClosure := { closed_topic : string; closed_difficulty : string }.

(** [startSession], up to [await api.teach(...)]. *)
Definition startSession (s : State)
  : State * list Effect * option StartClosure :=
  if negb (JS.truthy (JS.trim (topic s))) then (s, [], None)
  else
    (setLoading true s,
     [PostTeach
        {| req_topic := JS.trim (topic s);
           user_id := userId s;
           difficulty_level := difficulty s;
           previous_responses := [] |}],
     Some {| closed_topic := topic s; closed_difficulty := difficulty s |}).

(** [startSession], from the settled promise on. *)
Definition startSession_settled (c : StartClosure) (r : Settled TeachResponse)
    (s : State) : State * list Effect :=
  match r with
  | Ok response =>
      (setLoading false
         (setQaPairs []
            (setConcepts (default [] (concepts_covered response))
               (setSession
                  (Some {| session_topic := JS.trim (closed_topic c);
                           session_difficulty := closed_difficulty c;
                           currentQuestion := response_question response;
                           explanation := response_explanation response;
                           hint := response_hint response;
                           isComplete := is_complete response;
                           nextStep := next_step response |}) s))), [])
  | Err error =>
      (setLoading false s, [Alert (detail_or error "Failed to start session")])
  end.

(** What [submitAnswer] keeps across its [await]: [userResponse],
    [currentQ] and the [session] object of the render that ran it. *)
Record SubmitClosure := {
  userResponse : string;
  currentQ : option string;
  closed_session : Session
}.

(** [submitAnswer], up to [await api.teach(...)]. *)
Definition submitAnswer (s : State)
  : State * list Effect * option SubmitClosure :=
  match session s with
  | Some sess =>
      if negb (JS.truthy (JS.trim (currentAnswer s))) || loading s
      then (s, [], None)
      else
        let userResponse := JS.trim (currentAnswer s) in
        let updatedResponses :=
          ((answer <$> qaPairs s) ++ [userResponse])%list in
        (setLoading true (setCurrentAnswer "" s),
         [PostTeach
            {| req_topic := session_topic sess;
               user_id := userId s;
               difficulty_level := session_difficulty sess;
               previous_responses := updatedResponses |}],
         Some {| userResponse := userResponse;
                 currentQ := currentQuestion sess;
                 closed_session := sess |})
  | None => (s, [], None)
  end.

(** [submitAnswer], from the settled promise on. *)
Definition submitAnswer_settled (c : SubmitClosure) (r : Settled TeachResponse)
    (s : State) : State * list Effect :=
  match r with
  | Ok response =>
      (setLoading false
         (setConcepts (default [] (concepts_covered response))
            (setSession
               (Some {| session_topic := session_topic (closed_session c);
                        session_difficulty :=
                          session_difficulty (closed_session c);
                        currentQuestion := response_question response;
                        explanation := response_explanation response;
                        hint := response_hint response;
                        isComplete := is_complete response;
                        nextStep := next_step response |})
               (setQaPairs
                  (qaPairs s ++
                     [ {| question := currentQ c;
                          answer := userResponse c |} ])%list s))), [])
  | Err error =>
      (setLoading false s, [Alert (detail_or error "Failed to process answer")])
  end.

Definition resetSession (s : State) : State :=
  setConcepts [] (setCurrentAnswer "" (setQaPairs [] (setSession None s))).

(** *** The page *)

(** The component and the closures of its calls in flight. *)
Record World := {
  ui : State;
  pendingStarts : list StartClosure;
  pendingAnswers : list SubmitClosure
}.

Definition mount (uid : string) : World :=
  {| ui := initial uid; pendingStarts := []; pendingAnswers := [] |}.

Definition withUi (f : State → State) (w : World) : World :=
  {| ui := f (ui w); pendingStarts := pendingStarts w;
     pendingAnswers := pendingAnswers w |}.

Inductive Event :=
| ChangeTopic (value : string)
| EnterInTopic
| ChangeDifficulty (value : string)
| ClickStart
| ChangeAnswer (value : string)
| EnterInAnswer
| ClickSubmit
| ClickReset
| StartSettled (n : nat) (r : Settled TeachResponse)
| AnswerSettled (n : nat) (r : Settled TeachResponse).

Definition doStart (w : World) : World * list Effect :=
  let '(s', out, c) := startSession (ui w) in
  ({| ui := s'; pendingStarts := (pendingStarts w ++ option_list c)%list;
      pendingAnswers := pendingAnswers w |}, out).

Definition doSubmit (w : World) : World * list Effect :=
  let '(s', out, c) := submitAnswer (ui w) in
  ({| ui := s'; pendingStarts := pendingStarts w;
      pendingAnswers := (pendingAnswers w ++ option_list c)%list |}, out).

(** The set-up card, shown while [session] is [null].  The Enter key in
    the topic field calls [startSession] whatever [loading] says. *)
Definition onSetupCard (w : World) (e : Event) : World * list Effect :=
  match e with
  | ChangeTopic v => (withUi (setTopic v) w, [])
  | EnterInTopic => doStart w
  | ChangeDifficulty v => (withUi (setDifficulty v) w, [])
  | ClickStart =>
      if negb (JS.truthy (JS.trim (topic (ui w)))) || loading (ui w)
      then (w, []) else doStart w
  | _ => (w, [])
  end.

(** The conversation; the answer field is rendered until the session is
    complete and is disabled while [loading]. *)
Definition onConversation (sess : Session) (w : World) (e : Event)
  : World * list Effect :=
  match e with
  | ChangeAnswer v =>
      if isComplete sess || loading (ui w) then (w, [])
      else (withUi (setCurrentAnswer v) w, [])
  | EnterInAnswer =>
      if isComplete sess || loading (ui w) then (w, []) else doSubmit w
  | ClickSubmit =>
      if isComplete sess
         || negb (JS.truthy (JS.trim (currentAnswer (ui w))))
         || loading (ui w)
      then (w, []) else doSubmit w
  | ClickReset => (withUi resetSession w, [])
  | _ => (w, [])
  end.

Definition step (w : World) (e : Event) : World * list Effect :=
  match e with
  | StartSettled n r =>
      match pendingStarts w !! n with
      | Some c =>
          let '(s', out) := startSession_settled c r (ui w) in
          ({| ui := s'; pendingStarts := delete n (pendingStarts w);
              pendingAnswers := pendingAnswers w |}, out)
      | None => (w, [])
      end
  | AnswerSettled n r =>
      match pendingAnswers w !! n with
      | Some c =>
          let '(s', out) := submitAnswer_settled c r (ui w) in
          ({| ui := s'; pendingStarts := pendingStarts w;
              pendingAnswers := delete n (pendingAnswers w) |}, out)
      | None => (w, [])
      end
  | _ =>
      match session (ui w) with
      | None => onSetupCard w e
      | Some sess => onConversation sess w e
      end
  end.

Fixpoint run (w : World) (es : list Event) : World * list Effect :=
  match es with
  | [] => (w, [])
  | e :: es' =>
      let '(w1, out1) := step w e in
      let '(w2, out2) := run w1 es' in
      (w2, (out1 ++ out2)%list)
  end.

End Teaching.

(** ** Clinical simulation (components/ClinicalCase.jsx) *)

Module ClinicalCase.

(** The response of [api.startClinicalSession], kept in the [session]
    cell. *)
Record Session := {
  session_id : string;
  scenario_context : string;
  initial_presentation : string;
  patient_name : string;
  session_available_hints : option Z;
  session_stage : string
}.

Record CompletionData := {
  clinical_reasoning_score : Q;
  performance_summary : string;
  correct_decisions : list string;
  missed_points : list string;
  learning_points : list string;
  recommended_topics : list string
}.

(** The response of [api.interactClinicalSession]. *)
Record Interaction := {
  ai_response : string;
  stage : string;
  available_hints : option Z;
  guidance : option string;
  is_correct_path : option bool;
  hint_given : option string;
  session_complete : bool;
  completion_data : option CompletionData
}.

Record StartRequest := {
  start_topic : option string;
  start_difficulty_level : string
}.

Record InteractRequest := {
  req_session_id : string;
  user_message : string;
  request_hint : bool
}.

Inductive Effect :=
| PostStart (data : StartRequest)
| PostInteract (data : InteractRequest).

(** The entries of [messages], by their [type]; [id] and [timestamp] come
    from the clock.  An answer of the service is spread into its entry
    ([...res]). *)
Inductive Message :=
| SystemMessage (id : Z) (content : string) (timestamp : Z)
| PresentationMessage (id : Z) (content patient : string) (timestamp : Z)
| StudentMessage (id : Z) (content : string) (timestamp : Z)
| HintMessage (id : Z) (timestamp : Z) (res : Interaction)
| ResponseMessage (id : Z) (timestamp : Z) (res : Interaction)
| CompletionMessage (id : Z) (content : CompletionData) (timestamp : Z).

(** *** Component state: the [useState] cells of [ClinicalCase] *)

Record State := {
  topic : string;
  difficulty : string;
  session : option Session;
  messages : list Message;
  input : string;
  loading : bool;
  starting : bool;
  error : option Shown;
  availableHints : option Z;
  showingHint : bool
}.

Definition initial : State :=
  {| topic := ""; difficulty := "med"; session := None; messages := [];
     input := ""; loading := false; starting := false; error := None;
     availableHints := Some 3; showingHint := false |}.

Definition setTopic v s :=
  {| topic := v; difficulty := difficulty s; session := session s;
     messages := messages s; input := input s; loading := loading s;
     starting := starting s; error := error s;
     availableHints := availableHints s; showingHint := showingHint s |}.
Definition setDifficulty v s :=
  {| topic := topic s; difficulty := v; session := session s;
     messages := messages s; input := input s; loading := loading s;
     starting := starting s; error := error s;
     availableHints := availableHints s; showingHint := showingHint s |}.
Definition setSession v s :=
  {| topic := topic s; difficulty := difficulty s; session := v;
     messages := messages s; input := input s; loading := loading s;
     starting := starting s; error := error s;
     availableHints := availableHints s; showingHint := showingHint s |}.
Definition setMessages v s :=
  {| topic := topic s; difficulty := difficulty s; session := session s;
     messages := v; input := input s; loading := loading s;
     starting := starting s; error := error s;
     availableHints := availableHints s; showingHint := showingHint s |}.
Definition setInput v s :=
  {| topic := topic s; difficulty := difficulty s; session := session s;
     messages := messages s; input := v; loading := loading s;
     starting := starting s; error := error s;
     availableHints := availableHints s; showingHint := showingHint s |}.
Definition setLoading v s :=
  {| topic := topic s; difficulty := difficulty s; session := session s;
     messages := messages s; input := input s; loading := v;
     starting := starting s; error := error s;
     availableHints := availableHints s; showingHint := showingHint s |}.
Definition setStarting v s :=
  {| topic := topic s; difficulty := difficulty s; session := session s;
     messages := messages s; input := input s; loading := loading s;
     starting := v; error := error s; availableHints := availableHints s;
     showingHint := showingHint s |}.
Definition setError v s :=
  {| topic := topic s; difficulty := difficulty s; session := session s;
     messages := messages s; input := input s; loading := loading s;
     starting := starting s; error := v;
     availableHints := availableHints s; showingHint := showingHint s |}.
Definition setAvailableHints v s :=
  {| topic := topic s; difficulty := difficulty s; session := session s;
     messages := messages s; input := input s; loading := loading s;
     starting := starting s; error := error s; availableHints := v;
     showingHint := showingHint s |}.
Definition setShowingHint v s :=
  {| topic := topic s; difficulty := difficulty s; session := session s;
     messages := messages s; input := input s; loading := loading s;
     starting := starting s; error := error s;
     availableHints := availableHints s; showingHint := v |}.

(** *** Handlers *)

(** [startSession], up to [await api.startClinicalSession(...)]. *)
Definition startSession (s : State) : State * list Effect :=
  (setError None (setStarting true s),
   [PostStart {| start_topic := JS.or_null (JS.trim (topic s));
                 start_difficulty_level := difficulty s |}]).

(** [res.available_hints || 3]: an absent count and [0] both give [3]. *)
Definition hintsOr3 (n : option Z) : Z := JS.int_or n 3.

(** [startSession], from the settled promise on, at clock time [now]. *)
Definition startSession_settled (now : Z) (r : Settled Session) (s : State)
  : State :=
  match r with
  | Ok res =>
      setStarting false
        (setMessages
           [ SystemMessage 1 (scenario_context res) now;
             PresentationMessage 2 (initial_presentation res)
               (patient_name res) now ]
           (setAvailableHints (Some (hintsOr3 (session_available_hints res)))
              (setSession (Some res) s)))
  | Err err =>
      setStarting false
        (setError (Some (detail_or err "Failed to start clinical session")) s)
  end.

(** [sendMessage(requestHint)], up to
    [await api.interactClinicalSession(...)], at clock time [now].  The
    closure keeps [requestHint].  Without a session, reading
    [session.session_id] throws inside the [try]: the [catch] and
    [finally] blocks run at once. *)
Definition sendMessage (requestHint : bool) (now : Z) (s : State)
  : State * list Effect * option bool :=
  if (negb (JS.truthy (JS.trim (input s))) && negb requestHint) || loading s
  then (s, [], None)
  else
    let userMessage := JS.trim (input s) in
    let s1 :=
      if requestHint then s
      else setInput ""
             (setMessages
                (messages s ++ [StudentMessage now userMessage now])%list s) in
    let s2 := setShowingHint requestHint (setLoading true s1) in
    match session s with
    | Some sess =>
        (s2,
         [PostInteract
            {| req_session_id := session_id sess;
               user_message := JS.or_else userMessage "(requested hint)";
               request_hint := requestHint |}],
         Some requestHint)
    | None =>
        (setShowingHint false
           (setLoading false
              (setError (Some (Text "Failed to process message")) s2)),
         [], None)
    end.

(** [sendMessage], from the settled promise on, at clock time [now]. *)
Definition sendMessage_settled (requestHint : bool) (now : Z)
    (r : Settled Interaction) (s : State) : State :=
  match r with
  | Ok res =>
      let aiMessage :=
        if requestHint then HintMessage (now + 1) now res
        else ResponseMessage (now + 1) now res in
      let completion :=
        match session_complete res, completion_data res with
        | true, Some data => [CompletionMessage (now + 2) data now]
        | _, _ => []
        end in
      setShowingHint false
        (setLoading false
           (setMessages (messages s ++ [aiMessage] ++ completion)%list
              (setSession
                 (match session s with
                  | Some prev =>
                      Some {| session_id := session_id prev;
                              scenario_context := scenario_context prev;
                              initial_presentation := initial_presentation prev;
                              patient_name := patient_name prev;
                              session_available_hints :=
                                session_available_hints prev;
                              session_stage := stage res |}
                  | None => None
                  end)
                 (setAvailableHints (available_hints res) s))))
  | Err err =>
      setShowingHint false
        (setLoading false
           (setError (Some (detail_or err "Failed to process message")) s))
  end.

Definition resetSession (s : State) : State :=
  setError None
    (setAvailableHints (Some 3)
       (setInput "" (setMessages [] (setSession None s)))).

(** *** The page *)

(** The component, the number of waiting [startSession] calls and, for each
    waiting [sendMessage] call, its [requestHint]. *)
Record World := {
  ui : State;
  pendingStarts : nat;
  pendingInteractions : list bool
}.

Definition mount : World :=
  {| ui := initial; pendingStarts := 0; pendingInteractions := [] |}.

Definition withUi (f : State → State) (w : World) : World :=
  {| ui := f (ui w); pendingStarts := pendingStarts w;
     pendingInteractions := pendingInteractions w |}.

Inductive Event :=
| ChangeTopic (value : string)
| ChangeDifficulty (value : string)
| ClickEnterOR
| ClickHint (now : Z)
| ChangeInput (value : string)
| SubmitForm (now : Z)
| ClickRecommendedTopic (m i : nat)
| ClickNewCase (m : nat)
| StartSettled (now : Z) (r : Settled Session)
| InteractionSettled (n : nat) (now : Z) (r : Settled Interaction).

Definition doSend (requestHint : bool) (now : Z) (w : World)
  : World * list Effect :=
  let '(s', out, c) := sendMessage requestHint now (ui w) in
  ({| ui := s'; pendingStarts := pendingStarts w;
      pendingInteractions :=
        (pendingInteractions w ++ option_list c)%list |}, out).

(** The set-up card, shown while [session] is [null]. *)
Definition onSetupCard (w : World) (e : Event) : World * list Effect :=
  match e with
  | ChangeTopic v => (withUi (setTopic v) w, [])
  | ChangeDifficulty v => (withUi (setDifficulty v) w, [])
  | ClickEnterOR =>
      if starting (ui w) then (w, [])
      else
        let '(s', out) := startSession (ui w) in
        ({| ui := s'; pendingStarts := S (pendingStarts w);
            pendingInteractions := pendingInteractions w |}, out)
  | _ => (w, [])
  end.

(** The hint button is [disabled={loading || availableHints === 0}]. *)
Definition hintDisabled (s : State) : bool :=
  loading s || bool_decide (availableHints s = Some 0).

(** The operating room, shown once there is a session.  [m] names the
    message whose completion card carries the clicked button. *)
Definition onOperatingRoom (w : World) (e : Event) : World * list Effect :=
  let s := ui w in
  match e with
  | ClickHint now =>
      if hintDisabled s then (w, []) else doSend true now w
  | ChangeInput v =>
      if loading s then (w, []) else (withUi (setInput v) w, [])
  | SubmitForm now =>
      if negb (JS.truthy (JS.trim (input s))) || loading s then (w, [])
      else doSend false now w
  | ClickRecommendedTopic m i =>
      match messages s !! m with
      | Some (CompletionMessage _ data _) =>
          match recommended_topics data !! i with
          | Some t => (withUi (λ s, resetSession (setTopic t s)) w, [])
          | None => (w, [])
          end
      | _ => (w, [])
      end
  | ClickNewCase m =>
      match messages s !! m with
      | Some (CompletionMessage _ _ _) => (withUi resetSession w, [])
      | _ => (w, [])
      end
  | _ => (w, [])
  end.

Definition step (w : World) (e : Event) : World * list Effect :=
  match e with
  | StartSettled now r =>
      match pendingStarts w with
      | S k =>
          ({| ui := startSession_settled now r (ui w); pendingStarts := k;
              pendingInteractions := pendingInteractions w |}, [])
      | O => (w, [])
      end
  | InteractionSettled n now r =>
      match pendingInteractions w !! n with
      | Some requestHint =>
          ({| ui := sendMessage_settled requestHint now r (ui w);
              pendingStarts := pendingStarts w;
              pendingInteractions := delete n (pendingInteractions w) |}, [])
      | None => (w, [])
      end
  | _ =>
      match session (ui w) with
      | None => onSetupCard w e
      | Some _ => onOperatingRoom w e
      end
  end.

Fixpoint run (w : World) (es : list Event) : World * list Effect :=
  match es with
  | [] => (w, [])
  | e :: es' =>
      let '(w1, out1) := step w e in
      let '(w2, out2) := run w1 es' in
      (w2, (out1 ++ out2)%list)
  end.

End ClinicalCase.

(** ** Strings and files of the browser *)

Module Browser.

(** [String.prototype.toLowerCase] on the letters A to Z.  File names are
    taken to be ASCII texts. *)
Definition lower (c : ascii) : ascii :=
  let n := nat_of_ascii c in
  if (65 <=? n)%nat && (n <=? 90)%nat then ascii_of_nat (n + 32) else c.

Fixpoint toLowerCase (s : string) : string :=
  match s with
  | String c s' => String (lower c) (toLowerCase s')
  | EmptyString => EmptyString
  end.

(** [String.prototype.split] with a separator of one character. *)
Fixpoint split (sep : ascii) (s : string) : list string :=
  match s with
  | String c s' =>
      if Ascii.eqb c sep then EmptyString :: split sep s'
      else
        match split sep s' with
        | x :: rest => String c x :: rest
        | [] => [String c EmptyString]
        end
  | EmptyString => [EmptyString]
  end.

(** The value of [Array.prototype.pop]: the last element, [undefined] on
    an empty array. *)
Definition pop {A : Type} (l : list A) : option A := last l.

(** [String.prototype.endsWith], which is also what a pattern anchored with
    [$] asks of its input. *)
Fixpoint endsWith (s suffix : string) : bool :=
  String.eqb s suffix
  || match s with
     | String _ s' => endsWith s' suffix
     | EmptyString => false
     end.

(** Whether a character occurs in a text. *)
Fixpoint occurs (c : ascii) (s : string) : bool :=
  match s with
  | String c' s' => Ascii.eqb c' c || occurs c s'
  | EmptyString => false
  end.

(** [Array.prototype.filter] with a predicate that reads the index. *)
Fixpoint filteri {A : Type} (f : A → nat → bool) (i : nat) (l : list A)
  : list A :=
  match l with
  | [] => []
  | x :: rest => if f x i then x :: filteri f (S i) rest else filteri f (S i) rest
  end.

(** A [File] of the browser, as far as the pages read it. *)
Record File := { name : string; size : Z }.

End Browser.

(** ** Upload (components/Upload.jsx) *)

Module Upload.

Import Browser.

(** The response of [api.uploadFile]. *)
Record UploadResponse := {
  chunks_created : Z;
  document_id : option string;
  message : string
}.

(** [api.uploadFile(file, source)]: the two fields of its form. *)
Inductive Effect :=
| PostIngestFile (file : File) (source : string).

(** *** Component state: the [useState] cells of [Upload] *)

Record State := {
  file : option File;
  source : string;
  uploading : bool;
  result : option UploadResponse;
  error : option Shown;
  dragActive : bool
}.

Definition initial : State :=
  {| file := None; source := "uploaded_file"; uploading := false;
     result := None; error := None; dragActive := false |}.

Definition setFile v s :=
  {| file := v; source := source s; uploading := uploading s;
     result := result s; error := error s; dragActive := dragActive s |}.
Definition setSource v s :=
  {| file := file s; source := v; uploading := uploading s;
     result := result s; error := error s; dragActive := dragActive s |}.
Definition setUploading v s :=
  {| file := file s; source := source s; uploading := v;
     result := result s; error := error s; dragActive := dragActive s |}.
Definition setResult v s :=
  {| file := file s; source := source s; uploading := uploading s;
     result := v; error := error s; dragActive := dragActive s |}.
Definition setError v s :=
  {| file := file s; source := source s; uploading := uploading s;
     result := result s; error := v; dragActive := dragActive s |}.
Definition setDragActive v s :=
  {| file := file s; source := source s; uploading := uploading s;
     result := result s; error := error s; dragActive := v |}.

(** *** Handlers *)

Definition handleDrag (type : string) (s : State) : State :=
  if bool_decide (type = "dragenter") || bool_decide (type = "dragover")
  then setDragActive true s
  else if bool_decide (type = "dragleave") then setDragActive false s
  else s.

Definition validTypes : list string :=
  [".pdf"; ".pptx"; ".ppt"; ".html"; ".htm"; ".txt"].

(** ['.' + selectedFile.name.split('.').pop().toLowerCase()]; [split]
    never returns an empty array. *)
Definition fileExtension (selectedFile : File) : string :=
  "." ++ toLowerCase (default "" (pop (split "." (name selectedFile)))).

Definition handleFile (selectedFile : File) (s : State) : State :=
  if bool_decide (fileExtension selectedFile ∈ validTypes)
  then setResult None (setError None (setFile (Some selectedFile) s))
  else
    setFile None
      (setError (Some (Text "Please upload a PDF, PPTX, HTML, or text file")) s).

(** [files] is [e.dataTransfer.files]. *)
Definition handleDrop (files : list File) (s : State) : State :=
  match files !! 0%nat with
  | Some f => handleFile f (setDragActive false s)
  | None => setDragActive false s
  end.

(** [files] is [e.target.files]. *)
Definition handleFileSelect (files : list File) (s : State) : State :=
  match files !! 0%nat with
  | Some f => handleFile f s
  | None => s
  end.

(** [handleUpload], up to [await api.uploadFile(...)]. *)
Definition handleUpload (s : State) : State * list Effect :=
  match file s with
  | Some f =>
      (setResult None (setError None (setUploading true s)),
       [PostIngestFile f (source s)])
  | None => (s, [])
  end.

(** [handleUpload], from the settled promise on. *)
Definition handleUpload_settled (r : Settled UploadResponse) (s : State)
  : State :=
  match r with
  | Ok response =>
      setUploading false (setFile None (setResult (Some response) s))
  | Err err =>
      setUploading false
        (setError
           (Some (detail_or err "Failed to upload file. Please try again.")) s)
  end.

Definition reset (s : State) : State :=
  setError None (setResult None (setFile None s)).

(** *** The page *)

(** The component and the number of waiting [handleUpload] calls. *)
Record World := { ui : State; pendingUploads : nat }.

Definition mount : World := {| ui := initial; pendingUploads := 0 |}.

Definition withUi (f : State → State) (w : World) : World :=
  {| ui := f (ui w); pendingUploads := pendingUploads w |}.

Inductive Event :=
| Drag (type : string)
| DropFiles (files : list File)
| SelectFiles (files : list File)
| ClickRemoveFile
| ChangeSource (value : string)
| ClickUpload
| ClickUploadAnother
| UploadSettled (r : Settled UploadResponse).

(** The upload area and the form under it, shown while there is no
    [result].  The file input is disabled while [uploading]; the remove
    button is rendered for a file that is not being uploaded; the source
    field and the upload button are rendered when there is a file and are
    disabled while [uploading]. *)
Definition onUploadArea (w : World) (e : Event) : World * list Effect :=
  let s := ui w in
  match e with
  | Drag type => (withUi (handleDrag type) w, [])
  | DropFiles files => (withUi (handleDrop files) w, [])
  | SelectFiles files =>
      if uploading s then (w, []) else (withUi (handleFileSelect files) w, [])
  | ClickRemoveFile =>
      match file s with
      | Some _ => if uploading s then (w, []) else (withUi (setFile None) w, [])
      | None => (w, [])
      end
  | ChangeSource v =>
      match file s with
      | Some _ => if uploading s then (w, []) else (withUi (setSource v) w, [])
      | None => (w, [])
      end
  | ClickUpload =>
      match file s with
      | Some _ =>
          if uploading s then (w, [])
          else
            let '(s', out) := handleUpload s in
            ({| ui := s'; pendingUploads := S (pendingUploads w) |}, out)
      | None => (w, [])
      end
  | _ => (w, [])
  end.

(** The success card, shown once there is a [result]. *)
Definition onSuccessCard (w : World) (e : Event) : World * list Effect :=
  match e with
  | ClickUploadAnother => (withUi reset w, [])
  | _ => (w, [])
  end.

Definition step (w : World) (e : Event) : World * list Effect :=
  match e with
  | UploadSettled r =>
      match pendingUploads w with
      | S k =>
          ({| ui := handleUpload_settled r (ui w); pendingUploads := k |}, [])
      | O => (w, [])
      end
  | _ =>
      match result (ui w) with
      | None => onUploadArea w e
      | Some _ => onSuccessCard w e
      end
  end.

Fixpoint run (w : World) (es : list Event) : World * list Effect :=
  match es with
  | [] => (w, [])
  | e :: es' =>
      let '(w1, out1) := step w e in
      let '(w2, out2) := run w1 es' in
      (w2, (out1 ++ out2)%list)
  end.

End Upload.

(** ** Chat (components/Query.jsx) *)

Module Query.

Import Browser.

(** One entry of [sources] in an answer, as far as the page reads it. *)
Record Source := {
  preview : option string;
  content : option string;
  source : option string;
  structure_name : option string;
  score : option Q
}.

(** The response of [api.query] and [api.queryWithFiles]. *)
Record Response := {
  answer : string;
  sources : option (list Source);
  confidence : Q;
  intent : option string
}.

(** What the [catch] block of [handleSubmit] reads of an error: the axios
    error and [error.response.data?.message]. *)
Record QueryError := { axios : AxiosError; data_message : option string }.

(** The settled promise of a query. *)
Inductive Reply :=
| Answered (response : Response)
| Failed (error : QueryError).

(** The entries of [chatMessages], by their [type].  [timestamp] is the
    instant of a [Date]; the stored text holds it as a string of that
    instant, and no code reads it. *)
Inductive Message :=
| UserMessage (id : Z) (content : string) (timestamp : Z)
| BotMessage (id : Z) (content : string) (sources : option (list Source))
    (confidence : Q) (intent : option string) (timestamp : Z)
| ErrorMessage (id : Z) (content : Shown) (timestamp : Z).

Record QueryRequest := {
  query : string;
  user_id : string;
  difficulty_level : string;
  system_filter : option string;
  clinical_only : bool
}.

(** A value appended to a [FormData]. *)
Inductive FormValue :=
| Field (value : string)
| FileField (file : File).

Inductive Effect :=
| GetHealth
| PostQuery (data : QueryRequest)
| PostQueryWithFiles (formData : list (string * FormValue)).

(** The form built by [api.queryWithFiles(query, files, options)]. *)
Definition queryWithFiles (query : string) (files : list File)
    (userId difficultyLevel : string) (systemFilter : option string)
    (clinicalOnly : bool) : Effect :=
  PostQueryWithFiles
    ([("query", Field query)]
     ++ (if JS.truthy userId then [("user_id", Field userId)] else [])
     ++ (if JS.truthy difficultyLevel
         then [("difficulty_level", Field difficultyLevel)] else [])
     ++ match systemFilter with
        | Some f => if JS.truthy f then [("system_filter", Field f)] else []
        | None => []
        end
     ++ (if clinicalOnly then [("clinical_only", Field "true")] else [])
     ++ ((λ f, ("files", FileField f)) <$> files))%list.

(** *** Component state: the [useState] cells of [Query] *)

Record State := {
  input : string;
  loading : bool;
  difficulty : string;
  systemFilter : option string;
  clinicalOnly : bool;
  showFilters : bool;
  connectionStatus : string;
  attachedFiles : list File;
  userId : string
}.

(** [uid] is the [userId] of the render; the effect that stores it under
    the key [userId] is left out. *)
Definition initial (uid : string) : State :=
  {| input := ""; loading := false; difficulty := "undergrad";
     systemFilter := None; clinicalOnly := false; showFilters := false;
     connectionStatus := "checking"; attachedFiles := []; userId := uid |}.

Definition setInput v s :=
  {| input := v; loading := loading s; difficulty := difficulty s;
     systemFilter := systemFilter s; clinicalOnly := clinicalOnly s;
     showFilters := showFilters s; connectionStatus := connectionStatus s;
     attachedFiles := attachedFiles s; userId := userId s |}.
Definition setLoading v s :=
  {| input := input s; loading := v; difficulty := difficulty s;
     systemFilter := systemFilter s; clinicalOnly := clinicalOnly s;
     showFilters := showFilters s; connectionStatus := connectionStatus s;
     attachedFiles := attachedFiles s; userId := userId s |}.
Definition setDifficulty v s :=
  {| input := input s; loading := loading s; difficulty := v;
     systemFilter := systemFilter s; clinicalOnly := clinicalOnly s;
     showFilters := showFilters s; connectionStatus := connectionStatus s;
     attachedFiles := attachedFiles s; userId := userId s |}.
Definition setSystemFilter v s :=
  {| input := input s; loading := loading s; difficulty := difficulty s;
     systemFilter := v; clinicalOnly := clinicalOnly s;
     showFilters := showFilters s; connectionStatus := connectionStatus s;
     attachedFiles := attachedFiles s; userId := userId s |}.
Definition setClinicalOnly v s :=
  {| input := input s; loading := loading s; difficulty := difficulty s;
     systemFilter := systemFilter s; clinicalOnly := v;
     showFilters := showFilters s; connectionStatus := connectionStatus s;
     attachedFiles := attachedFiles s; userId := userId s |}.
Definition setShowFilters v s :=
  {| input := input s; loading := loading s; difficulty := difficulty s;
     systemFilter := systemFilter s; clinicalOnly := clinicalOnly s;
     showFilters := v; connectionStatus := connectionStatus s;
     attachedFiles := attachedFiles s; userId := userId s |}.
Definition setConnectionStatus v s :=
  {| input := input s; loading := loading s; difficulty := difficulty s;
     systemFilter := systemFilter s; clinicalOnly := clinicalOnly s;
     showFilters := showFilters s; connectionStatus := v;
     attachedFiles := attachedFiles s; userId := userId s |}.
Definition setAttachedFiles v s :=
  {| input := input s; loading := loading s; difficulty := difficulty s;
     systemFilter := systemFilter s; clinicalOnly := clinicalOnly s;
     showFilters := showFilters s; connectionStatus := connectionStatus s;
     attachedFiles := v; userId := userId s |}.

(** *** Handlers *)

(** [/\.(pdf|pptx|ppt|html|htm|txt)$/i.test(f.name)]: the name ends with a
    dot and one of the words, letters compared regardless of case. *)
Definition attachable (f : File) : bool :=
  existsb (λ word, endsWith (toLowerCase (name f)) ("." ++ word))
    ["pdf"; "pptx"; "ppt"; "html"; "htm"; "txt"].

(** [files] is [Array.from(e.target.files || [])]. *)
Definition handleFileAttach (files : list File) (s : State) : State :=
  setAttachedFiles (attachedFiles s ++ List.filter attachable files)%list s.

Definition removeFile (idx : nat) (s : State) : State :=
  setAttachedFiles
    (filteri (λ _ i, negb (i =? idx)%nat) 0 (attachedFiles s)) s.

(** The text sent for the current input and attachments. *)
Definition queryText (s : State) : string :=
  JS.or_else (JS.trim (input s))
    ("Summarize and explain the content of the attached document"
     ++ (if (1 <? length (attachedFiles s))%nat then "s" else "") ++ ".").

(** [handleSubmit], up to the [await], at clock time [now]: the new state,
    the request, and the message given to
    [setChatMessages(prev => [...prev, userMessage])]. *)
Definition handleSubmit (now : Z) (s : State)
  : State * list Effect * option Message :=
  if (negb (JS.truthy (JS.trim (input s)))
      && (length (attachedFiles s) =? 0)%nat) || loading s
  then (s, [], None)
  else
    let userMessage :=
      UserMessage now
        (queryText s
         ++ (if (0 <? length (attachedFiles s))%nat
             then " [" ++ JS.join ", " (name <$> attachedFiles s) ++ "]"
             else ""))
        now in
    let filesToSend := attachedFiles s in
    (setLoading true (setAttachedFiles [] (setInput "" s)),
     [ if (0 <? length filesToSend)%nat
       then queryWithFiles (queryText s) filesToSend (userId s) (difficulty s)
              (systemFilter s) (clinicalOnly s)
       else PostQuery {| query := queryText s;
                         user_id := userId s;
                         difficulty_level := difficulty s;
                         system_filter := systemFilter s;
                         clinical_only := clinicalOnly s |} ],
     Some userMessage).

(** The [content] of the error message built in the [catch] block. *)
Definition errorContent (error : QueryError) : Shown :=
  let errorContent := "Failed to get response. Please try again." in
  match err_response (axios error) with
  | Some data_detail =>
      match data_detail with
      | Some (DetailString d) =>
          if JS.truthy d then Text d
          else Text (JS.opt_or_else (data_message error) errorContent)
      | Some d => Raw d
      | None => Text (JS.opt_or_else (data_message error) errorContent)
      end
  | None => Text (JS.or_else (err_message (axios error)) errorContent)
  end.

(** [handleSubmit], from the settled promise on, at clock time [now]: the
    new state and the message appended to the chat. *)
Definition handleSubmit_settled (now : Z) (r : Reply) (s : State)
  : State * Message :=
  match r with
  | Answered response =>
      (setLoading false s,
       BotMessage (now + 1) (answer response) (sources response)
         (confidence response) (intent response) now)
  | Failed error =>
      (setLoading false s, ErrorMessage (now + 1) (errorContent error) now)
  end.

(** *** The page, the chat cell of the context and the storage behind it *)

(** The text of the example buttons. *)
Definition examples : list string :=
  [ "What is the function of the hippocampus?";
    "Explain the blood supply to the brain";
    "Describe the cranial nerves" ].

(** Besides the component: the [chatMessages] cell of the provider ([None]
    is [null]), the browser's [localStorage], whether [setItem] succeeds
    there, the number of waiting [handleSubmit] calls and whether the health
    check of the mount is still waiting. *)
Record World := {
  ui : State;
  chatMessages : option (list Message);
  localStorage : gmap string (AppContext.Item (list Message));
  writable : bool;
  pendingQueries : nat;
  pendingHealth : bool
}.

Definition withUi (f : State → State) (w : World) : World :=
  {| ui := f (ui w); chatMessages := chatMessages w;
     localStorage := localStorage w; writable := writable w;
     pendingQueries := pendingQueries w; pendingHealth := pendingHealth w |}.

(** The initialiser of the [chatMessages] cell:
    [saved ? JSON.parse(saved) : []], and [[]] when parsing throws. *)
Definition restoreChat (localStorage : gmap string (AppContext.Item (list Message)))
  : option (list Message) :=
  match localStorage !! AppContext.STORAGE_KEYS_chatMessages with
  | Some (AppContext.Json v) => v
  | Some AppContext.Garbage => Some []
  | None => Some []
  end.

(** [setChatMessages(next)] of the provider: the cell and the item, written
    as [JSON.stringify(next)]. *)
Definition setChatMessages (next : list Message) (w : World) : World :=
  {| ui := ui w; chatMessages := Some next;
     localStorage :=
       AppContext.persist (writable w) AppContext.STORAGE_KEYS_chatMessages
         (Some next) (localStorage w);
     writable := writable w;
     pendingQueries := pendingQueries w; pendingHealth := pendingHealth w |}.

(** Loading the page: the provider reads the item; the component starts the
    health check. *)
Definition mount (uid : string) (canWrite : bool)
    (stored : gmap string (AppContext.Item (list Message)))
  : World * list Effect :=
  ({| ui := initial uid; chatMessages := restoreChat stored;
      localStorage := stored; writable := canWrite;
      pendingQueries := 0; pendingHealth := true |}, [GetHealth]).

Inductive Event :=
| ClickClear
| ToggleFilters
| ChangeDifficulty (value : string)
| ChangeSystemFilter (value : string)
| ChangeClinicalOnly (checked : bool)
| ClickExample (i : nat)
| AttachFiles (files : list File)
| ClickRemoveFile (idx : nat)
| ChangeInput (value : string)
| Submit (now : Z)
| QuerySettled (now : Z) (r : Reply)
| HealthSettled (ok : bool).

(** What the page accepts while the chat holds [messages].  "Clear" is
    rendered for a chat that is not empty, the examples for an empty one, the
    filter controls while [showFilters] is on, a remove button for each
    attached file; the text field is disabled while [loading]. *)
Definition onChat (messages : list Message) (w : World) (e : Event)
  : World * list Effect :=
  let s := ui w in
  match e with
  | ClickClear =>
      if (0 <? length messages)%nat then (setChatMessages [] w, [])
      else (w, [])
  | ToggleFilters => (withUi (setShowFilters (negb (showFilters s))) w, [])
  | ChangeDifficulty v =>
      if showFilters s then (withUi (setDifficulty v) w, []) else (w, [])
  | ChangeSystemFilter v =>
      if showFilters s then (withUi (setSystemFilter (JS.or_null v)) w, [])
      else (w, [])
  | ChangeClinicalOnly b =>
      if showFilters s then (withUi (setClinicalOnly b) w, []) else (w, [])
  | ClickExample i =>
      match messages, examples !! i with
      | [], Some text => (withUi (setInput text) w, [])
      | _, _ => (w, [])
      end
  | AttachFiles files => (withUi (handleFileAttach files) w, [])
  | ClickRemoveFile idx =>
      match attachedFiles s !! idx with
      | Some _ => (withUi (removeFile idx) w, [])
      | None => (w, [])
      end
  | ChangeInput v =>
      if loading s then (w, []) else (withUi (setInput v) w, [])
  | Submit now =>
      let '(s', out, userMessage) := handleSubmit now s in
      let w' := {| ui := s'; chatMessages := chatMessages w;
                   localStorage := localStorage w; writable := writable w;
                   pendingQueries := (pendingQueries w + length out)%nat;
                   pendingHealth := pendingHealth w |} in
      (match userMessage with
       | Some m => setChatMessages (messages ++ [m])%list w'
       | None => w'
       end, out)
  | QuerySettled now r =>
      match pendingQueries w with
      | S k =>
          let '(s', m) := handleSubmit_settled now r s in
          (setChatMessages (messages ++ [m])%list
             {| ui := s'; chatMessages := chatMessages w;
                localStorage := localStorage w; writable := writable w;
                pendingQueries := k; pendingHealth := pendingHealth w |}, [])
      | O => (w, [])
      end
  | HealthSettled ok =>
      if pendingHealth w
      then
        ({| ui := setConnectionStatus
                    (if ok then "connected" else "disconnected") s;
            chatMessages := chatMessages w;
            localStorage := localStorage w; writable := writable w;
            pendingQueries := pendingQueries w; pendingHealth := false |}, [])
      else (w, [])
  end.

(** With [null] in the chat cell the page cannot be rendered
    ([messages.length] throws) and nothing of it answers. *)
Definition step (w : World) (e : Event) : World * list Effect :=
  match chatMessages w with
  | Some messages => onChat messages w e
  | None => (w, [])
  end.

Fixpoint run (w : World) (es : list Event) : World * list Effect :=
  match es with
  | [] => (w, [])
  | e :: es' =>
      let '(w1, out1) := step w e in
      let '(w2, out2) := run w1 es' in
      (w2, (out1 ++ out2)%list)
  end.

End Query.

(** ** Study notes (components/StudyNotes.jsx) *)

Module StudyNotes.

(** The response of [api.generateStudyNotes]. *)
Record Notes := { notes_topic : string; notes_text : string }.

Record NotesRequest := {
  req_topic : string;
  difficulty_level : string;
  include_summary : bool
}.

Inductive Effect :=
| PostNotes (data : NotesRequest)
| WindowPrint.

(** *** Component state: the [useState] cells of [StudyNotes] *)

Record State := {
  topic : string;
  difficulty : string;
  includeSummary : bool;
  notes : option Notes;
  loading : bool;
  error : option Shown
}.

Definition initial : State :=
  {| topic := ""; difficulty := "undergrad"; includeSummary := true;
     notes := None; loading := false; error := None |}.

Definition setTopic v s :=
  {| topic := v; difficulty := difficulty s;
     includeSummary := includeSummary s; notes := notes s;
     loading := loading s; error := error s |}.
Definition setDifficulty v s :=
  {| topic := topic s; difficulty := v;
     includeSummary := includeSummary s; notes := notes s;
     loading := loading s; error := error s |}.
Definition setIncludeSummary v s :=
  {| topic := topic s; difficulty := difficulty s; includeSummary := v;
     notes := notes s; loading := loading s; error := error s |}.
Definition setNotes v s :=
  {| topic := topic s; difficulty := difficulty s;
     includeSummary := includeSummary s; notes := v;
     loading := loading s; error := error s |}.
Definition setLoading v s :=
  {| topic := topic s; difficulty := difficulty s;
     includeSummary := includeSummary s; notes := notes s;
     loading := v; error := error s |}.
Definition setError v s :=
  {| topic := topic s; difficulty := difficulty s;
     includeSummary := includeSummary s; notes := notes s;
     loading := loading s; error := v |}.

(** *** Handlers *)

(** [generate], up to [await api.generateStudyNotes(...)]. *)
Definition generate (s : State) : State * list Effect :=
  if negb (JS.truthy (JS.trim (topic s)))
  then (setError (Some (Text "Please enter a topic")) s, [])
  else
    (setNotes None (setError None (setLoading true s)),
     [PostNotes {| req_topic := JS.trim (topic s);
                   difficulty_level := difficulty s;
                   include_summary := includeSummary s |}]).

(** [generate], from the settled promise on. *)
Definition generate_settled (r : Settled Notes) (s : State) : State :=
  match r with
  | Ok res => setLoading false (setNotes (Some res) s)
  | Err err =>
      setLoading false
        (setError (Some (detail_or err "Failed to generate study notes")) s)
  end.

Definition downloadPdf : list Effect := [WindowPrint].

(** *** The page *)

(** The component and the number of waiting [generate] calls. *)
Record World := { ui : State; pendingGenerates : nat }.

Definition mount : World := {| ui := initial; pendingGenerates := 0 |}.

Definition withUi (f : State → State) (w : World) : World :=
  {| ui := f (ui w); pendingGenerates := pendingGenerates w |}.

Inductive Event :=
| ChangeTopic (value : string)
| ChangeDifficulty (value : string)
| ChangeIncludeSummary (checked : bool)
| ClickGenerate
| ClickDownloadPdf
| GenerateSettled (r : Settled Notes).

(** The generate button is [disabled={loading || !topic.trim()}]; the
    download button is rendered with the notes. *)
Definition step (w : World) (e : Event) : World * list Effect :=
  let s := ui w in
  match e with
  | ChangeTopic v => (withUi (setTopic v) w, [])
  | ChangeDifficulty v => (withUi (setDifficulty v) w, [])
  | ChangeIncludeSummary b => (withUi (setIncludeSummary b) w, [])
  | ClickGenerate =>
      if loading s || negb (JS.truthy (JS.trim (topic s))) then (w, [])
      else
        let '(s', out) := generate s in
        ({| ui := s';
            pendingGenerates := (pendingGenerates w + length out)%nat |}, out)
  | ClickDownloadPdf =>
      match notes s with
      | Some _ => (w, downloadPdf)
      | None => (w, [])
      end
  | GenerateSettled r =>
      match pendingGenerates w with
      | S k => ({| ui := generate_settled r s; pendingGenerates := k |}, [])
      | O => (w, [])
      end
  end.

Fixpoint run (w : World) (es : list Event) : World * list Effect :=
  match es with
  | [] => (w, [])
  | e :: es' =>
      let '(w1, out1) := step w e in
      let '(w2, out2) := run w1 es' in
      (w2, (out1 ++ out2)%list)
  end.

End StudyNotes.

(** ** Progress (components/Progress.jsx) *)

Module Progress.

(** [response.progress] of [api.getProgress], as far as the page reads
    it.  [quiz_scores] is an object: it is kept as the list of its entries,
    each key once, in the order in which [Object.values] lists them. *)
Record ProgressData := {
  topics_studied : list string;
  quiz_scores : list (string * Q);
  difficulty_progression : gmap string string;
  misconceptions_identified : option (list string);
  strengths : option (list string);
  areas_for_improvement : option (list string)
}.

Definition getDifficultyColor (difficulty : string) : string :=
  if bool_decide (difficulty = "undergrad") then "var(--info)"
  else if bool_decide (difficulty = "med") then "var(--warning)"
  else if bool_decide (difficulty = "advanced") then "var(--error)"
  else "var(--text-secondary)".

(** [score >= 0.8] and [score >= 0.6] *)
Definition getScoreColor (score : Q) : string :=
  if Qle_bool (Double.ofDecimal (8 # 10)) score then "var(--success)"
  else if Qle_bool (Double.ofDecimal (6 # 10)) score then "var(--warning)"
  else "var(--error)".

(** [Object.values(progress.quiz_scores).reduce((a, b) => a + b, 0)] *)
Definition totalOfScores (progress : ProgressData) : Q :=
  foldl Double.add 0%Q (snd <$> quiz_scores progress).

(** [avgScore], computed once the page has topics to show. *)
Definition avgScore (progress : ProgressData) : Q :=
  if (0 <? length (topics_studied progress))%nat
  then Double.div (totalOfScores progress)
         (Double.ofNat (length (topics_studied progress)))
  else 0%Q.

(** [progress.quiz_scores[topic]] *)
Definition quizScore (progress : ProgressData) (topic : string) : option Q :=
  (list_to_map (quiz_scores progress) : gmap string Q) !! topic.

(** [progress.quiz_scores[topic] || 0], the score of a topic card. *)
Definition topicScore (progress : ProgressData) (topic : string) : Q :=
  match quizScore progress topic with
  | Some v => if Qeq_bool v 0 then 0%Q else v
  | None => 0%Q
  end.

(** [progress.difficulty_progression[topic] || 'undergrad'] *)
Definition topicDifficulty (progress : ProgressData) (topic : string)
  : string :=
  JS.opt_or_else (difficulty_progression progress !! topic) "undergrad".

(** [Math.round(score * 100)], the number in front of the percent sign. *)
Definition percent (score : Q) : Z := JS.Math_round (Double.mul score 100).

(** *** Component state and what is rendered for it *)

Record State := {
  progress : option ProgressData;
  loading : bool;
  error : option Shown
}.

Definition initial : State :=
  {| progress := None; loading := true; error := None |}.

Definition setLoading v s :=
  {| progress := progress s; loading := v; error := error s |}.
Definition setError v s :=
  {| progress := progress s; loading := loading s; error := v |}.

(** [loadProgress], up to [await api.getProgress(userId)]. *)
Definition loadProgress (s : State) : State :=
  setError None (setLoading true s).


(** The four returns of the component, in the order of its tests. *)
Inductive Screen :=
| LoadingState
| ErrorState (message : Shown)
| EmptyProgress
| Dashboard (averagePercent : Z) (averageColor : string)
    (topics : list (string * string * Z * string)).

Definition screen (s : State) : Screen :=
  if loading s then LoadingState
  else
    match error s with
    | Some message => ErrorState message
    | None =>
        match progress s with
        | None => EmptyProgress
        | Some p =>
            if (length (topics_studied p) =? 0)%nat then EmptyProgress
            else
              Dashboard (percent (avgScore p)) (getScoreColor (avgScore p))
                ((λ topic,
                    (topic, topicDifficulty p topic,
                     percent (topicScore p topic),
                     getScoreColor (topicScore p topic)))
                   <$> topics_studied p)
        end
    end.

End Progress.

(** ** Vocabulary of the properties *)

(** The events with which a new session begins: they empty the record of
    answers on purpose. *)
Definition quiz_startsOver (e : Quiz.Event) : bool :=
  match e with
  | Quiz.ClickFinishQuiz | Quiz.ClickStartNewQuiz
  | Quiz.StartSettled (Ok _) => true
  | _ => false
  end.



(** The four ways in which one event of the quiz page can bear on the
    record of answers, on [loading] and on the submissions in flight. *)
Inductive quiz_step_kind (w w' : Quiz.World) (e : Quiz.Event) : Prop :=
| step_keeps :
    Quiz.answers (Quiz.ui w') = Quiz.answers (Quiz.ui w) →
    Quiz.loading (Quiz.ui w') = Quiz.loading (Quiz.ui w) →
    Quiz.pendingAnswers w' = Quiz.pendingAnswers w →
    quiz_step_kind w w' e
| step_submits c :
    Quiz.loading (Quiz.ui w) = false →
    Quiz.loading (Quiz.ui w') = true →
    Quiz.answers (Quiz.ui w') = Quiz.answers (Quiz.ui w) →
    Quiz.pendingAnswers w' = (Quiz.pendingAnswers w ++ [c])%list →
    Quiz.answers (Quiz.ui w) !! Quiz.questionId c = None →
    quiz_step_kind w w' e
| step_settles n c :
    Quiz.pendingAnswers w !! n = Some c →
    Quiz.pendingAnswers w' = delete n (Quiz.pendingAnswers w) →
    Quiz.loading (Quiz.ui w') = false →
    (Quiz.answers (Quiz.ui w') = Quiz.answers (Quiz.ui w)
     ∨ ∃ v, Quiz.answers (Quiz.ui w')
            = <[Quiz.questionId c := v]> (Quiz.answers (Quiz.ui w))) →
    quiz_step_kind w w' e
| step_starts_over :
    quiz_startsOver e = true →
    Quiz.answers (Quiz.ui w') = ∅ →
    Quiz.loading (Quiz.ui w') = Quiz.loading (Quiz.ui w) →
    Quiz.pendingAnswers w' = Quiz.pendingAnswers w →
    quiz_step_kind w w' e.





(** One round of the Socratic conversation: the learner types an answer and
    submits it, and the call to the service settles. *)
Definition teaching_round (a : string) (r : Settled Teaching.TeachResponse)
  : list Teaching.Event :=
  [ Teaching.ChangeAnswer a; Teaching.ClickSubmit; Teaching.AnswerSettled 0 r ].

Definition teaching_rounds
    (rounds : list (string * Settled Teaching.TeachResponse))
  : list Teaching.Event :=
  concat ((λ '(a, r), teaching_round a r) <$> rounds).

(** The [previous_responses] of the requests sent, in order. *)
Definition teaching_requests (out : list Teaching.Effect) : list (list string) :=
  omap (λ e, match e with
             | Teaching.PostTeach data => Some (Teaching.previous_responses data)
             | Teaching.Alert _ => None
             end) out.

(** What the rounds should send: each request carries the answers the
    service has accepted so far, then the answer of this round. *)
Fixpoint expected_requests (prior : list string)
    (rounds : list (string * Settled Teaching.TeachResponse))
  : list (list string) :=
  match rounds with
  | [] => []
  | (a, r) :: rest =>
      (prior ++ [JS.trim a])%list
      :: expected_requests
           (match r with
            | Ok _ => (prior ++ [JS.trim a])%list
            | Err _ => prior
            end) rest
  end.

(** A round that the page accepts: the answer is not blank, and the
    service does not end the session with its reply. *)
Definition round_ok (round : string * Settled Teaching.TeachResponse) : Prop :=
  JS.truthy (JS.trim round.1) = true
  ∧ match round.2 with
    | Ok response => Teaching.is_complete response = false
    | Err _ => True
    end.

(** The page shows a question and waits for the learner. *)
Definition teaching_awaits_answer (w : Teaching.World) : Prop :=
  (∃ sess, Teaching.session (Teaching.ui w) = Some sess
           ∧ Teaching.isComplete sess = false)
  ∧ Teaching.loading (Teaching.ui w) = false
  ∧ Teaching.pendingAnswers w = [].




(** The events with which a new clinical case begins or the page returns to
    the set-up card. *)
Definition clinical_startsOver (e : ClinicalCase.Event) : bool :=
  match e with
  | ClinicalCase.StartSettled _ (Ok _)
  | ClinicalCase.ClickRecommendedTopic _ _
  | ClinicalCase.ClickNewCase _ => true
  | _ => false
  end.

(** A request to the teaching service names a topic. *)
Definition teaching_names_topic (e : Teaching.Effect) : Prop :=
  match e with
  | Teaching.PostTeach data => JS.truthy (Teaching.req_topic data) = true
  | Teaching.Alert _ => True
  end.

(** What holds of every world the teaching page can reach: the session,
    and every call in flight, has a topic that is not empty. *)
Definition teaching_topics_ok (w : Teaching.World) : Prop :=
  (∀ sess, Teaching.session (Teaching.ui w) = Some sess →
           JS.truthy (Teaching.session_topic sess) = true)
  ∧ (∀ c, c ∈ Teaching.pendingStarts w →
          JS.truthy (JS.trim (Teaching.closed_topic c)) = true)
  ∧ (∀ c, c ∈ Teaching.pendingAnswers w →
          JS.truthy (Teaching.session_topic (Teaching.closed_session c)) = true).

(** The flash-card page without the browser's storage: what is on screen,
    the context cell and the calls in flight. *)
Definition flashcards_page (w : FlashCards.World)
  : FlashCards.State * option FlashCards.FlashCardsData * list string
    * list FlashCards.SubmitClosure * nat :=
  (FlashCards.ui w, FlashCards.flashCardsData w, FlashCards.pendingGenerates w,
   FlashCards.pendingEvaluations w, FlashCards.pendingAnalyses w).

(** A stored record whose current index names one of its cards. *)
Definition flashcards_record_ok (d : FlashCards.FlashCardsData) : Prop :=
  FlashCards.data_cards d = []
  ∨ (FlashCards.data_currentIndex d < length (FlashCards.data_cards d))%nat.

(** The cursor of the flash cards names a card whenever there are cards. *)
Definition flashcards_cursor_ok (s : FlashCards.State) : Prop :=
  FlashCards.cards s = []
  ∨ (FlashCards.currentIndex s < length (FlashCards.cards s))%nat.

(** The words after the dot of a file name that the pages look for. *)
Definition file_words : list string :=
  ["pdf"; "pptx"; "ppt"; "html"; "htm"; "txt"].

(** The pieces of a name before its last dot, put back with their dots. *)
Definition withDots (pieces : list string) : string :=
  foldr (λ x acc, x ++ "." ++ acc) "" pieces.

(** An upload carries a file that [handleFile] accepted. *)
Definition upload_sends_accepted (e : Upload.Effect) : Prop :=
  match e with
  | Upload.PostIngestFile f _ => Upload.fileExtension f ∈ Upload.validTypes
  end.

(** What holds of every world the upload page can reach: the file on the
    page was accepted by [handleFile], at most one upload is under way, and
    [uploading] is on exactly while one is. *)
Definition upload_ok (w : Upload.World) : Prop :=
  (∀ f, Upload.file (Upload.ui w) = Some f →
        Upload.fileExtension f ∈ Upload.validTypes)
  ∧ (Upload.pendingUploads w ≤ 1)%nat
  ∧ (Upload.uploading (Upload.ui w) = true ↔ Upload.pendingUploads w = 1%nat).

(** The files of a request of the chat. *)
Definition query_files (e : Query.Effect) : list Browser.File :=
  match e with
  | Query.PostQueryWithFiles formData =>
      omap (λ entry, match entry.2 with
                     | Query.FileField f => Some f
                     | Query.Field _ => None
                     end) formData
  | _ => []
  end.

(** What holds of every world the chat can reach: the attached files passed
    the filter, at most one query is under way, and [loading] is on exactly
    while one is. *)
Definition query_ok (w : Query.World) : Prop :=
  Forall (λ f, Query.attachable f = true) (Query.attachedFiles (Query.ui w))
  ∧ (Query.pendingQueries w ≤ 1)%nat
  ∧ (Query.loading (Query.ui w) = true ↔ Query.pendingQueries w = 1%nat).

(** A request of the study notes names a topic that is not blank. *)
Definition notes_names_topic (e : StudyNotes.Effect) : Prop :=
  match e with
  | StudyNotes.PostNotes data =>
      JS.truthy (StudyNotes.req_topic data) = true
  | StudyNotes.WindowPrint => True
  end.

(** What holds of every world the study-notes page can reach: at most one
    generation is under way, [loading] is on exactly while one is, nothing
    is shown while it is, and notes and an error are never shown
    together. *)
Definition notes_ok (w : StudyNotes.World) : Prop :=
  (StudyNotes.pendingGenerates w ≤ 1)%nat
  ∧ (StudyNotes.loading (StudyNotes.ui w) = true
     ↔ StudyNotes.pendingGenerates w = 1%nat)
  ∧ (StudyNotes.loading (StudyNotes.ui w) = true →
     StudyNotes.notes (StudyNotes.ui w) = None
     ∧ StudyNotes.error (StudyNotes.ui w) = None)
  ∧ (StudyNotes.notes (StudyNotes.ui w) = None
     ∨ StudyNotes.error (StudyNotes.ui w) = None).



(** ** Sample data used by the examples below *)

Module Sample.

Definition question1 : Quiz.Question :=
  {| Quiz.question_id := "q1"; Quiz.question_type := "short_answer";
     Quiz.question := "Which lobe holds the primary visual cortex?";
     Quiz.options := None; Quiz.correct_answer := "occipital" |}.
Definition question2 : Quiz.Question :=
  {| Quiz.question_id := "q2"; Quiz.question_type := "mcq";
     Quiz.question := "Which nerve is cranial nerve X?";
     Quiz.options := Some ["vagus"; "facial"];
     Quiz.correct_answer := "vagus" |}.
Definition question3 : Quiz.Question :=
  {| Quiz.question_id := "q3"; Quiz.question_type := "short_answer";
     Quiz.question := "Where is cerebrospinal fluid produced?";
     Quiz.options := None; Quiz.correct_answer := "choroid plexus" |}.

Definition quiz3 : Quiz.QuizData :=
  {| Quiz.quiz_id := "quiz-1"; Quiz.quiz_topic := Some "anatomy";
     Quiz.difficulty_level := "undergrad";
     Quiz.questions := [question1; question2; question3] |}.

Definition right : Quiz.Feedback :=
  {| Quiz.is_correct := true; Quiz.fb_feedback := "Yes.";
     Quiz.fb_explanation := None; Quiz.fb_correct_answer := "occipital";
     Quiz.fb_related_anatomy := None |}.
Definition wrong : Quiz.Feedback :=
  {| Quiz.is_correct := false; Quiz.fb_feedback := "No.";
     Quiz.fb_explanation := None; Quiz.fb_correct_answer := "occipital";
     Quiz.fb_related_anatomy := None |}.

(** A quiz of three questions, the first one answered (wrongly), with a
    new text typed into the answer field. *)
Definition quizAnswered : Quiz.State :=
  Quiz.setSelectedAnswer "occipital"
    (Quiz.setAnswers
       {[ "q1" := {| Quiz.answer := "frontal";
                     Quiz.answer_feedback := Some wrong |} ]}
       (Quiz.setQuiz (Some quiz3) (Quiz.initial "u1"))).

(** The same quiz with nothing answered yet and a text typed. *)
Definition quizTyped : Quiz.State :=
  Quiz.setSelectedAnswer "occipital"
    (Quiz.setQuiz (Some quiz3) (Quiz.initial "u1")).

Definition timeout : AxiosError :=
  interceptor {| err_response := None; err_code := Some "ECONNABORTED";
                 err_message := "timeout of 30000ms exceeded" |}.

Definition card1 : FlashCards.Card :=
  {| FlashCards.front := "Broca's area"; FlashCards.back := "speech production" |}.
Definition card2 : FlashCards.Card :=
  {| FlashCards.front := "Wernicke's area"; FlashCards.back := "language comprehension" |}.
Definition card3 : FlashCards.Card :=
  {| FlashCards.front := "Hippocampus"; FlashCards.back := "memory formation" |}.

(** An evaluation whose flags disagree with its score. *)
Definition half : FlashCards.Evaluation :=
  {| FlashCards.score := 1 # 2; FlashCards.feedback := "Partly.";
     FlashCards.is_correct := true; FlashCards.is_partial := false |}.
Definition full : FlashCards.Evaluation :=
  {| FlashCards.score := 1; FlashCards.feedback := "Yes.";
     FlashCards.is_correct := true; FlashCards.is_partial := false |}.

(** Three cards on screen, the second one current, an answer typed. *)
Definition deck : FlashCards.State :=
  FlashCards.setUserAnswer "speech"
    (FlashCards.initial
       (Some {| FlashCards.data_cards := [card1; card2; card3];
                FlashCards.data_topic := "cortex";
                FlashCards.data_currentIndex := 1 |})).


(** The quiz page after a quiz of three questions was started. *)
Definition quizStarted : Quiz.World :=
  (Quiz.run (Quiz.mount "u1")
     [ Quiz.ClickStartQuiz; Quiz.StartSettled (Ok quiz3) ]).1.

(** The quiz page after a quiz of three questions was started and the
    first question answered (wrongly). *)
Definition quizPlayed : Quiz.World :=
  (Quiz.run (Quiz.mount "u1")
     [ Quiz.ClickStartQuiz;
       Quiz.StartSettled (Ok quiz3);
       Quiz.ChangeAnswerText "frontal";
       Quiz.ClickSubmitAnswer;
       Quiz.AnswerSettled 0 (Ok {| Quiz.response_feedback := Some wrong |}) ]).1.

(** The flash-card page loaded with a stored deck of three cards and the
    second card current. *)
Definition resumedAtSecond : FlashCards.World :=
  FlashCards.mount true
    {[ AppContext.STORAGE_KEYS_flashCards :=
         AppContext.Json
           (Some {| FlashCards.data_cards := [card1; card2; card3];
                    FlashCards.data_topic := "cortex";
                    FlashCards.data_currentIndex := 1 |}) ]}.

(** ... and after the second card was answered there. *)
Definition resumedAnswered : FlashCards.World :=
  (FlashCards.run resumedAtSecond
     [ FlashCards.ChangeUserAnswer "speech";
       FlashCards.ClickSubmitAnswer;
       FlashCards.EvaluationSettled 0 (Ok half) ]).1.

Definition strokeCase : ClinicalCase.Session :=
  {| ClinicalCase.session_id := "case-1";
     ClinicalCase.scenario_context := "You are called to the emergency room.";
     ClinicalCase.initial_presentation := "Sudden right-sided weakness.";
     ClinicalCase.patient_name := "M. K.";
     ClinicalCase.session_available_hints := Some 3;
     ClinicalCase.session_stage := "initial" |}.

(** An answer of the service to a hint request that reports [left] hints. *)
Definition hintAnswer (left : Z) : ClinicalCase.Interaction :=
  {| ClinicalCase.ai_response := "Think about the vascular territory.";
     ClinicalCase.stage := "gathering_info";
     ClinicalCase.available_hints := Some left;
     ClinicalCase.guidance := None;
     ClinicalCase.is_correct_path := None;
     ClinicalCase.hint_given := Some "Think about the vascular territory.";
     ClinicalCase.session_complete := false;
     ClinicalCase.completion_data := None |}.

(** The clinical page with a case under way. *)
Definition operatingRoom : ClinicalCase.World :=
  (ClinicalCase.run ClinicalCase.mount
     [ ClinicalCase.ClickEnterOR;
       ClinicalCase.StartSettled 1000 (Ok strokeCase) ]).1.

(** Three hints are asked for and given, then the button is clicked again. *)
Definition threeHints : list ClinicalCase.Event :=
  [ ClinicalCase.ClickHint 2000;
    ClinicalCase.InteractionSettled 0 2100 (Ok (hintAnswer 2));
    ClinicalCase.ClickHint 3000;
    ClinicalCase.InteractionSettled 0 3100 (Ok (hintAnswer 1));
    ClinicalCase.ClickHint 4000;
    ClinicalCase.InteractionSettled 0 4100 (Ok (hintAnswer 0));
    ClinicalCase.ClickHint 5000 ].

Definition asks (q : string) : Teaching.TeachResponse :=
  {| Teaching.response_question := Some q;
     Teaching.response_explanation := None;
     Teaching.response_hint := None;
     Teaching.is_complete := false;
     Teaching.next_step := None;
     Teaching.concepts_covered := None |}.

(** Three rounds; the call of the second one times out. *)
Definition threeRounds : list (string * Settled Teaching.TeachResponse) :=
  [ (" memory ", Ok (asks "Which subfield receives the mossy fibres?"));
    ("CA1", Err timeout);
    ("CA3", Ok (asks "And where do its axons go?")) ].

End Sample.

(** ** Sample data of the progress page *)

Module SampleProgress.


End SampleProgress.

(** ** Sample data: two quizzes of one question *)

Module SampleShortQuiz.

Definition first : Quiz.QuizData :=
  {| Quiz.quiz_id := "quiz-a"; Quiz.quiz_topic := None;
     Quiz.difficulty_level := "undergrad";
     Quiz.questions := [Sample.question1] |}.

Definition second : Quiz.QuizData :=
  {| Quiz.quiz_id := "quiz-b"; Quiz.quiz_topic := None;
     Quiz.difficulty_level := "undergrad";
     Quiz.questions := [Sample.question3] |}.

(** The first quiz is finished while its answer is still under way; the
    reply arrives after the second quiz has started, and the question of
    the second quiz is answered as well. *)
Definition lateReply : list Quiz.Event :=
  [ Quiz.ClickStartQuiz; Quiz.StartSettled (Ok first);
    Quiz.ChangeAnswerText "occipital"; Quiz.ClickSubmitAnswer;
    Quiz.ClickFinishQuiz;
    Quiz.ClickStartQuiz; Quiz.StartSettled (Ok second);
    Quiz.AnswerSettled 0 (Ok {| Quiz.response_feedback := Some Sample.right |});
    Quiz.ChangeAnswerText "choroid plexus"; Quiz.ClickSubmitAnswer;
    Quiz.AnswerSettled 0 (Ok {| Quiz.response_feedback := Some Sample.right |}) ].

End SampleShortQuiz.

(** ** Sample data: a quiz of forty questions *)

Module SampleLongQuiz.

(** The identifier of question number [k]. *)
Fixpoint name (k : nat) : string :=
  match k with
  | O => "q"
  | S k' => String "i"%char (name k')
  end.

Definition question (k : nat) : Quiz.Question :=
  {| Quiz.question_id := name k; Quiz.question_type := "short_answer";
     Quiz.question := "Is the thalamus part of the diencephalon?";
     Quiz.options := None; Quiz.correct_answer := "yes" |}.

Definition forty : Quiz.QuizData :=
  {| Quiz.quiz_id := "quiz-40"; Quiz.quiz_topic := None;
     Quiz.difficulty_level := "undergrad";
     Quiz.questions := question <$> seq 0 40 |}.

(** One question is answered, the service grades the answer, and the
    learner moves on. *)
Definition answered (fb : Quiz.Feedback) : list Quiz.Event :=
  [ Quiz.ChangeAnswerText "yes"; Quiz.ClickSubmitAnswer;
    Quiz.AnswerSettled 0 (Ok {| Quiz.response_feedback := Some fb |});
    Quiz.ClickNext ].

(** The quiz is started; 23 answers are graded right, then 17 wrong. *)
Definition play : list Quiz.Event :=
  ([ Quiz.ClickStartQuiz; Quiz.StartSettled (Ok forty) ]
   ++ concat (replicate 23 (answered Sample.right))
   ++ concat (replicate 17 (answered Sample.wrong)))%list.

End SampleLongQuiz.

(** * Properties *)

(** ** Flash cards: what a revisited card shows *)




Example revisited_card_ignores_service_flags :
  FlashCards.evaluation
    (FlashCards.goToCard 0
       (FlashCards.submitAnswer_settled
          {| FlashCards.currentCard := Sample.card2;
             FlashCards.closed_userAnswer := "speech" |}
          (Ok Sample.half) Sample.deck))
  = Some {| FlashCards.score := 1 # 2; FlashCards.feedback := "Partly.";
            FlashCards.is_correct := false; FlashCards.is_partial := true |}.
Proof. reflexivity. Qed.

(** ** A submission that the service fails to evaluate *)

Lemma quiz_submitAnswer_sent (s s1 : Quiz.State) (out : list Quiz.Effect)
    (c : Quiz.SubmitClosure) :
  Quiz.submitAnswer s = (s1, out, Some c) →
  Quiz.loading s = false
  ∧ s1 = Quiz.setLoading true s
  ∧ Quiz.closed_selectedAnswer c = Quiz.selectedAnswer s
  ∧ JS.truthy (JS.trim (Quiz.selectedAnswer s)) = true
  ∧ ∃ q cq,
      Quiz.quiz s = Some q
      ∧ Quiz.questions q !! Quiz.currentQuestionIndex s = Some cq
      ∧ Quiz.questionId c = Quiz.question_id cq
      ∧ out = [Quiz.PostQuizAnswer
                 {| Quiz.req_quiz_id := Quiz.quiz_id q;
                    Quiz.req_question_id := Quiz.question_id cq;
                    Quiz.req_answer := JS.trim (Quiz.selectedAnswer s);
                    Quiz.req_user_id := Quiz.userId s |}].
Proof.
  unfold Quiz.submitAnswer. intros H.
  destruct (Quiz.quiz s) as [q|] eqn:Hq; [|congruence].
  destruct (JS.truthy (JS.trim (Quiz.selectedAnswer s))) eqn:Ht;
    cbn in H; [|congruence].
  destruct (Quiz.loading s) eqn:Hl; [congruence|].
  destruct (Quiz.questions q !! Quiz.currentQuestionIndex s) as [cq|] eqn:Hcq;
    [|congruence].
  injection H as <- <- <-. repeat split; eauto 10.
Qed.

Lemma flashcards_submitAnswer_sent (s s1 : FlashCards.State)
    (out : list FlashCards.Effect) (c : FlashCards.SubmitClosure) :
  FlashCards.submitAnswer s = (s1, out, Some c) →
  FlashCards.evaluating s = false
  ∧ s1 = FlashCards.setEvaluating true s
  ∧ FlashCards.cards s !! FlashCards.currentIndex s
    = Some (FlashCards.currentCard c)
  ∧ FlashCards.closed_userAnswer c = FlashCards.userAnswer s
  ∧ out = [FlashCards.PostEvaluate
             {| FlashCards.req_user_answer := JS.trim (FlashCards.userAnswer s);
                FlashCards.req_correct_answer :=
                  FlashCards.back (FlashCards.currentCard c);
                FlashCards.req_question :=
                  FlashCards.front (FlashCards.currentCard c) |}].
Proof.
  unfold FlashCards.submitAnswer. intros H.
  destruct (JS.truthy (JS.trim (FlashCards.userAnswer s))); cbn in H;
    [|congruence].
  destruct (FlashCards.evaluating s) eqn:He; [congruence|].
  destruct (FlashCards.cards s !! FlashCards.currentIndex s) as [card|];
    [|congruence].
  injection H as <- <- <-. done.
Qed.

(** C6.  When the evaluation request of a submission fails, nothing of the
    session is touched.  Quiz: the submission had switched [loading] on and
    sent one request; the failure switches [loading] off again, shows one
    alert and sends nothing, so the state is the one before the submission
    ([answers], and with it the score, included).  Flash cards: likewise with
    [evaluating]; [cardResults] and [totalScore] are as before and the error
    text is put on the page.  The same holds if the failure arrives in any
    later state. *)
Theorem C6_failed_evaluation_records_nothing
    (qs qs1 : Quiz.State) (qout : list Quiz.Effect) (qc : Quiz.SubmitClosure)
    (fs fs1 : FlashCards.State) (fout : list FlashCards.Effect)
    (fc : FlashCards.SubmitClosure) (err : AxiosError) :
  Quiz.submitAnswer qs = (qs1, qout, Some qc) →
  FlashCards.submitAnswer fs = (fs1, fout, Some fc) →
  (Quiz.loading qs1 = true ∧ length qout = 1%nat)
  ∧ Quiz.submitAnswer_settled qc (Err err) qs1
    = (qs, [Quiz.Alert (detail_or err "Failed to submit answer")])
  ∧ (∀ later : Quiz.State,
        let after := (Quiz.submitAnswer_settled qc (Err err) later).1 in
        Quiz.answers after = Quiz.answers later
        ∧ Quiz.displayedScore after = Quiz.displayedScore later
        ∧ Quiz.loading after = false)
  ∧ (FlashCards.evaluating fs1 = true ∧ length fout = 1%nat)
  ∧ FlashCards.submitAnswer_settled fc (Err err) fs1
    = FlashCards.setError (Some (Text "Failed to evaluate answer")) fs
  ∧ (∀ later : FlashCards.State,
        let after := FlashCards.submitAnswer_settled fc (Err err) later in
        FlashCards.cardResults after = FlashCards.cardResults later
        ∧ FlashCards.totalScore after = FlashCards.totalScore later
        ∧ FlashCards.evaluating after = false
        ∧ FlashCards.error after = Some (Text "Failed to evaluate answer")).
Proof.
  intros Hq Hf.
  apply quiz_submitAnswer_sent in Hq as (Hl & -> & _ & _ & q & cq & _ & _ & _ & ->).
  apply flashcards_submitAnswer_sent in Hf as (He & -> & _ & _ & ->).
  repeat split.
  - cbn. f_equal. destruct qs; cbn in *; by subst.
  - destruct fs; cbn in *; by subst.
Qed.

Lemma C6_failed_evaluation_records_nothing_witness :
  let qc := {| Quiz.questionId := "q1";
               Quiz.closed_selectedAnswer := "occipital" |} in
  let fc := {| FlashCards.currentCard := Sample.card2;
               FlashCards.closed_userAnswer := "speech" |} in
  Quiz.submitAnswer_settled qc (Err Sample.timeout)
    (Quiz.setLoading true Sample.quizTyped)
  = (Sample.quizTyped, [Quiz.Alert (Text "Failed to submit answer")])
  ∧ FlashCards.submitAnswer_settled fc (Err Sample.timeout)
      (FlashCards.setEvaluating true Sample.deck)
    = FlashCards.setError (Some (Text "Failed to evaluate answer")) Sample.deck.
Proof.
  intros qc fc.
  destruct (C6_failed_evaluation_records_nothing
              Sample.quizTyped _ _ qc Sample.deck _ _ fc Sample.timeout
              eq_refl eq_refl) as (_ & Hq & _ & _ & Hf & _).
  exact (conj Hq Hf).
Defined.

(** ** Advancing through the items *)

Lemma goToCard_currentIndex (idx : nat) (s : FlashCards.State) :
  FlashCards.currentIndex (FlashCards.goToCard idx s) = idx.
Proof. unfold FlashCards.goToCard. by destruct (_ !! _). Qed.

Lemma goToCard_session (idx : nat) (s : FlashCards.State) :
  let s' := FlashCards.goToCard idx s in
  FlashCards.cards s' = FlashCards.cards s
  ∧ FlashCards.cardResults s' = FlashCards.cardResults s
  ∧ FlashCards.totalScore s' = FlashCards.totalScore s
  ∧ FlashCards.sessionComplete s' = FlashCards.sessionComplete s
  ∧ FlashCards.topic s' = FlashCards.topic s
  ∧ FlashCards.evaluating s' = FlashCards.evaluating s
  ∧ FlashCards.loading s' = FlashCards.loading s.
Proof. unfold FlashCards.goToCard. by destruct (_ !! _). Qed.


Lemma quiz_next_disabled (w : Quiz.World) :
  Quiz.hasAnswered (Quiz.ui w) = None ∨ Quiz.isLastQuestion (Quiz.ui w) = true →
  Quiz.step w Quiz.ClickNext = (w, []).
Proof.
  intros Hgate. unfold Quiz.step.
  destruct (Quiz.screen (Quiz.ui w)); [done| |done].
  unfold Quiz.onQuestionView.
  destruct (Quiz.isLastQuestion (Quiz.ui w)); [done|].
  destruct Hgate as [-> |]; done.
Qed.




(** ** Answer once *)

Lemma quiz_reachable_run (uid : string) (w : Quiz.World) (es : list Quiz.Event) :
  Quiz.reachable uid w → Quiz.reachable uid (Quiz.run w es).1.
Proof.
  revert w. induction es as [|e es IH]; intros w Hw; [done|].
  cbn. pose proof (Quiz.reachable_step uid w e Hw) as Hstep.
  destruct (Quiz.step w e) as [w1 out1]. cbn in Hstep.
  specialize (IH w1 Hstep). by destruct (Quiz.run w1 es).
Qed.

Lemma showQuestion_session idx id s :
  Quiz.answers (Quiz.showQuestion idx id s) = Quiz.answers s
  ∧ Quiz.loading (Quiz.showQuestion idx id s) = Quiz.loading s
  ∧ Quiz.quiz (Quiz.showQuestion idx id s) = Quiz.quiz s.
Proof. done. Qed.

Lemma nextQuestion_session s :
  Quiz.answers (Quiz.nextQuestion s) = Quiz.answers s
  ∧ Quiz.loading (Quiz.nextQuestion s) = Quiz.loading s
  ∧ Quiz.quiz (Quiz.nextQuestion s) = Quiz.quiz s.
Proof. unfold Quiz.nextQuestion. by repeat case_match. Qed.

Lemma previousQuestion_session s :
  Quiz.answers (Quiz.previousQuestion s) = Quiz.answers s
  ∧ Quiz.loading (Quiz.previousQuestion s) = Quiz.loading s
  ∧ Quiz.quiz (Quiz.previousQuestion s) = Quiz.quiz s.
Proof. unfold Quiz.previousQuestion. by repeat case_match. Qed.

Lemma screen_QuestionView s cq :
  Quiz.screen s = Quiz.QuestionView cq →
  ∃ q, Quiz.quiz s = Some q
       ∧ Quiz.questions q !! Quiz.currentQuestionIndex s = Some cq
       ∧ Quiz.currentQuestion s = Some cq
       ∧ Quiz.hasAnswered s = Quiz.answers s !! Quiz.question_id cq.
Proof.
  unfold Quiz.screen, Quiz.hasAnswered, Quiz.currentQuestion. intros H.
  destruct (Quiz.quiz s) as [q|]; [|done]. cbn.
  destruct (Quiz.questions q !! Quiz.currentQuestionIndex s) eqn:E; [|done].
  injection H as ->. eauto.
Qed.

(** What one event does to the record of answers, to [loading] and to the
    submissions in flight. *)
Lemma quiz_step_session (w : Quiz.World) (e : Quiz.Event) :
  quiz_step_kind w (Quiz.step w e).1 e.
Proof.
  destruct e as [v|v|v|v| |idx|v| | |idx| | | |n r|r]; cbn.
  14: { destruct (Quiz.pendingAnswers w !! n) as [c|] eqn:Hc;
          [|by apply step_keeps].
        destruct r; cbn; eapply step_settles; cbn; eauto. }
  14: { destruct (Quiz.pendingStarts w); [by apply step_keeps|].
        destruct r; cbn; [by apply step_starts_over | by apply step_keeps]. }
  all: destruct (Quiz.screen (Quiz.ui w)) as [|cq|] eqn:Hscreen; cbn.
  all: try (by apply step_keeps).
  - destruct (Quiz.starting (Quiz.ui w)); by apply step_keeps.
  - repeat case_match; by apply step_keeps.
  - repeat case_match; by apply step_keeps.
  - apply screen_QuestionView in Hscreen as (q & Hq & Hcq & _ & Hans).
    destruct (Quiz.hasAnswered (Quiz.ui w)) eqn:Hh; [by apply step_keeps|].
    destruct (negb _ || _) eqn:Hg; [by apply step_keeps|].
    apply orb_false_iff in Hg as [Ht Hl]. apply negb_false_iff in Ht.
    unfold Quiz.submitAnswer. rewrite Hq, Ht, Hl, Hcq. cbn.
    eapply step_submits; cbn; try done; by rewrite <- Hans.
  - case_match; [by apply step_keeps|].
    apply step_keeps; cbn; try done; apply previousQuestion_session.
  - repeat case_match; by apply step_keeps.
  - repeat case_match; try by apply step_keeps.
    apply step_keeps; cbn; try done; apply nextQuestion_session.
  - case_match; [|by apply step_keeps]. by apply step_starts_over.
  - case_match; [|by apply step_keeps]. by apply step_starts_over.
Qed.




Lemma setFlashCardsData_ui next w :
  FlashCards.ui (FlashCards.setFlashCardsData next w) = FlashCards.ui w.
Proof. done. Qed.

Lemma write_ui cw w : FlashCards.ui (FlashCards.write cw w) = FlashCards.ui w.
Proof. by destruct cw. Qed.

Lemma persistEffect_ui w :
  FlashCards.ui (FlashCards.persistEffect w) = FlashCards.ui w.
Proof. unfold FlashCards.persistEffect. by case_match. Qed.

Lemma afterRender_ui before w :
  FlashCards.ui (FlashCards.afterRender before w) = FlashCards.ui w.
Proof.
  unfold FlashCards.afterRender. case_match; [done|apply persistEffect_ui].
Qed.

Lemma step_ui w e :
  FlashCards.ui (FlashCards.step w e).1
  = FlashCards.ui (FlashCards.dispatch w e).1.
Proof.
  unfold FlashCards.step. destruct (FlashCards.dispatch w e) as [w' out].
  apply afterRender_ui.
Qed.








(** What the handler does in that case: the answer that comes back replaces
    the recorded one. *)
Example answered_question_is_overwritten :
  ∃ s1 out c,
    Quiz.submitAnswer Sample.quizAnswered = (s1, out, Some c)
    ∧ Quiz.answers
        (Quiz.submitAnswer_settled c
           (Ok {| Quiz.response_feedback := Some Sample.right |}) s1).1
      !! "q1"
      = Some {| Quiz.answer := "occipital";
                Quiz.answer_feedback := Some Sample.right |}.
Proof. do 3 eexists. split; [reflexivity|]. vm_compute. reflexivity. Qed.



(** ** Navigation *)

Lemma flashcards_forward_gate (w : FlashCards.World) (e : FlashCards.Event) :
  (FlashCards.currentIndex (FlashCards.ui w)
   < FlashCards.currentIndex (FlashCards.ui (FlashCards.step w e).1))%nat →
  e = FlashCards.ClickNextCard
  ∧ FlashCards.showAnswer (FlashCards.ui w) = true
  ∧ is_Some (FlashCards.evaluation (FlashCards.ui w))
  ∧ FlashCards.currentIndex (FlashCards.ui (FlashCards.step w e).1)
    = (FlashCards.currentIndex (FlashCards.ui w) + 1)%nat.
Proof.
  rewrite step_ui.
  destruct e as [v|v|v| | | |v| | |i| |n r|n r|r]; cbn.
  12: { destruct (FlashCards.pendingGenerates w !! n); cbn; [|lia].
        destruct r; cbn; lia. }
  12: { destruct (FlashCards.pendingEvaluations w !! n); cbn; [|lia].
        destruct r; cbn; lia. }
  12: { destruct (FlashCards.pendingAnalyses w); cbn; [lia|].
        destruct r; cbn; lia. }
  all: destruct (FlashCards.setupVisible (FlashCards.ui w)); cbn;
    [try lia|].
  all: try (destruct (FlashCards.loading (FlashCards.ui w)); cbn; lia).
  all: destruct (FlashCards.viewerVisible (FlashCards.ui w)); cbn.
  all: try (destruct (FlashCards.completionVisible (FlashCards.ui w)); cbn; lia).
  all: try lia.
  - case_match; cbn; [lia|]. unfold FlashCards.prevCard.
    case_match; rewrite ?goToCard_currentIndex; lia.
  - case_match; cbn; lia.
  - case_match; cbn; [lia|]. unfold FlashCards.submitAnswer.
    repeat case_match; simplify_eq; cbn; lia.
  - destruct (FlashCards.showAnswer (FlashCards.ui w)); cbn; [|lia].
    destruct (FlashCards.evaluation (FlashCards.ui w)); cbn; [|lia].
    unfold FlashCards.nextCard, FlashCards.analyzeSession.
    destruct (Z.of_nat _ <? _); cbn; rewrite ?goToCard_currentIndex; [|lia].
    intros _. eauto.
  - destruct (FlashCards.completionVisible (FlashCards.ui w)); cbn; [|lia].
    case_match; cbn; lia.
Qed.

Local Ltac nothing_sent :=
  split; [done|split; [done|intros ?; apply not_elem_of_nil]].

Lemma flashcards_navigation_silent (w : FlashCards.World) (e : FlashCards.Event) :
  e = FlashCards.ClickPrevious ∨ e = FlashCards.ClickNextCard →
  FlashCards.cardResults (FlashCards.ui (FlashCards.step w e).1)
  = FlashCards.cardResults (FlashCards.ui w)
  ∧ FlashCards.totalScore (FlashCards.ui (FlashCards.step w e).1)
    = FlashCards.totalScore (FlashCards.ui w)
  ∧ ∀ data, FlashCards.PostEvaluate data ∉ (FlashCards.step w e).2.
Proof.
  intros He.
  assert ((FlashCards.step w e).2 = (FlashCards.dispatch w e).2) as ->.
  { unfold FlashCards.step. by destruct (FlashCards.dispatch w e). }
  rewrite step_ui.
  destruct He as [-> | ->]; cbn.
  all: destruct (FlashCards.setupVisible (FlashCards.ui w)); cbn;
    [nothing_sent|].
  all: destruct (FlashCards.viewerVisible (FlashCards.ui w)); cbn;
    [|destruct (FlashCards.completionVisible (FlashCards.ui w)); cbn;
      nothing_sent].
  - case_match; cbn; [nothing_sent|].
    unfold FlashCards.prevCard. case_match;
      [destruct (goToCard_session
                   (FlashCards.currentIndex (FlashCards.ui w) - 1)
                   (FlashCards.ui w)) as (_ & -> & -> & _)|];
      nothing_sent.
  - destruct (FlashCards.showAnswer (FlashCards.ui w)); cbn;
      [|nothing_sent].
    destruct (FlashCards.evaluation (FlashCards.ui w)); cbn;
      [|nothing_sent].
    unfold FlashCards.nextCard, FlashCards.analyzeSession.
    destruct (Z.of_nat _ <? _); cbn;
      [destruct (goToCard_session
                   (FlashCards.currentIndex (FlashCards.ui w) + 1)
                   (FlashCards.ui w)) as (_ & -> & -> & _)|].
    + nothing_sent.
    + repeat split. intros data Hd.
      apply list_elem_of_singleton in Hd. discriminate Hd.
Qed.

(** C3, as stated, fails on the quiz page: with the first of three questions
    on screen and nothing answered, a click on the third question dot moves
    the cursor to the third question, which has no answer either. *)
Lemma C3_counterexample :
  ¬ (∀ (w : Quiz.World) (e : Quiz.Event),
       Quiz.hasAnswered (Quiz.ui w) = None →
       (Quiz.currentQuestionIndex (Quiz.ui w)
        < Quiz.currentQuestionIndex (Quiz.ui (Quiz.step w e).1))%nat →
       is_Some (Quiz.hasAnswered (Quiz.ui (Quiz.step w e).1))).
Proof.
  intros H.
  destruct (H Sample.quizStarted (Quiz.ClickDot 2) eq_refl) as [a Ha].
  - cbn. lia.
  - discriminate Ha.
Qed.

(** C3, amended.  Quiz: "Next" does nothing while the current question has
    no recorded answer, but every question dot moves the cursor to its
    question at any time; the view then shows the recorded answer and
    feedback of that question, or an empty answer and no feedback when there
    is none; nothing is sent and [answers] is untouched.  Flash cards: the
    cursor moves forward only by "Next", by one card, and only when
    [showAnswer] is on and an evaluation is displayed; moving with
    "Previous" or "Next" sends no evaluation request and leaves the results
    and the score alone; the card moved to shows the recorded answer and an
    evaluation when [cardResults] has an entry at its index, and an empty
    answer field otherwise. *)
Theorem C3_navigation_gates_and_restores
    (qw : Quiz.World) (q : Quiz.QuizData) (cq qd : Quiz.Question) (idx : nat)
    (fw : FlashCards.World) (fe : FlashCards.Event)
    (fs : FlashCards.State) (i : nat) :
  Quiz.quiz (Quiz.ui qw) = Some q →
  Quiz.questions q !! Quiz.currentQuestionIndex (Quiz.ui qw) = Some cq →
  Quiz.questions q !! idx = Some qd →
  (let shown := Quiz.showQuestion idx (Quiz.question_id qd) (Quiz.ui qw) in
   Quiz.step qw (Quiz.ClickDot idx) = (Quiz.withUi (λ _, shown) qw, [])
   ∧ Quiz.currentQuestionIndex shown = idx
   ∧ Quiz.selectedAnswer shown
     = default "" (Quiz.answer
                     <$> Quiz.answers (Quiz.ui qw) !! Quiz.question_id qd)
   ∧ Quiz.feedback shown
     = (Quiz.answers (Quiz.ui qw) !! Quiz.question_id qd
          ≫= Quiz.answer_feedback)
   ∧ Quiz.answers shown = Quiz.answers (Quiz.ui qw))
  ∧ (Quiz.hasAnswered (Quiz.ui qw) = None →
     Quiz.step qw Quiz.ClickNext = (qw, []))
  ∧ ((FlashCards.currentIndex (FlashCards.ui fw)
      < FlashCards.currentIndex (FlashCards.ui (FlashCards.step fw fe).1))%nat →
     fe = FlashCards.ClickNextCard
     ∧ FlashCards.showAnswer (FlashCards.ui fw) = true
     ∧ is_Some (FlashCards.evaluation (FlashCards.ui fw))
     ∧ FlashCards.currentIndex (FlashCards.ui (FlashCards.step fw fe).1)
       = (FlashCards.currentIndex (FlashCards.ui fw) + 1)%nat)
  ∧ (fe = FlashCards.ClickPrevious ∨ fe = FlashCards.ClickNextCard →
     FlashCards.cardResults (FlashCards.ui (FlashCards.step fw fe).1)
     = FlashCards.cardResults (FlashCards.ui fw)
     ∧ FlashCards.totalScore (FlashCards.ui (FlashCards.step fw fe).1)
       = FlashCards.totalScore (FlashCards.ui fw)
     ∧ ∀ data, FlashCards.PostEvaluate data ∉ (FlashCards.step fw fe).2)
  ∧ (∀ r, FlashCards.cardResults fs !! i = Some r →
          FlashCards.currentIndex (FlashCards.goToCard i fs) = i
          ∧ FlashCards.userAnswer (FlashCards.goToCard i fs)
            = FlashCards.user_answer r
          ∧ FlashCards.showAnswer (FlashCards.goToCard i fs) = true
          ∧ is_Some (FlashCards.evaluation (FlashCards.goToCard i fs)))
  ∧ (FlashCards.cardResults fs !! i = None →
     FlashCards.currentIndex (FlashCards.goToCard i fs) = i
     ∧ FlashCards.userAnswer (FlashCards.goToCard i fs) = ""
     ∧ FlashCards.showAnswer (FlashCards.goToCard i fs) = false
     ∧ FlashCards.evaluation (FlashCards.goToCard i fs) = None).
Proof.
  intros Hq Hcq Hqd. repeat apply conj; try done.
  - unfold Quiz.step, Quiz.screen. rewrite Hq, Hcq. cbn. by rewrite Hq, Hqd.
  - intros Hnone. apply quiz_next_disabled. by left.
  - apply flashcards_forward_gate.
  - apply flashcards_navigation_silent.
  - intros r Hr. unfold FlashCards.goToCard. rewrite Hr. by cbn.
  - intros Hr. unfold FlashCards.goToCard. by rewrite Hr.
Qed.

Lemma C3_navigation_gates_and_restores_witness :
  Quiz.quiz (Quiz.ui Sample.quizStarted) = Some Sample.quiz3
  ∧ Quiz.step Sample.quizStarted (Quiz.ClickDot 2)
    = (Quiz.withUi (Quiz.setCurrentQuestionIndex 2%nat) Sample.quizStarted, [])
  ∧ Quiz.step Sample.quizStarted Quiz.ClickNext = (Sample.quizStarted, []).
Proof.
  destruct (C3_navigation_gates_and_restores Sample.quizStarted Sample.quiz3
              Sample.question1 Sample.question3 2
              Sample.resumedAtSecond FlashCards.ClickNextCard Sample.deck 0
              eq_refl eq_refl eq_refl) as ((Hdot & _) & Hnext & _).
  exact (conj eq_refl (conj Hdot (Hnext eq_refl))).
Defined.

(** ** The hint budget of the clinical case *)










(** The three hints of the sample run are used up, and the click that
    follows does nothing: the last answer of the service is the last turn. *)
Example three_hints_then_none :
  let '(w, out) := ClinicalCase.run Sample.operatingRoom Sample.threeHints in
  ClinicalCase.availableHints (ClinicalCase.ui w) = Some 0
  ∧ length (ClinicalCase.messages (ClinicalCase.ui w)) = 5%nat
  ∧ length out = 3%nat.
Proof. vm_compute. done. Qed.

(** ** Persisting and restoring *)

Lemma restore_persist {V : Type} (key : string) (next : option V)
    (stored : gmap string (AppContext.Item V)) :
  AppContext.restore key (AppContext.persist true key next stored) = next.
Proof.
  unfold AppContext.restore, AppContext.persist. by rewrite lookup_insert_eq.
Qed.


Lemma mount_ui (canWrite : bool)
    (stored : gmap string (AppContext.Item FlashCards.FlashCardsData)) :
  FlashCards.ui (FlashCards.mount canWrite stored)
  = FlashCards.initial
      (AppContext.restore AppContext.STORAGE_KEYS_flashCards stored).
Proof. unfold FlashCards.mount. by rewrite persistEffect_ui. Qed.


Lemma viewerVisible_iff s :
  FlashCards.viewerVisible s = true
  ↔ FlashCards.cards s ≠ [] ∧ FlashCards.sessionComplete s = false.
Proof.
  unfold FlashCards.viewerVisible.
  destruct (FlashCards.cards s), (FlashCards.sessionComplete s); cbn;
    split; try done; intros []; done.
Qed.


Lemma write_writable cw w :
  FlashCards.writable (FlashCards.write cw w) = FlashCards.writable w.
Proof. by destruct cw. Qed.

Lemma write_pendingGenerates cw w :
  FlashCards.pendingGenerates (FlashCards.write cw w)
  = FlashCards.pendingGenerates w.
Proof. by destruct cw. Qed.

Lemma dispatch_writable (w : FlashCards.World) (e : FlashCards.Event) :
  FlashCards.writable (FlashCards.dispatch w e).1 = FlashCards.writable w.
Proof.
  destruct e as [v|v|v| | | |v| | |i| |n r|n r|r]; cbn.
  12: { destruct (FlashCards.pendingGenerates w !! n); [|done].
        destruct (FlashCards.generate_settled _ r _) as [s' cw].
        cbn. by rewrite write_writable. }
  12: { by destruct (FlashCards.pendingEvaluations w !! n). }
  12: { by destruct (FlashCards.pendingAnalyses w). }
  all: destruct (FlashCards.setupVisible (FlashCards.ui w)); cbn; try done.
  all: try (by destruct (FlashCards.loading (FlashCards.ui w))).
  all: destruct (FlashCards.viewerVisible (FlashCards.ui w)); cbn; try done.
  all: try (by destruct (FlashCards.completionVisible (FlashCards.ui w))).
  all: try (by repeat case_match).
Qed.

Lemma afterRender_frame before w :
  FlashCards.writable (FlashCards.afterRender before w) = FlashCards.writable w
  ∧ FlashCards.pendingGenerates (FlashCards.afterRender before w)
    = FlashCards.pendingGenerates w.
Proof.
  unfold FlashCards.afterRender, FlashCards.persistEffect.
  by repeat case_match.
Qed.

Lemma step_writable (w : FlashCards.World) (e : FlashCards.Event) :
  FlashCards.writable (FlashCards.step w e).1 = FlashCards.writable w.
Proof.
  unfold FlashCards.step. pose proof (dispatch_writable w e) as Hd.
  destruct (FlashCards.dispatch w e) as [w1 out]. cbn in *.
  by destruct (afterRender_frame (FlashCards.ui w) w1) as [-> _].
Qed.










(** ** The arithmetic of doubles *)

Lemma pow2_pos (k : Z) : (0 < 2 ^ k)%Q.
Proof. by apply Qpower_0_lt. Qed.

Lemma pow2_le (j k : Z) : j ≤ k → (2 ^ j <= 2 ^ k)%Q.
Proof. intros H. by apply Qpower_le_compat_l. Qed.

Lemma pow2_lt_inv (j k : Z) : (2 ^ j < 2 ^ k)%Q → j < k.
Proof. intros H. by apply (Qpower_lt_compat_l_inv 2). Qed.

Lemma pow2_plus (j k : Z) : (2 ^ (j + k) == 2 ^ j * 2 ^ k)%Q.
Proof. by apply Qpower_plus. Qed.

Lemma pow2_Z (k : Z) : 0 ≤ k → (2 ^ k == inject_Z (2 ^ k))%Q.
Proof. intros H. by rewrite (Zpower_Qpower 2 k H). Qed.


(** [exponent] is the floor of the binary logarithm. *)
Lemma exponent_spec (x : Q) :
  ¬ (x == 0)%Q →
  (2 ^ Double.exponent x <= Qabs x)%Q ∧ (Qabs x < 2 ^ (Double.exponent x + 1))%Q.
Proof.
  intros Hx. unfold Double.exponent.
  destruct x as [n d]. cbn [Qnum Qden].
  assert (0 < Z.abs n) as Hp.
  { destruct n; [|lia|lia]. exfalso. apply Hx. reflexivity. }
  set (p := Z.abs n) in *. set (a := Z.log2 p). set (b := Z.log2 (Z.pos d)).
  destruct (Z.log2_spec p Hp) as [Ha1 Ha2]. fold a in Ha1, Ha2.
  destruct (Z.log2_spec (Z.pos d) ltac:(lia)) as [Hb1 Hb2]. fold b in Hb1, Hb2.
  assert (0 ≤ a) as Ha0 by apply Z.log2_nonneg.
  assert (0 ≤ b) as Hb0 by apply Z.log2_nonneg.
  assert (Qabs (n # d) == inject_Z p / inject_Z (Z.pos d))%Q as Habs.
  { rewrite <- Zabs_Qabs. apply Qmake_Qdiv. }
  assert (0 < inject_Z (Z.pos d))%Q as Hd by (rewrite <- (Zlt_Qlt 0); lia).
  assert (inject_Z (2 ^ a) <= inject_Z p)%Q as Qa1 by (by rewrite <- Zle_Qle).
  assert (inject_Z p < inject_Z (2 ^ (a + 1)))%Q as Qa2 by (by rewrite <- Zlt_Qlt).
  assert (inject_Z (2 ^ b) <= inject_Z (Z.pos d))%Q as Qb1 by (by rewrite <- Zle_Qle).
  assert (inject_Z (Z.pos d) < inject_Z (2 ^ (b + 1)))%Q as Qb2 by (by rewrite <- Zlt_Qlt).
  rewrite <- pow2_Z in Qa1, Qa2, Qb1, Qb2 by lia.
  destruct (Qle_bool (2 ^ (a - b)) (Qabs (n # d))) eqn:Hc.
  - apply Qle_bool_iff in Hc. split; [done|].
    rewrite Habs. apply Qlt_shift_div_r; [done|].
    apply Qlt_le_trans with (2 ^ (a + 1))%Q; [done|].
    replace (a + 1) with ((a - b + 1) + b) by lia. rewrite pow2_plus.
    apply Qmult_le_l; [apply pow2_pos|done].
  - assert (Qabs (n # d) < 2 ^ (a - b))%Q as Hlt.
    { apply Qnot_le_lt. intros Hle. apply Qle_bool_iff in Hle. congruence. }
    split; [|by replace (a - b - 1 + 1) with (a - b) by lia].
    rewrite Habs. apply Qle_shift_div_l; [done|].
    apply Qle_trans with (2 ^ a)%Q; [|done].
    replace a with ((a - b - 1) + (b + 1)) at 2 by lia. rewrite pow2_plus.
    apply Qmult_le_l; [apply pow2_pos|]. by apply Qlt_le_weak.
Qed.

Lemma ulp_pos (x : Q) : (0 < Double.ulp x)%Q.
Proof. apply pow2_pos. Qed.

Lemma nearestEven_le (x : Q) (k : Z) :
  (x <= inject_Z k)%Q → Double.nearestEven x ≤ k.
Proof.
  intros Hx. unfold Double.nearestEven.
  pose proof (Qfloor_le x) as Hf.
  assert (Qfloor x ≤ k) as Hfk.
  { rewrite <- (Qfloor_Z k). by apply Qfloor_resp_le. }
  assert ((0 < x - inject_Z (Qfloor x))%Q → Qfloor x + 1 ≤ k) as Hup.
  { intros Hr. assert (inject_Z (Qfloor x) < inject_Z k)%Q as Hlt by lra.
    rewrite <- Zlt_Qlt in Hlt. lia. }
  destruct (Qcompare_spec (x - inject_Z (Qfloor x)) (1 # 2)) as [He|Hl|Hg].
  - destruct (Z.even (Qfloor x)); [done|]. apply Hup. lra.
  - done.
  - apply Hup. lra.
Qed.

Lemma nearestEven_ge (x : Q) (k : Z) :
  (inject_Z k <= x)%Q → k ≤ Double.nearestEven x.
Proof.
  intros Hx. unfold Double.nearestEven.
  assert (k ≤ Qfloor x) as Hfk.
  { rewrite <- (Qfloor_Z k). by apply Qfloor_resp_le. }
  repeat case_match; lia.
Qed.


Lemma round_0 (x : Q) : (x == 0)%Q → Double.round x = 0%Q.
Proof.
  intros Hx. unfold Double.round. apply Qeq_bool_iff in Hx. by rewrite Hx.
Qed.

Lemma round_eq (x : Q) :
  ¬ (x == 0)%Q →
  (Double.round x
   == inject_Z (Double.nearestEven (x / Double.ulp x)) * Double.ulp x)%Q.
Proof.
  intros Hx. unfold Double.round.
  destruct (Qeq_bool x 0) eqn:E; [by apply Qeq_bool_iff in E|].
  apply Qred_correct.
Qed.

Lemma round_nonneg (x : Q) : (0 <= x)%Q → (0 <= Double.round x)%Q.
Proof.
  intros Hx. destruct (Qeq_dec x 0) as [H0|H0]; [by rewrite round_0|].
  rewrite round_eq by done. pose proof (ulp_pos x) as Hu.
  set (u := Double.ulp x) in *. clearbody u.
  apply Qmult_le_0_compat; [|lra].
  rewrite <- (Zle_Qle 0). apply nearestEven_ge.
  apply Qle_shift_div_l; [done|]. change (inject_Z 0) with 0%Q. lra.
Qed.

Lemma round_le_int (x : Q) (K : Z) :
  0 ≤ K ≤ 2 ^ 52 → (x <= inject_Z K)%Q → (Double.round x <= inject_Z K)%Q.
Proof.
  intros HK Hx.
  assert (0 <= inject_Z K)%Q as HK0 by (rewrite <- (Zle_Qle 0); lia).
  destruct (Qeq_dec x 0) as [H0|H0]; [by rewrite round_0|].
  rewrite round_eq by done. pose proof (ulp_pos x) as Hu.
  destruct (Qlt_le_dec x 0) as [Hneg|Hpos].
  { assert (Double.nearestEven (x / Double.ulp x) ≤ 0) as Hm.
    { apply nearestEven_le. apply Qle_shift_div_r; [done|].
      change (inject_Z 0) with 0%Q. rewrite Qmult_0_l. by apply Qlt_le_weak. }
    rewrite Zle_Qle in Hm. change (inject_Z 0) with 0%Q in Hm.
    set (m := inject_Z (Double.nearestEven (x / Double.ulp x))) in *.
    set (u := Double.ulp x) in *. clearbody m u. nra. }
  destruct (exponent_spec x H0) as [Hlo _].
  rewrite Qabs_pos in Hlo by done.
  assert (Double.exponent x ≤ 52) as He.
  { assert (2 ^ Double.exponent x < 2 ^ 53)%Q as Hlt.
    { apply Qle_lt_trans with (inject_Z K); [by apply Qle_trans with x|].
      rewrite (pow2_Z 53) by lia. rewrite <- Zlt_Qlt. lia. }
    apply pow2_lt_inv in Hlt. lia. }
  set (e := Z.max (Double.exponent x) (-1022)).
  assert (e ≤ 52) as Hm by lia.
  assert (Double.ulp x == 2 ^ (e - 52))%Q as Hulp by reflexivity.
  assert (inject_Z (2 ^ (52 - e)) * Double.ulp x == 1)%Q as Hinv.
  { rewrite Hulp, <- pow2_Z by lia. rewrite <- pow2_plus.
    by replace (52 - e + (e - 52)) with 0 by lia. }
  assert (Double.nearestEven (x / Double.ulp x) ≤ K * 2 ^ (52 - e)) as Hne.
  { apply nearestEven_le. apply Qle_shift_div_r; [done|].
    rewrite inject_Z_mult, <- Qmult_assoc, Hinv. by rewrite Qmult_1_r. }
  rewrite Zle_Qle, inject_Z_mult in Hne.
  set (m := inject_Z (Double.nearestEven (x / Double.ulp x))) in *.
  set (u := Double.ulp x) in *. set (k := inject_Z K) in *.
  set (p := inject_Z (2 ^ (52 - e))) in *. clearbody m u k p. nra.
Qed.










(** The percentage of [c] out of [n], as the quiz computes it, lies between
    0 and 100 when [c] is at most [n]. *)
Lemma percent_bounds (c n : nat) :
  (c ≤ n)%nat → (0 < n)%nat →
  (0 <= Double.mul (Double.div (Double.ofNat c) (Double.ofNat n)) 100)%Q
  ∧ (Double.mul (Double.div (Double.ofNat c) (Double.ofNat n)) 100 <= 100)%Q.
Proof.
  intros Hcn Hn. unfold Double.ofNat, Double.mul, Double.div.
  assert (0 < inject_Z (Z.of_nat n))%Q as Hn' by (rewrite <- (Zlt_Qlt 0); lia).
  assert (0 <= inject_Z (Z.of_nat c))%Q as Hc0 by (rewrite <- (Zle_Qle 0); lia).
  assert (inject_Z (Z.of_nat c) <= inject_Z (Z.of_nat n))%Q as Hc1
    by (rewrite <- Zle_Qle; lia).
  set (y := (inject_Z (Z.of_nat c) / inject_Z (Z.of_nat n))%Q).
  assert (0 <= y)%Q as Hy0.
  { apply Qle_shift_div_l; [done|]. by rewrite Qmult_0_l. }
  assert (y <= 1)%Q as Hy1.
  { apply Qle_shift_div_r; [done|]. by rewrite Qmult_1_l. }
  pose proof (round_nonneg y Hy0) as Hq0.
  pose proof (round_le_int y 1 ltac:(lia) Hy1) as Hq1.
  change (inject_Z 1) with 1%Q in Hq1.
  set (q := Double.round y) in *. clearbody q.
  split.
  - apply round_nonneg. lra.
  - apply (round_le_int _ 100); [lia|]. change (inject_Z 100) with 100%Q. lra.
Qed.


(** ** Scores *)



Lemma answers_within_quiz (s : Quiz.State) (q : Quiz.QuizData) :
  (∀ id, is_Some (Quiz.answers s !! id) →
         id ∈ Quiz.question_id <$> Quiz.questions q) →
  (size (Quiz.answers s) ≤ length (Quiz.questions q))%nat.
Proof.
  intros Hdom. rewrite <- (length_fmap Quiz.question_id (Quiz.questions q)).
  rewrite <- length_map_to_list.
  rewrite <- (length_fmap fst (map_to_list (Quiz.answers s))).
  apply submseteq_length, NoDup_submseteq; [apply NoDup_fst_map_to_list|].
  intros id [[id' a] [-> Hin]]%list_elem_of_fmap. cbn.
  apply elem_of_map_to_list in Hin. apply Hdom. by rewrite Hin.
Qed.

Lemma correctCount_le_size (s : Quiz.State) :
  (Quiz.correctCount s ≤ size (Quiz.answers s))%nat.
Proof.
  unfold Quiz.correctCount. rewrite <- length_map_to_list.
  rewrite <- (length_fmap snd (map_to_list (Quiz.answers s))).
  apply filter_length_le.
Qed.

Lemma Math_round_comp (x y : Q) : (x == y)%Q → JS.Math_round x = JS.Math_round y.
Proof. intros H. unfold JS.Math_round. apply Qfloor_comp. by rewrite H. Qed.

Lemma Math_round_bounds (x : Q) :
  (0 <= x)%Q → (x <= 100)%Q → 0 ≤ JS.Math_round x ≤ 100.
Proof.
  intros H0 H100. unfold JS.Math_round. split.
  - change 0 with (Qfloor (0 + (1 # 2))). apply Qfloor_resp_le. lra.
  - change 100 with (Qfloor (100 + (1 # 2))). apply Qfloor_resp_le. lra.
Qed.







(** C7, as stated, fails: the quiz computes [(correct / questions) * 100]
    in doubles, and the quotient is rounded before it is multiplied.  In the
    sample quiz of forty questions, 23 of them answered correctly, 23/40 is
    the double just below 0.575, the product is 57.49999999999999 and the
    page shows 57, where [round(100 * 23 / 40)] is 58. *)
Lemma C7_counterexample :
  ¬ (∀ (uid : string) (w : Quiz.World) (q : Quiz.QuizData),
       Quiz.reachable uid w →
       Quiz.quiz (Quiz.ui w) = Some q →
       Quiz.displayedScore (Quiz.ui w)
       = JS.Math_round
           (100 * inject_Z (Z.of_nat (Quiz.correctCount (Quiz.ui w)))
            / inject_Z (Z.of_nat (length (Quiz.questions q))))).
Proof.
  intros H.
  assert (Quiz.reachable "u1"
            (Quiz.run (Quiz.mount "u1") SampleLongQuiz.play).1) as Hreach
    by (apply quiz_reachable_run; constructor).
  assert (Quiz.quiz (Quiz.ui (Quiz.run (Quiz.mount "u1") SampleLongQuiz.play).1)
          = Some SampleLongQuiz.forty) as Hq by (vm_compute; reflexivity).
  specialize (H _ _ _ Hreach Hq). vm_compute in H. discriminate H.
Qed.

(** What the page shows there. *)
Example twenty_three_of_forty_is_57_percent :
  let s := Quiz.ui (Quiz.run (Quiz.mount "u1") SampleLongQuiz.play).1 in
  Quiz.correctCount s = 23%nat
  ∧ size (Quiz.answers s) = 40%nat
  ∧ Quiz.displayedScore s = 57
  ∧ JS.Math_round (100 * 23 / 40) = 58.
Proof. vm_compute. done. Qed.



Example one_of_three_is_33_percent :
  Quiz.displayedScore
    (Quiz.submitAnswer_settled
       {| Quiz.questionId := "q1"; Quiz.closed_selectedAnswer := "occipital" |}
       (Ok {| Quiz.response_feedback := Some Sample.right |})
       Sample.quizTyped).1
  = 33.
Proof. vm_compute. reflexivity. Qed.

(** The sample deck graded 1, 1/2 and 0: the total is 3/2, shown as 1.5
    and as 50 percent. *)
Example graded_deck_scores :
  let s :=
    foldl (λ s res,
             FlashCards.submitAnswer_settled
               {| FlashCards.currentCard := Sample.card1;
                  FlashCards.closed_userAnswer := "a" |} (Ok res) s)
          Sample.deck
          [ Sample.full; Sample.half;
            {| FlashCards.score := 0; FlashCards.feedback := "No.";
               FlashCards.is_correct := false;
               FlashCards.is_partial := false |} ] in
  FlashCards.totalScore s = 3 # 2
  ∧ FlashCards.finalScore s = 15
  ∧ FlashCards.finalPercentage s = Some 50.
Proof. vm_compute. done. Qed.

(** A single answer graded 0.35 on a deck of ten cards: the double nearest
    to 0.35 lies below it, so the final score reads 0.3, and the percentage
    reads 3 where 3.5 would be rounded to 4. *)
Example graded_035_reads_03 :
  let s :=
    FlashCards.submitAnswer_settled
      {| FlashCards.currentCard := Sample.card1;
         FlashCards.closed_userAnswer := "a" |}
      (Ok {| FlashCards.score := Double.ofDecimal (35 # 100);
             FlashCards.feedback := "Partly.";
             FlashCards.is_correct := false;
             FlashCards.is_partial := true |})
      (FlashCards.setCards (replicate 10 Sample.card1) Sample.deck) in
  FlashCards.finalScore s = 3
  ∧ FlashCards.finalPercentage s = Some 3
  ∧ JS.toFixed 1 (35 # 100) = 4.
Proof. vm_compute. done. Qed.

(** ** Starting a session *)

Example parseInt_samples :
  JS.parseInt "31" = Some 31 ∧ JS.parseInt "-3" = Some (-3)
  ∧ JS.parseInt " 12 cards" = Some 12 ∧ JS.parseInt "" = None
  ∧ JS.int_or (JS.parseInt "0") 5 = 5.
Proof. vm_compute. done. Qed.

(** C8, as stated, fails: with 31 typed into the field for the number of
    questions, a click on "Start Quiz" sends the request, with 31 in it. *)
Lemma C8_counterexample :
  ¬ (∀ w : Quiz.World,
       ¬ (1 ≤ Quiz.numQuestions (Quiz.ui w) ≤ 30) →
       (Quiz.step w Quiz.ClickStartQuiz).2 = []).
Proof.
  intros H.
  specialize (H (Quiz.step (Quiz.mount "u1") (Quiz.ChangeNumQuestions "31")).1).
  vm_compute in H. specialize (H ltac:(intros [_ Hle]; by apply Hle)).
  discriminate H.
Qed.

(** C8, amended.  Neither start checks the count.  The field keeps whatever
    integer [parseInt] reads from the text typed, and 5 (quiz) or 10 (flash
    cards) when that is [NaN] or 0; a click on the start button of an idle
    form sends one request carrying that count.  When the service rejects the
    request, the quiz page is as it was before the click and alerts the
    message built from the error; the flash-card page shows the error and
    empties [cards], and writes nothing to the store. *)
Theorem C8_count_is_sent_as_typed
    (qw : Quiz.World) (fw : FlashCards.World) (v : string) (err : AxiosError) :
  Quiz.quiz (Quiz.ui qw) = None →
  Quiz.starting (Quiz.ui qw) = false →
  FlashCards.setupVisible (FlashCards.ui fw) = true →
  FlashCards.loading (FlashCards.ui fw) = false →
  Quiz.numQuestions (Quiz.ui (Quiz.step qw (Quiz.ChangeNumQuestions v)).1)
  = JS.int_or (JS.parseInt v) 5
  ∧ (Quiz.step qw Quiz.ClickStartQuiz).2
    = [Quiz.PostQuizStart
         {| Quiz.start_user_id := Quiz.userId (Quiz.ui qw);
            Quiz.start_topic := JS.or_null (JS.trim (Quiz.topic (Quiz.ui qw)));
            Quiz.start_difficulty_level := Quiz.difficulty (Quiz.ui qw);
            Quiz.start_system_filter := Quiz.systemFilter (Quiz.ui qw);
            Quiz.num_questions := Quiz.numQuestions (Quiz.ui qw) |}]
  ∧ Quiz.step (Quiz.step qw Quiz.ClickStartQuiz).1 (Quiz.StartSettled (Err err))
    = (qw, [Quiz.Alert (Text (Quiz.startErrorMessage err))])
  ∧ FlashCards.numCards
      (FlashCards.ui (FlashCards.step fw (FlashCards.ChangeNumCards v)).1)
    = JS.int_or (JS.parseInt v) 10
  ∧ (FlashCards.step fw FlashCards.ClickGenerate).2
    = [FlashCards.PostFlashCards
         {| FlashCards.req_topic :=
              JS.or_null (JS.trim (FlashCards.topic (FlashCards.ui fw)));
            FlashCards.num_cards := FlashCards.numCards (FlashCards.ui fw);
            FlashCards.difficulty_level :=
              FlashCards.difficulty (FlashCards.ui fw) |}]
  ∧ (∀ t s,
        FlashCards.generate_settled t (Err err) s
        = (FlashCards.setLoading false
             (FlashCards.setCards []
                (FlashCards.setError
                   (Some (detail_or err "Failed to generate flash cards")) s)),
           None)).
Proof.
  intros Hq Hs Hsetup Hl.
  assert (Quiz.screen (Quiz.ui qw) = Quiz.SetupForm) as Hscreen
    by (unfold Quiz.screen; by rewrite Hq).
  repeat apply conj.
  - unfold Quiz.step. by rewrite Hscreen.
  - unfold Quiz.step. rewrite Hscreen. cbn. by rewrite Hs.
  - unfold Quiz.step at 2. rewrite Hscreen. cbn. rewrite Hs. cbn.
    f_equal. destruct qw as [s pa ps]. cbn in *. f_equal.
    destruct s; cbn in *. by subst.
  - rewrite step_ui. cbn. by rewrite Hsetup.
  - unfold FlashCards.step, FlashCards.dispatch. rewrite Hsetup. cbn.
    by rewrite Hl.
  - done.
Qed.

Lemma C8_count_is_sent_as_typed_witness :
  Quiz.quiz (Quiz.ui (Quiz.mount "u1")) = None
  ∧ FlashCards.setupVisible (FlashCards.ui (FlashCards.mount true ∅)) = true
  ∧ Quiz.numQuestions
      (Quiz.ui (Quiz.step (Quiz.mount "u1") (Quiz.ChangeNumQuestions "31")).1)
    = 31
  ∧ FlashCards.numCards
      (FlashCards.ui
         (FlashCards.step (FlashCards.mount true ∅)
            (FlashCards.ChangeNumCards "31")).1)
    = 31.
Proof.
  assert (FlashCards.setupVisible (FlashCards.ui (FlashCards.mount true ∅))
          = true) as Hsetup by (vm_compute; reflexivity).
  assert (FlashCards.loading (FlashCards.ui (FlashCards.mount true ∅))
          = false) as Hidle by (vm_compute; reflexivity).
  destruct (C8_count_is_sent_as_typed (Quiz.mount "u1")
              (FlashCards.mount true ∅) "31" Sample.timeout
              eq_refl eq_refl Hsetup Hidle) as (Hq & _ & _ & Hf & _).
  exact (conj eq_refl (conj Hsetup (conj Hq Hf))).
Defined.

(** ** The Socratic conversation *)

Lemma teaching_run_app (w : Teaching.World) (es1 es2 : list Teaching.Event) :
  Teaching.run w (es1 ++ es2)
  = let '(w1, out1) := Teaching.run w es1 in
    let '(w2, out2) := Teaching.run w1 es2 in
    (w2, (out1 ++ out2)%list).
Proof.
  revert w. induction es1 as [|e es1 IH]; intros w; cbn.
  - by destruct (Teaching.run w es2).
  - destruct (Teaching.step w e) as [w1 out1]. rewrite IH.
    destruct (Teaching.run w1 es1) as [w2 out2].
    destruct (Teaching.run w2 es2) as [w3 out3]. by rewrite app_assoc.
Qed.

Lemma teaching_round_run (w : Teaching.World) (a : string)
    (r : Settled Teaching.TeachResponse) :
  teaching_awaits_answer w →
  round_ok (a, r) →
  let '(w', out) := Teaching.run w (teaching_round a r) in
  teaching_requests out
  = [(Teaching.answer <$> Teaching.qaPairs (Teaching.ui w)) ++ [JS.trim a]]%list
  ∧ teaching_awaits_answer w'
  ∧ Teaching.answer <$> Teaching.qaPairs (Teaching.ui w')
    = match r with
      | Ok _ => ((Teaching.answer <$> Teaching.qaPairs (Teaching.ui w))
                 ++ [JS.trim a])%list
      | Err _ => Teaching.answer <$> Teaching.qaPairs (Teaching.ui w)
      end.
Proof.
  intros ((sess & Hsess & Hopen) & Hidle & Hnone) [Ha Hr].
  destruct w as [s ps pa]. destruct s. cbn -[JS.trim JS.truthy] in *. subst.
  rewrite Hopen. cbn -[JS.trim JS.truthy]. rewrite Hopen, Ha.
  cbn -[JS.trim JS.truthy].
  unfold Teaching.doSubmit, Teaching.submitAnswer.
  cbn -[JS.trim JS.truthy]. rewrite Ha. cbn -[JS.trim JS.truthy].
  destruct r as [response|error]; cbn -[JS.trim JS.truthy].
  - repeat split; [eauto|]. by rewrite fmap_app.
  - repeat split. eauto.
Qed.

Lemma teaching_rounds_run (w : Teaching.World)
    (rounds : list (string * Settled Teaching.TeachResponse)) :
  teaching_awaits_answer w →
  Forall round_ok rounds →
  teaching_requests (Teaching.run w (teaching_rounds rounds)).2
  = expected_requests (Teaching.answer <$> Teaching.qaPairs (Teaching.ui w))
      rounds.
Proof.
  revert w. induction rounds as [|[a r] rounds IH]; intros w Hw Hok; [done|].
  apply Forall_cons in Hok as [Hround Hok].
  unfold teaching_rounds. rewrite fmap_cons. cbn [concat].
  rewrite teaching_run_app.
  pose proof (teaching_round_run w a r Hw Hround) as Hone.
  destruct (Teaching.run w (teaching_round a r)) as [w1 out1].
  destruct Hone as (Hout & Hw1 & Hqa).
  specialize (IH w1 Hw1 Hok). fold (teaching_rounds rounds).
  destruct (Teaching.run w1 (teaching_rounds rounds)) as [w2 out2].
  cbn in *. unfold teaching_requests in *. rewrite omap_app, Hout, IH, Hqa.
  by destruct r.
Qed.

Lemma expected_requests_all_answered (prior : list string)
    (rounds : list (string * Settled Teaching.TeachResponse)) :
  Forall (λ round, ∃ response, round.2 = Ok response) rounds →
  expected_requests prior rounds
  = (λ k, prior ++ (JS.trim <$> take (S k) rounds.*1))%list
      <$> seq 0 (length rounds).
Proof.
  revert prior. induction rounds as [|[a r] rounds IH]; intros prior Hall;
    [done|].
  apply Forall_cons in Hall as [[response Hr] Hall]. cbn in Hr. subst r.
  cbn [expected_requests length seq fmap list_fmap].
  rewrite IH by done. rewrite <- fmap_S_seq, <- list_fmap_compose.
  f_equal. apply list_fmap_ext. intros i k _. cbn. by rewrite <- app_assoc.
Qed.

(** C9.  The request that starts a teaching session carries an empty list
    of previous responses.  In the rounds that follow, each request carries
    the answers of the question-answer pairs recorded so far, in order,
    followed by the answer just submitted (trimmed); a pair is recorded when
    the service has replied to its answer.  When the service replies to every
    answer, request number [k] carries the first [k + 1] answers. *)
Theorem C9_teach_requests_carry_all_answers
    (uid topic : string) (first : Teaching.TeachResponse)
    (rounds : list (string * Settled Teaching.TeachResponse)) :
  JS.truthy (JS.trim topic) = true →
  Teaching.is_complete first = false →
  Forall round_ok rounds →
  teaching_requests
    (Teaching.run (Teaching.mount uid)
       ([ Teaching.ChangeTopic topic; Teaching.ClickStart;
          Teaching.StartSettled 0 (Ok first) ]
        ++ teaching_rounds rounds)).2
  = [] :: expected_requests [] rounds
  ∧ (Forall (λ round, ∃ response, round.2 = Ok response) rounds →
     expected_requests [] rounds
     = (λ k, JS.trim <$> take (S k) rounds.*1) <$> seq 0 (length rounds)).
Proof.
  intros Htopic Hfirst Hrounds. split.
  - rewrite teaching_run_app.
    assert (∃ w0,
      Teaching.run (Teaching.mount uid)
        [ Teaching.ChangeTopic topic; Teaching.ClickStart;
          Teaching.StartSettled 0 (Ok first) ]
      = (w0, [Teaching.PostTeach
                {| Teaching.req_topic := JS.trim topic;
                   Teaching.user_id := uid;
                   Teaching.difficulty_level := "undergrad";
                   Teaching.previous_responses := [] |}])
      ∧ teaching_awaits_answer w0
      ∧ Teaching.qaPairs (Teaching.ui w0) = []) as (w0 & -> & Hw0 & Hqa).
    { eexists. cbn -[JS.trim JS.truthy]. rewrite Htopic.
      cbn -[JS.trim JS.truthy].
      unfold Teaching.doStart, Teaching.startSession.
      cbn -[JS.trim JS.truthy]. rewrite Htopic. cbn -[JS.trim JS.truthy].
      split; [reflexivity|]. split; [|done].
      repeat split; cbn -[JS.trim JS.truthy]; eauto. }
    pose proof (teaching_rounds_run w0 rounds Hw0 Hrounds) as Hrun.
    destruct (Teaching.run w0 (teaching_rounds rounds)) as [w1 out1].
    cbn in *. by rewrite Hrun, Hqa.
  - intros Hall. by rewrite expected_requests_all_answered.
Qed.

Lemma C9_teach_requests_carry_all_answers_witness :
  JS.truthy (JS.trim "hippocampus") = true
  ∧ Forall round_ok Sample.threeRounds
  ∧ teaching_requests
      (Teaching.run (Teaching.mount "u1")
         ([ Teaching.ChangeTopic "hippocampus"; Teaching.ClickStart;
            Teaching.StartSettled 0
              (Ok (Sample.asks "What is the hippocampus for?")) ]
          ++ teaching_rounds Sample.threeRounds)).2
    = [ []; ["memory"]; ["memory"; "CA1"]; ["memory"; "CA3"] ].
Proof.
  assert (Forall round_ok Sample.threeRounds) as Hrounds
    by (repeat constructor).
  destruct (C9_teach_requests_carry_all_answers "u1" "hippocampus"
              (Sample.asks "What is the hippocampus for?") Sample.threeRounds
              eq_refl eq_refl Hrounds) as [Hsent _].
  exact (conj eq_refl (conj Hrounds Hsent)).
Defined.

(** ** Requests in flight on the quiz page *)

Lemma quiz_loading_inflight_step (w : Quiz.World) (e : Quiz.Event) :
  (length (Quiz.pendingAnswers w) ≤ 1)%nat
  ∧ (Quiz.loading (Quiz.ui w) = true ↔ Quiz.pendingAnswers w ≠ []) →
  let w' := (Quiz.step w e).1 in
  (length (Quiz.pendingAnswers w') ≤ 1)%nat
  ∧ (Quiz.loading (Quiz.ui w') = true ↔ Quiz.pendingAnswers w' ≠ []).
Proof.
  intros [Hlen Hiff]. cbn zeta.
  destruct (quiz_step_session w e) as
    [Ha Hl Hp | c Hl Hl' Ha Hp Hc | n c Hn Hp Hl Ha | _ Ha Hl Hp].
  - by rewrite Hl, Hp.
  - assert (Quiz.pendingAnswers w = []) as Hnil.
    { destruct (Quiz.pendingAnswers w) as [|c0 ?] eqn:E; [done|].
      assert (Quiz.loading (Quiz.ui w) = true) by (by apply Hiff).
      congruence. }
    rewrite Hp, Hnil, Hl'. cbn. split; [lia|]. split; done.
  - assert (delete n (Quiz.pendingAnswers w) = []) as Hnil.
    { apply lookup_lt_Some in Hn as Hlt.
      destruct (Quiz.pendingAnswers w) as [|c0 [|??]]; cbn in *; try lia.
      destruct n; [done|lia]. }
    rewrite Hp, Hnil, Hl. cbn. split; [lia|]. split; done.
  - by rewrite Hl, Hp.
Qed.

(** X1.  However the quiz page is used from the moment it is loaded, at
    most one answer is waiting for the service, and [loading] is on exactly
    while one is: the spinner never outlives its request, and no second
    answer is sent while the first one is under way. *)
Theorem quiz_loading_iff_submission_in_flight
    (uid : string) (es : list Quiz.Event) :
  let w := (Quiz.run (Quiz.mount uid) es).1 in
  (length (Quiz.pendingAnswers w) ≤ 1)%nat
  ∧ (Quiz.loading (Quiz.ui w) = true ↔ Quiz.pendingAnswers w ≠ []).
Proof.
  cbn zeta.
  assert (Quiz.reachable uid (Quiz.run (Quiz.mount uid) es).1) as Hreach
    by (apply quiz_reachable_run; constructor).
  induction Hreach as [|w e _ IH].
  - cbn. split; [lia|]. split; done.
  - by apply quiz_loading_inflight_step.
Qed.

(** ** The cursor of the quiz *)

Lemma showQuestion_cursor idx id s :
  Quiz.currentQuestionIndex (Quiz.showQuestion idx id s) = idx
  ∧ Quiz.quiz (Quiz.showQuestion idx id s) = Quiz.quiz s.
Proof. done. Qed.

Lemma currentQuestion_showQuestion idx id s q qd :
  Quiz.quiz s = Some q →
  Quiz.questions q !! idx = Some qd →
  Quiz.currentQuestion (Quiz.showQuestion idx id s) = Some qd.
Proof.
  intros Hq Hqd. unfold Quiz.currentQuestion, Quiz.showQuestion. cbn.
  rewrite Hq. cbn. done.
Qed.

(** The cursor is 0 or points at a question of the quiz. *)
Lemma quiz_cursor_step (w : Quiz.World) (e : Quiz.Event) :
  (Quiz.currentQuestionIndex (Quiz.ui w) = 0%nat
   ∨ is_Some (Quiz.currentQuestion (Quiz.ui w))) →
  Quiz.currentQuestionIndex (Quiz.ui (Quiz.step w e).1) = 0%nat
  ∨ is_Some (Quiz.currentQuestion (Quiz.ui (Quiz.step w e).1)).
Proof.
  intros Hinv.
  destruct e as [v|v|v|v| |idx|v| | |idx| | | |n r|r]; cbn.
  14: { destruct (Quiz.pendingAnswers w !! n) as [c|]; [|done].
        by destruct r. }
  14: { destruct (Quiz.pendingStarts w); [done|]. destruct r; cbn; [by left|done]. }
  all: destruct (Quiz.screen (Quiz.ui w)) as [|cq|] eqn:Hscreen; cbn; try done.
  all: try apply screen_QuestionView in Hscreen as (q & Hq & Hcq & Hcur & Hans).
  - by destruct (Quiz.starting (Quiz.ui w)).
  - by repeat case_match.
  - by repeat case_match.
  - destruct (Quiz.hasAnswered (Quiz.ui w)); [done|].
    destruct (negb _ || _) eqn:Hg; [done|].
    apply orb_false_iff in Hg as [Ht Hl]. apply negb_false_iff in Ht.
    unfold Quiz.submitAnswer. rewrite Hq, Ht, Hl, Hcq. cbn.
    right. change (is_Some (Quiz.currentQuestion (Quiz.ui w))).
    by rewrite Hcur.
  - case_match; [done|]. cbn. unfold Quiz.previousQuestion. rewrite Hq.
    case_match; [|done].
    destruct (Quiz.questions q !! (Quiz.currentQuestionIndex (Quiz.ui w) - 1)%nat)
      as [pq|] eqn:Hpq; [|done].
    right. by erewrite currentQuestion_showQuestion.
  - rewrite Hq. destruct (Quiz.questions q !! idx) as [qd|] eqn:Hqd; [|done].
    unfold Quiz.withUi, Quiz.questionDot. cbn [fst Quiz.ui]. right.
    by erewrite currentQuestion_showQuestion.
  - case_match; [done|]. destruct (Quiz.hasAnswered _); [|done]. cbn.
    unfold Quiz.nextQuestion. rewrite Hq. case_match; [|done].
    destruct (Quiz.questions q !! (Quiz.currentQuestionIndex (Quiz.ui w) + 1)%nat)
      as [nq|] eqn:Hnq; [|done].
    right. by erewrite currentQuestion_showQuestion.
  - case_match; [|done]. by left.
  - case_match; [|done]. by left.
Qed.

(** X2.  The cursor of the quiz never leaves the quiz: however the page is
    used from the moment it is loaded, the view of a question breaks (it
    reads the current question, which is then undefined) only when the
    service has delivered a quiz without questions.  With at least one
    question there is always a current one. *)
Theorem quiz_current_question_exists (uid : string) (es : list Quiz.Event) :
  let s := Quiz.ui (Quiz.run (Quiz.mount uid) es).1 in
  Quiz.screen s = Quiz.RenderError
  ↔ ∃ q, Quiz.quiz s = Some q ∧ Quiz.questions q = [].
Proof.
  cbn zeta.
  assert (Quiz.reachable uid (Quiz.run (Quiz.mount uid) es).1) as Hreach
    by (apply quiz_reachable_run; constructor).
  assert (Quiz.currentQuestionIndex (Quiz.ui (Quiz.run (Quiz.mount uid) es).1)
          = 0%nat
          ∨ is_Some (Quiz.currentQuestion
                       (Quiz.ui (Quiz.run (Quiz.mount uid) es).1))) as Hinv.
  { induction Hreach as [|w e _ IH]; [by left|by apply quiz_cursor_step]. }
  set (s := Quiz.ui (Quiz.run (Quiz.mount uid) es).1) in *.
  unfold Quiz.screen, Quiz.currentQuestion in *.
  destruct (Quiz.quiz s) as [q|]; cbn in *.
  - split.
    + intros Herr. exists q. split; [done|].
      destruct (Quiz.questions q !! Quiz.currentQuestionIndex s) eqn:Hcq;
        [done|].
      destruct Hinv as [H0|[? ?]]; [|done].
      rewrite H0 in Hcq. by destruct (Quiz.questions q).
    + intros (q' & [= <-] & Hnil). by rewrite Hnil.
  - split; [done|]. by intros (q' & ? & _).
Qed.

(** X3.  Going on to the next question and back again shows the question
    one started from with the answer and the feedback that are recorded for
    it, or an empty field when nothing is recorded: a text typed but not
    submitted is dropped, the record of answers is untouched.  The same
    holds for going back and on again. *)
Theorem quiz_there_and_back (s : Quiz.State) (q : Quiz.QuizData)
    (cq other : Quiz.Question) :
  Quiz.quiz s = Some q →
  Quiz.questions q !! Quiz.currentQuestionIndex s = Some cq →
  let here := Quiz.showQuestion (Quiz.currentQuestionIndex s)
                (Quiz.question_id cq) s in
  (Quiz.questions q !! (Quiz.currentQuestionIndex s + 1)%nat = Some other →
   Quiz.previousQuestion (Quiz.nextQuestion s) = here)
  ∧ ((0 < Quiz.currentQuestionIndex s)%nat →
     Quiz.nextQuestion (Quiz.previousQuestion s) = here)
  ∧ Quiz.selectedAnswer here = Quiz.recordedAnswer s (Quiz.question_id cq)
  ∧ Quiz.feedback here = Quiz.recordedFeedback s (Quiz.question_id cq)
  ∧ Quiz.answers here = Quiz.answers s.
Proof.
  intros Hq Hcq. cbn zeta. split; [|split; [|done]].
  - intros Hnext. apply lookup_lt_Some in Hnext as Hlt.
    unfold Quiz.nextQuestion. rewrite Hq, Hnext.
    destruct (_ <? _) eqn:Hb; [|apply Z.ltb_ge in Hb; lia].
    unfold Quiz.previousQuestion. cbn. rewrite Hq.
    destruct (0 <? _) eqn:Hb'; [|apply Z.ltb_ge in Hb'; lia].
    replace (Quiz.currentQuestionIndex s + 1 - 1)%nat
      with (Quiz.currentQuestionIndex s) by lia.
    by rewrite Hcq.
  - intros Hpos. apply lookup_lt_Some in Hcq as Hlt.
    unfold Quiz.previousQuestion. rewrite Hq.
    destruct (0 <? _) eqn:Hb; [|apply Z.ltb_ge in Hb; lia].
    destruct (Quiz.questions q !! (Quiz.currentQuestionIndex s - 1)%nat)
      as [pq|] eqn:Hpq.
    2: { apply lookup_ge_None in Hpq. lia. }
    unfold Quiz.nextQuestion. cbn. rewrite Hq.
    destruct (Z.of_nat (Quiz.currentQuestionIndex s - 1) <? _) eqn:Hb';
      [|apply Z.ltb_ge in Hb'; lia].
    replace (Quiz.currentQuestionIndex s - 1 + 1)%nat
      with (Quiz.currentQuestionIndex s) by lia.
    by rewrite Hcq.
Qed.

Lemma quiz_there_and_back_witness :
  Quiz.previousQuestion (Quiz.nextQuestion Sample.quizAnswered)
  = Quiz.showQuestion 0 "q1" Sample.quizAnswered
  ∧ Quiz.selectedAnswer
      (Quiz.previousQuestion (Quiz.nextQuestion Sample.quizAnswered))
    = "frontal".
Proof.
  assert (Quiz.questions Sample.quiz3
            !! Quiz.currentQuestionIndex Sample.quizAnswered
          = Some Sample.question1) as Hcq by (vm_compute; reflexivity).
  assert (Quiz.questions Sample.quiz3
            !! (Quiz.currentQuestionIndex Sample.quizAnswered + 1)%nat
          = Some Sample.question2) as Hnext by (vm_compute; reflexivity).
  destruct (quiz_there_and_back Sample.quizAnswered Sample.quiz3
              Sample.question1 Sample.question2 eq_refl Hcq)
    as (Hback & _ & _).
  rewrite (Hback Hnext). split; [reflexivity|vm_compute; reflexivity].
Defined.

(** ** The topic of a teaching session *)

Lemma elem_of_delete_list {A} (l : list A) (n : nat) (x : A) :
  x ∈ delete n l → x ∈ l.
Proof.
  revert n. induction l as [|y l IH]; intros n; [by destruct n|].
  destruct n; cbn; [by right|].
  intros [->|H]%elem_of_cons; [left|right; eauto].
Qed.

Lemma teaching_topics_ok_step (w : Teaching.World) (e : Teaching.Event) :
  teaching_topics_ok w →
  teaching_topics_ok (Teaching.step w e).1
  ∧ Forall teaching_names_topic (Teaching.step w e).2.
Proof.
  intros Hok. pose proof Hok as (Hsess & Hstarts & Hanswers).
  assert (teaching_topics_ok (Teaching.doStart w).1
          ∧ Forall teaching_names_topic (Teaching.doStart w).2) as Hstart.
  { unfold Teaching.doStart, Teaching.startSession.
    destruct (JS.truthy (JS.trim (Teaching.topic (Teaching.ui w)))) eqn:Ht;
      cbn -[JS.trim JS.truthy].
    - split; [|by repeat constructor].
      split; [done|]. split; [|done].
      intros c [Hc|Hc]%elem_of_app; [by apply Hstarts|].
      apply list_elem_of_singleton in Hc as ->. done.
    - split; [|constructor]. split; [done|]. split; [|done].
      intros c Hc. rewrite app_nil_r in Hc. by apply Hstarts. }
  assert (∀ sess, Teaching.session (Teaching.ui w) = Some sess →
            teaching_topics_ok (Teaching.doSubmit w).1
            ∧ Forall teaching_names_topic (Teaching.doSubmit w).2) as Hsubmit.
  { intros sess Hs. unfold Teaching.doSubmit, Teaching.submitAnswer.
    rewrite Hs. destruct (negb _ || _); cbn -[JS.trim JS.truthy].
    - split; [|constructor]. split; [done|]. split; [done|].
      intros c Hc. rewrite app_nil_r in Hc. by apply Hanswers.
    - split; [|repeat constructor; by apply Hsess].
      split; [intros sess' Hs'; apply (Hsess sess'); exact Hs'|].
      split; [done|].
      intros c [Hc|Hc]%elem_of_app; [by apply Hanswers|].
      apply list_elem_of_singleton in Hc as ->. by apply Hsess. }
  destruct e as [v|  |v| |v| | | |n r|n r]; cbn -[JS.trim JS.truthy].
  9: { destruct (Teaching.pendingStarts w !! n) as [c|] eqn:Hc;
         [|split; [exact Hok|constructor]].
       assert (JS.truthy (JS.trim (Teaching.closed_topic c)) = true) as Htopic
         by (by eapply Hstarts, list_elem_of_lookup_2).
       destruct r; cbn -[JS.trim JS.truthy].
       - split; [|constructor]. split; [by intros ? [= <-]|].
         split; [|done]. intros c' Hc'. by eapply Hstarts, elem_of_delete_list.
       - split; [|by repeat constructor]. split; [done|].
         split; [|done]. intros c' Hc'. by eapply Hstarts, elem_of_delete_list. }
  9: { destruct (Teaching.pendingAnswers w !! n) as [c|] eqn:Hc;
         [|split; [exact Hok|constructor]].
       assert (JS.truthy (Teaching.session_topic (Teaching.closed_session c))
               = true) as Htopic
         by (by eapply Hanswers, list_elem_of_lookup_2).
       destruct r; cbn -[JS.trim JS.truthy].
       - split; [|constructor]. split; [by intros ? [= <-]|].
         split; [done|]. intros c' Hc'. by eapply Hanswers, elem_of_delete_list.
       - split; [|by repeat constructor]. split; [done|].
         split; [done|]. intros c' Hc'.
         by eapply Hanswers, elem_of_delete_list. }
  all: destruct (Teaching.session (Teaching.ui w)) as [sess|] eqn:Hs;
    cbn -[JS.trim JS.truthy].
  all: try (split; [exact Hok|constructor]).
  all: try exact Hstart.
  all: try (destruct (_ || _);
            [split; [exact Hok|constructor]
            |first [exact Hstart | exact (Hsubmit sess eq_refl)
                   | split; [exact Hok|constructor]]]).
  split; [|constructor]. split; [done|]. split; [exact Hstarts|exact Hanswers].
Qed.

Lemma teaching_topics_ok_run (w : Teaching.World) (es : list Teaching.Event) :
  teaching_topics_ok w →
  teaching_topics_ok (Teaching.run w es).1
  ∧ Forall teaching_names_topic (Teaching.run w es).2.
Proof.
  revert w. induction es as [|e es IH]; intros w Hw; [by split; [|constructor]|].
  cbn. destruct (teaching_topics_ok_step w e Hw) as [Hw1 Hout1].
  destruct (Teaching.step w e) as [w1 out1]. cbn in Hw1, Hout1.
  destruct (IH w1 Hw1) as [Hw2 Hout2].
  destruct (Teaching.run w1 es) as [w2 out2]. cbn in *.
  split; [done|]. by apply Forall_app.
Qed.

(** X4.  The teaching service is never asked about an empty topic: however
    the page is used from the moment it is loaded (the Enter key included,
    which starts a session without looking at [loading]), every request
    sent carries a topic that is not empty. *)
Theorem teaching_requests_name_a_topic
    (uid : string) (es : list Teaching.Event) :
  Forall teaching_names_topic (Teaching.run (Teaching.mount uid) es).2.
Proof.
  apply teaching_topics_ok_run. split; [done|]. split; intros c Hc; inversion Hc.
Qed.

(** ** Starting a teaching session with the Enter key *)

(** X5.  On the set-up card of the teaching page the button is disabled
    while a call is under way, but the Enter key in the topic field is not
    guarded: with a topic typed, every press of Enter sends another start
    request and leaves one more call in flight, whatever [loading] says. *)
Theorem teaching_enter_ignores_loading (w : Teaching.World) (n : nat) :
  Teaching.session (Teaching.ui w) = None →
  JS.truthy (JS.trim (Teaching.topic (Teaching.ui w))) = true →
  (Teaching.run w (replicate n Teaching.EnterInTopic)).2
  = replicate n
      (Teaching.PostTeach
         {| Teaching.req_topic := JS.trim (Teaching.topic (Teaching.ui w));
            Teaching.user_id := Teaching.userId (Teaching.ui w);
            Teaching.difficulty_level := Teaching.difficulty (Teaching.ui w);
            Teaching.previous_responses := [] |})
  ∧ length (Teaching.pendingStarts
              (Teaching.run w (replicate n Teaching.EnterInTopic)).1)
    = (length (Teaching.pendingStarts w) + n)%nat
  ∧ (Teaching.loading (Teaching.ui w) = true →
     Teaching.step w Teaching.ClickStart = (w, [])).
Proof.
  intros Hs Ht. split; [|split].
  - revert w Hs Ht. induction n as [|n IH]; intros w Hs Ht; [done|].
    cbn -[JS.trim JS.truthy]. rewrite Hs. cbn -[JS.trim JS.truthy].
    unfold Teaching.doStart, Teaching.startSession. rewrite Ht.
    cbn -[JS.trim JS.truthy].
    match goal with
    | |- context [Teaching.run ?w1 _] => specialize (IH w1 Hs Ht)
    end.
    destruct (Teaching.run _ (replicate n _)) as [w2 out2].
    cbn -[JS.trim JS.truthy] in *. by rewrite IH.
  - revert w Hs Ht. induction n as [|n IH]; intros w Hs Ht; [cbn; lia|].
    cbn -[JS.trim JS.truthy]. rewrite Hs. cbn -[JS.trim JS.truthy].
    unfold Teaching.doStart, Teaching.startSession. rewrite Ht.
    cbn -[JS.trim JS.truthy].
    match goal with
    | |- context [Teaching.run ?w1 _] => specialize (IH w1 Hs Ht)
    end.
    destruct (Teaching.run _ (replicate n _)) as [w2 out2].
    cbn -[JS.trim JS.truthy] in *. rewrite IH, length_app. cbn. lia.
  - intros Hl. cbn -[JS.trim JS.truthy]. rewrite Hs. cbn -[JS.trim JS.truthy].
    by rewrite Hl, orb_true_r.
Qed.

Lemma teaching_enter_ignores_loading_witness :
  let w := (Teaching.run (Teaching.mount "u1")
              [Teaching.ChangeTopic "hippocampus"]).1 in
  length (Teaching.run w (replicate 2 Teaching.EnterInTopic)).2 = 2%nat
  ∧ length (Teaching.pendingStarts
              (Teaching.run w (replicate 2 Teaching.EnterInTopic)).1) = 2%nat.
Proof.
  cbn zeta.
  destruct (teaching_enter_ignores_loading
              (Teaching.run (Teaching.mount "u1")
                 [Teaching.ChangeTopic "hippocampus"]).1 2 eq_refl eq_refl)
    as (Hout & Hlen & _).
  split; [by rewrite Hout|exact Hlen].
Defined.

(** ** An answer that the teaching service fails to process *)

(** X6.  When the call for a submitted answer fails, the teaching page
    records nothing and alerts the error, but the text of the answer is
    gone: [currentAnswer] was emptied before the call and is not put back,
    and everything else is as it was before the answer was typed. *)
Theorem teaching_failed_answer_loses_text
    (w : Teaching.World) (a : string) (err : AxiosError) :
  teaching_awaits_answer w →
  JS.truthy (JS.trim a) = true →
  let after := Teaching.run w (teaching_round a (Err err)) in
  Teaching.ui after.1 = Teaching.setCurrentAnswer "" (Teaching.ui w)
  ∧ Teaching.pendingAnswers after.1 = []
  ∧ ∃ sess,
      Teaching.session (Teaching.ui w) = Some sess
      ∧ after.2
        = [ Teaching.PostTeach
              {| Teaching.req_topic := Teaching.session_topic sess;
                 Teaching.user_id := Teaching.userId (Teaching.ui w);
                 Teaching.difficulty_level := Teaching.session_difficulty sess;
                 Teaching.previous_responses :=
                   ((Teaching.answer <$> Teaching.qaPairs (Teaching.ui w))
                    ++ [JS.trim a])%list |};
            Teaching.Alert (detail_or err "Failed to process answer") ].
Proof.
  intros ((sess & Hsess & Hopen) & Hidle & Hnone) Ha.
  destruct w as [s ps pa]. destruct s. cbn -[JS.trim JS.truthy] in *. subst.
  rewrite Hopen. cbn -[JS.trim JS.truthy]. rewrite Hopen, Ha.
  cbn -[JS.trim JS.truthy].
  unfold Teaching.doSubmit, Teaching.submitAnswer.
  cbn -[JS.trim JS.truthy]. rewrite Ha. cbn -[JS.trim JS.truthy].
  repeat split. eauto.
Qed.

Lemma teaching_failed_answer_loses_text_witness :
  let w := (Teaching.run (Teaching.mount "u1")
              [ Teaching.ChangeTopic "hippocampus"; Teaching.ClickStart;
                Teaching.StartSettled 0 (Ok (Sample.asks "What does it do?")) ]).1 in
  Teaching.currentAnswer
    (Teaching.ui (Teaching.run w (teaching_round "memory" (Err Sample.timeout))).1)
  = ""
  ∧ Teaching.qaPairs
      (Teaching.ui (Teaching.run w (teaching_round "memory" (Err Sample.timeout))).1)
    = [].
Proof.
  cbn zeta.
  assert (teaching_awaits_answer
            (Teaching.run (Teaching.mount "u1")
               [ Teaching.ChangeTopic "hippocampus"; Teaching.ClickStart;
                 Teaching.StartSettled 0 (Ok (Sample.asks "What does it do?")) ]).1)
    as Hw by (vm_compute; eauto).
  destruct (teaching_failed_answer_loses_text _ "memory" Sample.timeout
              Hw eq_refl) as (Hui & _ & _).
  rewrite Hui. split; reflexivity.
Defined.

(** ** The conversation of the clinical case *)

(** What a call of [sendMessage] does on the operating-room view. *)
Lemma clinical_doSend_cases (requestHint : bool) (now : Z)
    (w : ClinicalCase.World) (sess : ClinicalCase.Session) :
  ClinicalCase.session (ClinicalCase.ui w) = Some sess →
  let w' := (ClinicalCase.doSend requestHint now w).1 in
  let out := (ClinicalCase.doSend requestHint now w).2 in
  (w' = w ∧ out = []
   ∧ ((JS.truthy (JS.trim (ClinicalCase.input (ClinicalCase.ui w))) = false
       ∧ requestHint = false)
      ∨ ClinicalCase.loading (ClinicalCase.ui w) = true))
  ∨ (ClinicalCase.loading (ClinicalCase.ui w) = false
     ∧ ClinicalCase.loading (ClinicalCase.ui w') = true
     ∧ ClinicalCase.pendingInteractions w'
       = (ClinicalCase.pendingInteractions w ++ [requestHint])%list
     ∧ ClinicalCase.session (ClinicalCase.ui w')
       = ClinicalCase.session (ClinicalCase.ui w)
     ∧ out = [ClinicalCase.PostInteract
                {| ClinicalCase.req_session_id := ClinicalCase.session_id sess;
                   ClinicalCase.user_message :=
                     JS.or_else
                       (JS.trim (ClinicalCase.input (ClinicalCase.ui w)))
                       "(requested hint)";
                   ClinicalCase.request_hint := requestHint |}]
     ∧ if requestHint
       then ClinicalCase.messages (ClinicalCase.ui w')
            = ClinicalCase.messages (ClinicalCase.ui w)
            ∧ ClinicalCase.input (ClinicalCase.ui w')
              = ClinicalCase.input (ClinicalCase.ui w)
       else JS.truthy (JS.trim (ClinicalCase.input (ClinicalCase.ui w))) = true
            ∧ ClinicalCase.messages (ClinicalCase.ui w')
              = (ClinicalCase.messages (ClinicalCase.ui w)
                 ++ [ClinicalCase.StudentMessage now
                       (JS.trim (ClinicalCase.input (ClinicalCase.ui w))) now])%list
            ∧ ClinicalCase.input (ClinicalCase.ui w') = "").
Proof.
  intros Hs. cbn zeta. unfold ClinicalCase.doSend, ClinicalCase.sendMessage.
  rewrite Hs.
  destruct (JS.truthy (JS.trim (ClinicalCase.input (ClinicalCase.ui w))))
    eqn:Ht, requestHint, (ClinicalCase.loading (ClinicalCase.ui w)) eqn:Hl;
    cbn -[JS.trim JS.truthy].
  all: try (left; destruct w; cbn -[JS.trim JS.truthy] in *;
            rewrite app_nil_r; split; [done|]; split; [done|]; auto; fail).
  all: right; rewrite ?Ht; repeat split; done.
Qed.

Lemma clinical_loading_inflight_step (w : ClinicalCase.World)
    (e : ClinicalCase.Event) :
  (length (ClinicalCase.pendingInteractions w) ≤ 1)%nat
  ∧ (ClinicalCase.loading (ClinicalCase.ui w) = true
     ↔ ClinicalCase.pendingInteractions w ≠ []) →
  let w' := (ClinicalCase.step w e).1 in
  (length (ClinicalCase.pendingInteractions w') ≤ 1)%nat
  ∧ (ClinicalCase.loading (ClinicalCase.ui w') = true
     ↔ ClinicalCase.pendingInteractions w' ≠ []).
Proof.
  intros Hinv. pose proof Hinv as [Hlen Hiff]. cbn zeta.
  assert (∀ requestHint now sess,
            ClinicalCase.session (ClinicalCase.ui w) = Some sess →
            (length (ClinicalCase.pendingInteractions
                       (ClinicalCase.doSend requestHint now w).1) ≤ 1)%nat
            ∧ (ClinicalCase.loading
                 (ClinicalCase.ui (ClinicalCase.doSend requestHint now w).1)
               = true
               ↔ ClinicalCase.pendingInteractions
                   (ClinicalCase.doSend requestHint now w).1 ≠ [])) as Hsend.
  { intros requestHint now sess Hs.
    destruct (clinical_doSend_cases requestHint now w sess Hs)
      as [(-> & _) | (Hl & Hl' & Hp & _)]; [done|].
    assert (ClinicalCase.pendingInteractions w = []) as Hnil.
    { destruct (ClinicalCase.pendingInteractions w) eqn:E; [done|].
      assert (ClinicalCase.loading (ClinicalCase.ui w) = true)
        by (by apply Hiff).
      congruence. }
    rewrite Hp, Hnil, Hl'. cbn. split; [lia|]. split; done. }
  destruct e as [v|v| |now|v|now|m i|m|now r|n now r]; cbn.
  9: { destruct (ClinicalCase.pendingStarts w); [done|]. by destruct r. }
  9: { destruct (ClinicalCase.pendingInteractions w !! n) as [c|] eqn:Hc;
         [|done].
       assert (delete n (ClinicalCase.pendingInteractions w) = []) as Hnil.
       { apply lookup_lt_Some in Hc as Hlt.
         destruct (ClinicalCase.pendingInteractions w) as [|c0 [|??]];
           cbn in *; try lia.
         destruct n; [done|lia]. }
       cbn. rewrite Hnil. split; [cbn; lia|]. by destruct r. }
  all: destruct (ClinicalCase.session (ClinicalCase.ui w)) as [sess|] eqn:Hs;
    cbn; try exact Hinv.
  all: try (case_match eqn:Hc; cbn; rewrite ?Hc;
            first [exact Hinv | by eapply Hsend]).
  all: repeat case_match; exact Hinv.
Qed.

(** X7.  However the clinical page is used from the moment it is loaded, at
    most one message or hint request is waiting for the service, and
    [loading] is on exactly while one is: a hint cannot be asked for while a
    message is under way, nor the other way round. *)
Theorem clinical_loading_iff_interaction_in_flight
    (es : list ClinicalCase.Event) :
  let w := (ClinicalCase.run ClinicalCase.mount es).1 in
  (length (ClinicalCase.pendingInteractions w) ≤ 1)%nat
  ∧ (ClinicalCase.loading (ClinicalCase.ui w) = true
     ↔ ClinicalCase.pendingInteractions w ≠ []).
Proof.
  cbn zeta.
  assert (∀ w,
            (length (ClinicalCase.pendingInteractions w) ≤ 1)%nat
            ∧ (ClinicalCase.loading (ClinicalCase.ui w) = true
               ↔ ClinicalCase.pendingInteractions w ≠ []) →
            (length (ClinicalCase.pendingInteractions
                       (ClinicalCase.run w es).1) ≤ 1)%nat
            ∧ (ClinicalCase.loading (ClinicalCase.ui (ClinicalCase.run w es).1)
               = true
               ↔ ClinicalCase.pendingInteractions (ClinicalCase.run w es).1
                 ≠ [])) as Hrun.
  { induction es as [|e es IH]; intros w Hw; [done|].
    cbn. pose proof (clinical_loading_inflight_step w e Hw) as Hstep.
    destruct (ClinicalCase.step w e) as [w1 out1]. cbn in Hstep.
    specialize (IH w1 Hstep). by destruct (ClinicalCase.run w1 es). }
  apply Hrun. cbn. split; [lia|]. split; done.
Qed.

(** X8.  The conversation of a clinical case only grows.  No event other
    than the start of a new case (the answer to a start request, "New
    Case", a recommended topic) removes or changes a turn: it leaves the
    turns as they are and adds at most two at the end (the reply and, with
    it, the summary of the completed case), and the case keeps its
    identifier. *)
Theorem clinical_conversation_only_grows
    (w : ClinicalCase.World) (e : ClinicalCase.Event) :
  clinical_startsOver e = false →
  let s := ClinicalCase.ui w in
  let s' := ClinicalCase.ui (ClinicalCase.step w e).1 in
  (∃ added, ClinicalCase.messages s' = (ClinicalCase.messages s ++ added)%list
            ∧ (length added ≤ 2)%nat)
  ∧ ClinicalCase.session_id <$> ClinicalCase.session s'
    = ClinicalCase.session_id <$> ClinicalCase.session s.
Proof.
  intros He. cbn zeta.
  assert (∀ requestHint now sess,
            ClinicalCase.session (ClinicalCase.ui w) = Some sess →
            (∃ added,
                ClinicalCase.messages
                  (ClinicalCase.ui (ClinicalCase.doSend requestHint now w).1)
                = (ClinicalCase.messages (ClinicalCase.ui w) ++ added)%list
                ∧ (length added ≤ 2)%nat)
            ∧ ClinicalCase.session_id
                <$> ClinicalCase.session
                      (ClinicalCase.ui (ClinicalCase.doSend requestHint now w).1)
              = ClinicalCase.session_id
                  <$> ClinicalCase.session (ClinicalCase.ui w)) as Hsend.
  { intros requestHint now sess Hs.
    destruct (clinical_doSend_cases requestHint now w sess Hs)
      as [(-> & _) | (_ & _ & _ & Hsame & _ & Hmsg)].
    - split; [|done]. exists []. rewrite app_nil_r. split; [done|cbn; lia].
    - rewrite Hsame. split; [|done]. destruct requestHint.
      + destruct Hmsg as [-> _]. exists []. rewrite app_nil_r.
        split; [done|cbn; lia].
      + destruct Hmsg as (_ & -> & _). eexists. split; [done|cbn; lia]. }
  assert ((∃ added,
              ClinicalCase.messages (ClinicalCase.ui w)
              = (ClinicalCase.messages (ClinicalCase.ui w) ++ added)%list
              ∧ (length added ≤ 2)%nat)
          ∧ ClinicalCase.session_id <$> ClinicalCase.session (ClinicalCase.ui w)
            = ClinicalCase.session_id
                <$> ClinicalCase.session (ClinicalCase.ui w)) as Hsame.
  { split; [|done]. exists []. rewrite app_nil_r. split; [done|cbn; lia]. }
  destruct e as [v|v| |now|v|now|m i|m|now r|n now r]; cbn; try done.
  7: { destruct (ClinicalCase.pendingStarts w); [done|].
       destruct r; [done|]. exact Hsame. }
  7: { destruct (ClinicalCase.pendingInteractions w !! n) as [c|]; [|done].
       destruct r as [res|err]; cbn; [|exact Hsame].
       split.
       - eexists. split; [done|].
         destruct (ClinicalCase.session_complete res),
           (ClinicalCase.completion_data res); cbn; lia.
       - by destruct (ClinicalCase.session (ClinicalCase.ui w)). }
  all: destruct (ClinicalCase.session (ClinicalCase.ui w)) as [sess|] eqn:Hs;
    cbn; rewrite ?Hs; try exact Hsame.
  all: case_match eqn:Hc; cbn; rewrite ?Hc, ?Hs;
    first [exact Hsame | by eapply Hsend].
Qed.

Lemma clinical_conversation_only_grows_witness :
  let s := ClinicalCase.ui Sample.operatingRoom in
  let s' := ClinicalCase.ui
              (ClinicalCase.step
                 (ClinicalCase.step Sample.operatingRoom
                    (ClinicalCase.ClickHint 2000)).1
                 (ClinicalCase.InteractionSettled 0 2100
                    (Ok (Sample.hintAnswer 2)))).1 in
  (∃ added, ClinicalCase.messages s' = (ClinicalCase.messages s ++ added)%list
            ∧ (length added ≤ 2)%nat)
  ∧ ClinicalCase.session_id <$> ClinicalCase.session s' = Some "case-1".
Proof.
  cbn zeta.
  pose proof (clinical_conversation_only_grows Sample.operatingRoom
                (ClinicalCase.ClickHint 2000) eq_refl) as [(a1 & H1 & L1) I1].
  pose proof (clinical_conversation_only_grows
                (ClinicalCase.step Sample.operatingRoom
                   (ClinicalCase.ClickHint 2000)).1
                (ClinicalCase.InteractionSettled 0 2100
                   (Ok (Sample.hintAnswer 2))) eq_refl) as [(a2 & H2 & L2) I2].
  cbn zeta in *. split.
  - assert (a1 = []) as ->.
    { apply (app_inv_head (ClinicalCase.messages
                             (ClinicalCase.ui Sample.operatingRoom))).
      rewrite <- H1, app_nil_r. vm_compute. reflexivity. }
    exists a2. split; [|exact L2]. rewrite H2, H1. by rewrite app_nil_r.
  - rewrite I2, I1. vm_compute. reflexivity.
Defined.

(** X9.  What a message or a hint request carries.  Whenever the clinical
    page sends an interaction, there is a case, no other interaction is
    under way, the request names that case, and its text is never empty.  A
    message carries the trimmed text of the input field, which is emptied,
    and the text is added to the conversation as the student's turn at
    once, before the service replies.  A hint request leaves the field and
    the conversation alone, is not sent with 0 hints on the page, and
    carries the text of the field or, if that is blank, the words
    "(requested hint)". *)
Theorem clinical_what_is_sent
    (w : ClinicalCase.World) (e : ClinicalCase.Event)
    (data : ClinicalCase.InteractRequest) :
  ClinicalCase.PostInteract data ∈ (ClinicalCase.step w e).2 →
  let s := ClinicalCase.ui w in
  let s' := ClinicalCase.ui (ClinicalCase.step w e).1 in
  (ClinicalCase.step w e).2 = [ClinicalCase.PostInteract data]
  ∧ ClinicalCase.session_id <$> ClinicalCase.session s
    = Some (ClinicalCase.req_session_id data)
  ∧ ClinicalCase.loading s = false
  ∧ JS.truthy (ClinicalCase.user_message data) = true
  ∧ if ClinicalCase.request_hint data
    then ClinicalCase.availableHints s ≠ Some 0
         ∧ ClinicalCase.messages s' = ClinicalCase.messages s
         ∧ ClinicalCase.input s' = ClinicalCase.input s
         ∧ ClinicalCase.user_message data
           = JS.or_else (JS.trim (ClinicalCase.input s)) "(requested hint)"
    else ClinicalCase.user_message data = JS.trim (ClinicalCase.input s)
         ∧ ClinicalCase.input s' = ""
         ∧ ∃ now, ClinicalCase.messages s'
                  = (ClinicalCase.messages s
                     ++ [ClinicalCase.StudentMessage now
                           (JS.trim (ClinicalCase.input s)) now])%list.
Proof.
  intros Hin. cbn zeta.
  assert (∀ requestHint now sess,
            ClinicalCase.session (ClinicalCase.ui w) = Some sess →
            (requestHint = true →
             ClinicalCase.availableHints (ClinicalCase.ui w) ≠ Some 0) →
            ClinicalCase.PostInteract data
              ∈ (ClinicalCase.doSend requestHint now w).2 →
            (ClinicalCase.doSend requestHint now w).2
            = [ClinicalCase.PostInteract data]
            ∧ Some (ClinicalCase.session_id sess)
              = Some (ClinicalCase.req_session_id data)
            ∧ ClinicalCase.loading (ClinicalCase.ui w) = false
            ∧ JS.truthy (ClinicalCase.user_message data) = true
            ∧ if ClinicalCase.request_hint data
              then ClinicalCase.availableHints (ClinicalCase.ui w) ≠ Some 0
                   ∧ ClinicalCase.messages
                       (ClinicalCase.ui (ClinicalCase.doSend requestHint now w).1)
                     = ClinicalCase.messages (ClinicalCase.ui w)
                   ∧ ClinicalCase.input
                       (ClinicalCase.ui (ClinicalCase.doSend requestHint now w).1)
                     = ClinicalCase.input (ClinicalCase.ui w)
                   ∧ ClinicalCase.user_message data
                     = JS.or_else
                         (JS.trim (ClinicalCase.input (ClinicalCase.ui w)))
                         "(requested hint)"
              else ClinicalCase.user_message data
                   = JS.trim (ClinicalCase.input (ClinicalCase.ui w))
                   ∧ ClinicalCase.input
                       (ClinicalCase.ui (ClinicalCase.doSend requestHint now w).1)
                     = ""
                   ∧ ∃ now',
                       ClinicalCase.messages
                         (ClinicalCase.ui
                            (ClinicalCase.doSend requestHint now w).1)
                       = (ClinicalCase.messages (ClinicalCase.ui w)
                          ++ [ClinicalCase.StudentMessage now'
                                (JS.trim (ClinicalCase.input (ClinicalCase.ui w)))
                                now'])%list) as Hsend.
  { intros requestHint now sess Hs Hbudget Hdata.
    destruct (clinical_doSend_cases requestHint now w sess Hs)
      as [(_ & Hout & _) | (Hl & _ & _ & _ & Hout & Hmsg)].
    - rewrite Hout in Hdata. inversion Hdata.
    - rewrite Hout in Hdata. apply list_elem_of_singleton in Hdata.
      injection Hdata as ->. rewrite Hout.
      cbn -[JS.trim JS.truthy JS.or_else].
      split; [done|]. split; [done|]. split; [done|]. split.
      + unfold JS.or_else.
        destruct (JS.truthy (JS.trim (ClinicalCase.input (ClinicalCase.ui w))))
          eqn:E; [exact E|reflexivity].
      + destruct requestHint.
        * destruct Hmsg as [Hm Hi]. auto.
        * destruct Hmsg as (Ht & Hm & Hi). unfold JS.or_else. rewrite Ht.
          eauto. }
  destruct e as [v|v| |now|v|now|m i|m|now r|n now r];
    cbn -[JS.trim JS.truthy JS.or_else] in *.
  9: { destruct (ClinicalCase.pendingStarts w); inversion Hin. }
  9: { destruct (ClinicalCase.pendingInteractions w !! n); inversion Hin. }
  all: destruct (ClinicalCase.session (ClinicalCase.ui w)) as [sess|] eqn:Hs;
    cbn -[JS.trim JS.truthy JS.or_else] in *.
  all: try (by inversion Hin).
  - destruct (ClinicalCase.starting (ClinicalCase.ui w));
      cbn in Hin; [inversion Hin|].
    apply list_elem_of_singleton in Hin. discriminate.
  - destruct (ClinicalCase.hintDisabled (ClinicalCase.ui w)) eqn:Hd;
      [inversion Hin|].
    eapply Hsend; [done| |done]. intros _ H0.
    unfold ClinicalCase.hintDisabled in Hd. rewrite H0 in Hd.
    by rewrite orb_true_r in Hd.
  - destruct (ClinicalCase.loading (ClinicalCase.ui w)); inversion Hin.
  - destruct (negb _ || _); [inversion Hin|].
    by eapply Hsend.
  - repeat case_match; inversion Hin.
  - repeat case_match; inversion Hin.
Qed.

Lemma clinical_what_is_sent_witness :
  (ClinicalCase.step Sample.operatingRoom (ClinicalCase.ClickHint 2000)).2
  = [ClinicalCase.PostInteract
       {| ClinicalCase.req_session_id := "case-1";
          ClinicalCase.user_message := "(requested hint)";
          ClinicalCase.request_hint := true |}]
  ∧ ClinicalCase.messages
      (ClinicalCase.ui
         (ClinicalCase.step Sample.operatingRoom
            (ClinicalCase.ClickHint 2000)).1)
    = ClinicalCase.messages (ClinicalCase.ui Sample.operatingRoom).
Proof.
  assert (ClinicalCase.PostInteract
            {| ClinicalCase.req_session_id := "case-1";
               ClinicalCase.user_message := "(requested hint)";
               ClinicalCase.request_hint := true |}
          ∈ (ClinicalCase.step Sample.operatingRoom
               (ClinicalCase.ClickHint 2000)).2) as Hin
    by (vm_compute; left).
  destruct (clinical_what_is_sent _ _ _ Hin) as (Hout & _ & _ & _ & Hhint).
  cbn [ClinicalCase.request_hint] in Hhint.
  destruct Hhint as (_ & Hm & _). exact (conj Hout Hm).
Defined.

(** ** A storage that refuses writes *)

Lemma flashcards_page_step (w1 w2 : FlashCards.World) (e : FlashCards.Event) :
  flashcards_page w1 = flashcards_page w2 →
  flashcards_page (FlashCards.step w1 e).1
  = flashcards_page (FlashCards.step w2 e).1
  ∧ (FlashCards.step w1 e).2 = (FlashCards.step w2 e).2.
Proof.
  destruct w1 as [s1 d1 st1 wr1 pg1 pe1 pa1], w2 as [s2 d2 st2 wr2 pg2 pe2 pa2].
  unfold flashcards_page. cbn. intros [= -> -> -> -> ->].
  unfold FlashCards.step.
  assert (flashcards_page
            (FlashCards.dispatch
               (FlashCards.Build_World s2 d2 st1 wr1 pg2 pe2 pa2) e).1
          = flashcards_page
              (FlashCards.dispatch
                 (FlashCards.Build_World s2 d2 st2 wr2 pg2 pe2 pa2) e).1
          ∧ (FlashCards.dispatch
               (FlashCards.Build_World s2 d2 st1 wr1 pg2 pe2 pa2) e).2
            = (FlashCards.dispatch
                 (FlashCards.Build_World s2 d2 st2 wr2 pg2 pe2 pa2) e).2)
    as [Hpage Hout].
  { destruct e as [v|v|v| | | |v| | |i| |n r|n r|r]; cbn.
    12: { destruct (pg2 !! n); [|done].
          destruct (FlashCards.generate_settled _ r _) as [s' [next|]]; done. }
    12: { by destruct (pe2 !! n). }
    12: { by destruct pa2. }
    all: destruct (FlashCards.setupVisible s2); cbn; try done.
    all: try (by destruct (FlashCards.loading s2)).
    all: destruct (FlashCards.viewerVisible s2); cbn; try done.
    all: try (by destruct (FlashCards.completionVisible s2)).
    all: try (by repeat case_match).
    all: destruct (FlashCards.completionVisible s2); cbn; try done.
    all: by repeat case_match. }
  destruct (FlashCards.dispatch (FlashCards.Build_World s2 d2 st1 wr1 _ _ _) e)
    as [wa outa].
  destruct (FlashCards.dispatch (FlashCards.Build_World s2 d2 st2 wr2 _ _ _) e)
    as [wb outb].
  cbn in *. subst outb. split; [|done].
  unfold flashcards_page in Hpage. injection Hpage as Hui Hd Hpg Hpe Hpa.
  unfold FlashCards.afterRender, FlashCards.persistEffect. rewrite Hui.
  unfold flashcards_page.
  repeat case_match; cbn; congruence.
Qed.

Lemma flashcards_step_unwritable (w : FlashCards.World) (e : FlashCards.Event) :
  FlashCards.writable w = false →
  FlashCards.localStorage (FlashCards.step w e).1 = FlashCards.localStorage w.
Proof.
  intros Hw.
  assert (∀ cw w', FlashCards.writable w' = false →
            FlashCards.localStorage (FlashCards.write cw w')
            = FlashCards.localStorage w') as Hwrite.
  { intros [next|] w' Hw'; [|done]. cbn. by rewrite Hw'. }
  assert (FlashCards.localStorage (FlashCards.dispatch w e).1
          = FlashCards.localStorage w) as Hd.
  { destruct e as [v|v|v| | | |v| | |i| |n r|n r|r]; cbn.
    12: { destruct (FlashCards.pendingGenerates w !! n); [|done].
          destruct (FlashCards.generate_settled _ r _) as [s' cw].
          cbn. by rewrite Hwrite. }
    12: { by destruct (FlashCards.pendingEvaluations w !! n). }
    12: { by destruct (FlashCards.pendingAnalyses w). }
    all: destruct (FlashCards.setupVisible (FlashCards.ui w)); cbn; try done.
    all: try (by destruct (FlashCards.loading (FlashCards.ui w))).
    all: destruct (FlashCards.viewerVisible (FlashCards.ui w)); cbn; try done.
    all: try (by destruct (FlashCards.completionVisible (FlashCards.ui w))).
    all: try (by repeat case_match).
    all: try (by rewrite Hw).
    all: destruct (FlashCards.completionVisible (FlashCards.ui w)); cbn; try done.
    all: repeat case_match; try done; cbn; by rewrite Hw. }
  pose proof (dispatch_writable w e) as Hwr.
  unfold FlashCards.step. destruct (FlashCards.dispatch w e) as [w1 out].
  cbn in *. unfold FlashCards.afterRender, FlashCards.persistEffect.
  repeat case_match; try done. cbn. rewrite Hwr, Hw. done.
Qed.

Lemma flashcards_mount_page (stored : gmap string (AppContext.Item FlashCards.FlashCardsData)) :
  flashcards_page (FlashCards.mount true stored)
  = flashcards_page (FlashCards.mount false stored)
  ∧ FlashCards.localStorage (FlashCards.mount false stored) = stored
  ∧ FlashCards.writable (FlashCards.mount false stored) = false.
Proof.
  unfold FlashCards.mount, FlashCards.persistEffect, flashcards_page.
  cbn. by case_match.
Qed.

(** X10.  A storage that refuses every write (the exception of [setItem]
    is swallowed by the provider) changes nothing of the flash-card session
    in the page: whatever is done from the moment the page is loaded, what
    is on screen, the context cell, the calls in flight and the requests
    sent are the same as with a storage that accepts writes, and the
    storage itself stays as it was found. *)
Theorem flashcards_unwritable_storage_is_harmless
    (stored : gmap string (AppContext.Item FlashCards.FlashCardsData))
    (es : list FlashCards.Event) :
  let good := FlashCards.run (FlashCards.mount true stored) es in
  let bad := FlashCards.run (FlashCards.mount false stored) es in
  flashcards_page bad.1 = flashcards_page good.1
  ∧ bad.2 = good.2
  ∧ FlashCards.localStorage bad.1 = stored.
Proof.
  cbn zeta.
  destruct (flashcards_mount_page stored) as (Hpage & Hstore & Hwr).
  revert Hpage Hstore Hwr.
  generalize (FlashCards.mount true stored) (FlashCards.mount false stored).
  induction es as [|e es IH]; intros w1 w2 Hpage Hstore Hwr; [done|].
  cbn. destruct (flashcards_page_step w1 w2 e Hpage) as [Hpage' Hout].
  pose proof (flashcards_step_unwritable w2 e Hwr) as Hstore'.
  pose proof (step_writable w2 e) as Hwr'.
  destruct (FlashCards.step w1 e) as [w1' out1].
  destruct (FlashCards.step w2 e) as [w2' out2]. cbn in *.
  destruct (IH w1' w2' Hpage' ltac:(congruence) ltac:(congruence))
    as (Hp & Ho & Hs).
  destruct (FlashCards.run w1' es) as [w1'' out1'].
  destruct (FlashCards.run w2' es) as [w2'' out2']. cbn in *.
  by subst.
Qed.

(** ** Starting over *)

(** X11.  "Start Over" on the card viewer forgets the deck: the page is
    back on the set-up form with no cards, no results and a score of 0, the
    context cell is emptied, and the stored record is replaced by [null], so
    that loading the page again starts from the set-up form too.  When the
    storage refuses the write, the old record stays, and a reload brings
    the forgotten deck back. *)
Theorem flashcards_start_over_forgets_deck
    (w : FlashCards.World) (canWrite : bool) :
  FlashCards.viewerVisible (FlashCards.ui w) = true →
  let w' := (FlashCards.step w FlashCards.ClickStartOver).1 in
  (FlashCards.step w FlashCards.ClickStartOver).2 = []
  ∧ FlashCards.setupVisible (FlashCards.ui w') = true
  ∧ FlashCards.cardResults (FlashCards.ui w') = []
  ∧ FlashCards.totalScore (FlashCards.ui w') = 0%Q
  ∧ FlashCards.flashCardsData w' = None
  ∧ AppContext.restore AppContext.STORAGE_KEYS_flashCards
      (FlashCards.localStorage w')
    = (if FlashCards.writable w then None
       else AppContext.restore AppContext.STORAGE_KEYS_flashCards
              (FlashCards.localStorage w))
  ∧ (FlashCards.writable w = true →
     FlashCards.ui (FlashCards.mount canWrite (FlashCards.localStorage w'))
     = FlashCards.initial None).
Proof.
  intros Hv. cbn zeta.
  apply viewerVisible_iff in Hv as Hv'. destruct Hv' as [Hcards Hsc].
  assert (FlashCards.setupVisible (FlashCards.ui w) = false) as Hsetup.
  { unfold FlashCards.setupVisible. destruct (FlashCards.cards _); done. }
  assert (FlashCards.step w FlashCards.ClickStartOver
          = (FlashCards.setFlashCardsData None
               (FlashCards.withUi
                  (λ _, (FlashCards.startOver (FlashCards.ui w)).1) w), []))
    as ->.
  { unfold FlashCards.step. cbn. rewrite Hsetup, Hv. cbn.
    unfold FlashCards.afterRender, FlashCards.persistEffect. cbn.
    by destruct (bool_decide _). }
  cbn.
  assert (AppContext.restore AppContext.STORAGE_KEYS_flashCards
            (AppContext.persist (FlashCards.writable w)
               AppContext.STORAGE_KEYS_flashCards None
               (FlashCards.localStorage w))
          = (if FlashCards.writable w then None
             else AppContext.restore AppContext.STORAGE_KEYS_flashCards
                    (FlashCards.localStorage w))) as Hrestore.
  { destruct (FlashCards.writable w); [apply restore_persist|done]. }
  repeat split; try done.
  intros Hw. rewrite mount_ui. cbn. by rewrite Hrestore, Hw.
Qed.

Lemma flashcards_start_over_forgets_deck_witness :
  let w' := (FlashCards.step Sample.resumedAnswered
               FlashCards.ClickStartOver).1 in
  FlashCards.setupVisible (FlashCards.ui w') = true
  ∧ FlashCards.ui (FlashCards.mount true (FlashCards.localStorage w'))
    = FlashCards.initial None.
Proof.
  cbn zeta.
  assert (FlashCards.viewerVisible (FlashCards.ui Sample.resumedAnswered)
          = true) as Hv by (vm_compute; reflexivity).
  assert (FlashCards.writable Sample.resumedAnswered = true) as Hw
    by (vm_compute; reflexivity).
  destruct (flashcards_start_over_forgets_deck Sample.resumedAnswered true Hv)
    as (_ & Hsetup & _ & _ & _ & _ & Hreload).
  exact (conj Hsetup (Hreload Hw)).
Defined.

(** ** The cursor of the flash cards *)

Lemma goToCard_cursor idx s :
  FlashCards.cards (FlashCards.goToCard idx s) = FlashCards.cards s
  ∧ FlashCards.currentIndex (FlashCards.goToCard idx s) = idx.
Proof. unfold FlashCards.goToCard. by case_match. Qed.

Lemma submitAnswer_cursor s :
  FlashCards.cards (FlashCards.submitAnswer s).1.1 = FlashCards.cards s
  ∧ FlashCards.currentIndex (FlashCards.submitAnswer s).1.1
    = FlashCards.currentIndex s.
Proof. unfold FlashCards.submitAnswer. by repeat case_match. Qed.

Lemma flashcards_cursor_ok_step (w : FlashCards.World) (e : FlashCards.Event) :
  flashcards_cursor_ok (FlashCards.ui w) →
  flashcards_cursor_ok (FlashCards.ui (FlashCards.step w e).1).
Proof.
  intros Hok. rewrite step_ui.
  destruct e as [v|v|v| | | |v| | |i| |n r|n r|r]; cbn.
  12: { destruct (FlashCards.pendingGenerates w !! n); [|done].
        destruct r as [res|err]; cbn; rewrite ?write_ui; cbn.
        - unfold flashcards_cursor_ok. cbn.
          destruct (default [] (FlashCards.flash_cards res)); [by left|].
          right. cbn. lia.
        - by left. }
  12: { destruct (FlashCards.pendingEvaluations w !! n); [|done].
        by destruct r. }
  12: { destruct (FlashCards.pendingAnalyses w); [done|]. by destruct r. }
  all: destruct (FlashCards.setupVisible (FlashCards.ui w)); cbn; try done.
  all: try (by destruct (FlashCards.loading (FlashCards.ui w))).
  all: destruct (FlashCards.viewerVisible (FlashCards.ui w)); cbn; try done.
  all: try (by destruct (FlashCards.completionVisible (FlashCards.ui w))).
  - rewrite ?setFlashCardsData_ui. by left.
  - case_match; [done|]. cbn. unfold FlashCards.prevCard.
    destruct (0 <? _) eqn:Hb; [|done].
    unfold flashcards_cursor_ok.
    destruct (goToCard_cursor (FlashCards.currentIndex (FlashCards.ui w) - 1)
                (FlashCards.ui w)) as [-> ->].
    destruct Hok as [Hnil|Hlt]; [by left|right; lia].
  - by case_match.
  - case_match; [done|].
    pose proof (submitAnswer_cursor (FlashCards.ui w)) as Hsub.
    destruct (FlashCards.submitAnswer (FlashCards.ui w)) as [[s' out] c].
    cbn in *. unfold flashcards_cursor_ok. by destruct Hsub as [-> ->].
  - destruct (FlashCards.showAnswer (FlashCards.ui w)),
      (FlashCards.evaluation (FlashCards.ui w)); try done.
    unfold FlashCards.nextCard.
    destruct (Z.of_nat (FlashCards.currentIndex (FlashCards.ui w)) <? _)
      eqn:Hb; cbn; [|done].
    apply Z.ltb_lt in Hb. unfold flashcards_cursor_ok.
    destruct (goToCard_cursor (FlashCards.currentIndex (FlashCards.ui w) + 1)
                (FlashCards.ui w)) as [-> ->].
    right. lia.
  - destruct (FlashCards.completionVisible (FlashCards.ui w)); [|done]. cbn.
    case_match; [|done]. cbn. rewrite ?setFlashCardsData_ui. by left.
  - destruct (FlashCards.completionVisible (FlashCards.ui w)); [|done]. cbn.
    rewrite ?setFlashCardsData_ui. by left.
Qed.

(** X12.  The card viewer always has a card to show.  When the stored
    record, if there is one, names one of its cards, then however the page
    is used from the moment it is loaded, the current index names a card
    whenever there are cards: the viewer never reads a card that does not
    exist, and a non-blank answer submitted there is always sent for
    evaluation. *)
Theorem flashcards_current_card_exists
    (canWrite : bool)
    (stored : gmap string (AppContext.Item FlashCards.FlashCardsData))
    (es : list FlashCards.Event) :
  (∀ d, AppContext.restore AppContext.STORAGE_KEYS_flashCards stored = Some d →
        flashcards_record_ok d) →
  let w := (FlashCards.run (FlashCards.mount canWrite stored) es).1 in
  (FlashCards.viewerVisible (FlashCards.ui w) = true →
   is_Some (FlashCards.cards (FlashCards.ui w)
              !! FlashCards.currentIndex (FlashCards.ui w)))
  ∧ (FlashCards.viewerVisible (FlashCards.ui w) = true →
     FlashCards.showAnswer (FlashCards.ui w) = false →
     FlashCards.evaluating (FlashCards.ui w) = false →
     JS.truthy (JS.trim (FlashCards.userAnswer (FlashCards.ui w))) = true →
     ∃ data, (FlashCards.step w FlashCards.ClickSubmitAnswer).2
             = [FlashCards.PostEvaluate data]).
Proof.
  intros Hstored. cbn zeta.
  assert (flashcards_cursor_ok
            (FlashCards.ui (FlashCards.run (FlashCards.mount canWrite stored) es).1))
    as Hok.
  { assert (flashcards_cursor_ok
              (FlashCards.ui (FlashCards.mount canWrite stored))) as Hmount.
    { rewrite mount_ui.
      destruct (AppContext.restore _ stored) as [d|] eqn:Hd; [|by left].
      exact (Hstored d eq_refl). }
    revert Hmount. generalize (FlashCards.mount canWrite stored).
    induction es as [|e es IH]; intros w Hw; [done|].
    cbn. pose proof (flashcards_cursor_ok_step w e Hw) as Hstep.
    destruct (FlashCards.step w e) as [w1 out1]. cbn in Hstep.
    specialize (IH w1 Hstep). by destruct (FlashCards.run w1 es). }
  set (w := (FlashCards.run (FlashCards.mount canWrite stored) es).1) in *.
  assert (FlashCards.viewerVisible (FlashCards.ui w) = true →
          is_Some (FlashCards.cards (FlashCards.ui w)
                     !! FlashCards.currentIndex (FlashCards.ui w))) as Hcard.
  { intros [Hcards _]%viewerVisible_iff.
    destruct Hok as [Hnil|Hlt]; [done|]. by apply lookup_lt_is_Some. }
  split; [exact Hcard|].
  intros Hv Hshow Hev Ha. destruct (Hcard Hv) as [card Hc].
  apply viewerVisible_iff in Hv as Hv'. destruct Hv' as [Hcards Hsc].
  assert (FlashCards.setupVisible (FlashCards.ui w) = false) as Hsetup.
  { unfold FlashCards.setupVisible. destruct (FlashCards.cards _); done. }
  unfold FlashCards.step. cbn -[JS.trim JS.truthy].
  rewrite Hsetup, Hv. cbn -[JS.trim JS.truthy]. rewrite Hshow, Ha, Hev.
  cbn -[JS.trim JS.truthy]. unfold FlashCards.submitAnswer.
  rewrite Ha, Hev, Hc. cbn -[JS.trim JS.truthy]. eauto.
Qed.

Lemma flashcards_current_card_exists_witness :
  is_Some (FlashCards.cards (FlashCards.ui Sample.resumedAnswered)
             !! FlashCards.currentIndex (FlashCards.ui Sample.resumedAnswered)).
Proof.
  assert (∀ d, AppContext.restore AppContext.STORAGE_KEYS_flashCards
                 {[ AppContext.STORAGE_KEYS_flashCards :=
                      AppContext.Json
                        (Some {| FlashCards.data_cards :=
                                   [Sample.card1; Sample.card2; Sample.card3];
                                 FlashCards.data_topic := "cortex";
                                 FlashCards.data_currentIndex := 1 |}) ]}
               = Some d → flashcards_record_ok d) as Hstored.
  { intros d Hd. vm_compute in Hd. injection Hd as <-. right. cbn. lia. }
  destruct (flashcards_current_card_exists true _
              [ FlashCards.ChangeUserAnswer "speech";
                FlashCards.ClickSubmitAnswer;
                FlashCards.EvaluationSettled 0 (Ok Sample.half) ] Hstored)
    as [Hcard _].
  apply Hcard. vm_compute. reflexivity.
Defined.

(** ** Which files the pages accept *)

Lemma string_nil_app (s : string) : "" ++ s = s.
Proof. reflexivity. Qed.

Lemma string_cons_app (c : ascii) (a b : string) :
  String c a ++ b = String c (a ++ b).
Proof. reflexivity. Qed.

Lemma string_app_assoc (a b c : string) : (a ++ b) ++ c = a ++ (b ++ c).
Proof.
  induction a as [|x a IH]; [done|].
  change (String x ((a ++ b) ++ c) = String x (a ++ (b ++ c))).
  by rewrite IH.
Qed.

Lemma occurs_app (c : ascii) (a b : string) :
  Browser.occurs c (a ++ b) = Browser.occurs c a || Browser.occurs c b.
Proof.
  induction a as [|x a IH]; [done|].
  change (Ascii.eqb x c || Browser.occurs c (a ++ b)
          = Ascii.eqb x c || Browser.occurs c a || Browser.occurs c b).
  by rewrite IH, orb_assoc.
Qed.

Lemma lower_dot (c : ascii) : Browser.lower c = "."%char ↔ c = "."%char.
Proof.
  destruct c as [[] [] [] [] [] [] [] []]; vm_compute; split; congruence.
Qed.

Lemma toLowerCase_app (a b : string) :
  Browser.toLowerCase (a ++ b)
  = Browser.toLowerCase a ++ Browser.toLowerCase b.
Proof.
  induction a as [|x a IH]; [done|].
  change (String (Browser.lower x) (Browser.toLowerCase (a ++ b))
          = String (Browser.lower x)
              (Browser.toLowerCase a ++ Browser.toLowerCase b)).
  by rewrite IH.
Qed.

Lemma occurs_toLowerCase (s : string) :
  Browser.occurs "." (Browser.toLowerCase s) = Browser.occurs "." s.
Proof.
  induction s as [|c s IH]; [done|].
  change (Ascii.eqb (Browser.lower c) "."
          || Browser.occurs "." (Browser.toLowerCase s)
          = Ascii.eqb c "." || Browser.occurs "." s).
  rewrite IH. f_equal.
  destruct (Ascii.eqb c ".") eqn:E.
  - apply Ascii.eqb_eq in E as ->. by vm_compute.
  - apply Ascii.eqb_neq. intros Hl. apply (proj1 (lower_dot c)) in Hl.
    apply Ascii.eqb_neq in E. contradiction.
Qed.

Lemma endsWith_spec (s suffix : string) :
  Browser.endsWith s suffix = true ↔ ∃ pre, s = pre ++ suffix.
Proof.
  induction s as [|c s IH]; cbn -[String.eqb].
  - rewrite orb_false_r. split.
    + intros ->%String.eqb_eq. by exists "".
    + intros ([|??] & H); [|done].
      rewrite string_nil_app in H. subst. apply String.eqb_refl.
  - rewrite orb_true_iff, IH. split.
    + intros [->%String.eqb_eq | (pre & ->)]; [by exists ""|].
      by exists (String c pre).
    + intros ([|c' pre] & H).
      * left. rewrite string_nil_app in H. subst. apply String.eqb_refl.
      * right. rewrite string_cons_app in H. injection H as -> ->. eauto.
Qed.

(** A text is cut at its last dot in one way only. *)
Lemma last_dot_unique (p q a b : string) :
  Browser.occurs "." a = false →
  Browser.occurs "." b = false →
  p ++ "." ++ a = q ++ "." ++ b →
  a = b.
Proof.
  intros Ha Hb. revert q. induction p as [|c p IH]; intros [|c' q] H;
    repeat first [rewrite string_cons_app in H | rewrite string_nil_app in H].
  - by injection H.
  - injection H as <- ->. rewrite occurs_app in Ha.
    rewrite ?string_cons_app in Ha. cbn in Ha. by rewrite orb_true_r in Ha.
  - injection H as -> <-. rewrite occurs_app in Hb.
    rewrite ?string_cons_app in Hb. cbn in Hb. by rewrite orb_true_r in Hb.
  - injection H as _ H. by eapply IH.
Qed.

Lemma split_dot (s : string) :
  ∃ init seg,
    Browser.split "." s = (init ++ [seg])%list
    ∧ Browser.occurs "." seg = false
    ∧ s = withDots init ++ seg.
Proof.
  induction s as [|c s (init & seg & Hsplit & Hseg & Hs)].
  - by exists [], "".
  - cbn [Browser.split]. destruct (Ascii.eqb c ".") eqn:E.
    + apply Ascii.eqb_eq in E as ->. exists ("" :: init), seg.
      rewrite Hsplit. split; [done|]. split; [done|].
      unfold withDots. cbn [foldr]. fold (withDots init).
      rewrite string_nil_app, !string_cons_app, string_nil_app.
      by rewrite <- Hs.
    + rewrite Hsplit. destruct init as [|y init]; cbn [app].
      * exists [], (String c seg). split; [done|]. split.
        -- cbn [Browser.occurs]. by rewrite E, Hseg.
        -- rewrite Hs. unfold withDots. cbn [foldr].
           by rewrite !string_nil_app.
      * exists (String c y :: init), seg. split; [done|]. split; [done|].
        rewrite Hs. unfold withDots. cbn [foldr].
        by rewrite !string_cons_app.
Qed.

Lemma withDots_ends_with_dot (init : list string) :
  init ≠ [] → ∃ pre, withDots init = pre ++ ".".
Proof.
  induction init as [|x [|y init] IH]; intros Hne; [done| |].
  - exists x. done.
  - destruct IH as (pre & Hpre); [done|]. exists (x ++ "." ++ pre).
    unfold withDots in *. cbn [foldr] in *. rewrite Hpre.
    by rewrite !string_app_assoc.
Qed.

(** The extension that [handleFile] looks at: what follows the last dot of
    the name, or the whole name when it has no dot. *)
Lemma fileExtension_cases (f : Browser.File) :
  (Browser.occurs "." (Browser.name f) = false
   ∧ Upload.fileExtension f = "." ++ Browser.toLowerCase (Browser.name f))
  ∨ ∃ pre seg,
      Browser.name f = pre ++ "." ++ seg
      ∧ Browser.occurs "." seg = false
      ∧ Upload.fileExtension f = "." ++ Browser.toLowerCase seg.
Proof.
  unfold Upload.fileExtension, Browser.pop.
  destruct (split_dot (Browser.name f)) as (init & seg & Hsplit & Hseg & Hs).
  rewrite Hsplit, last_snoc. cbn [default].
  destruct init as [|x init].
  - left. cbn in Hs. by rewrite Hs.
  - right. destruct (withDots_ends_with_dot (x :: init)) as (pre & Hpre);
      [done|].
    exists pre, seg. rewrite Hs, Hpre. by rewrite string_app_assoc.
Qed.

Lemma validTypes_words (word : string) :
  "." ++ word ∈ Upload.validTypes ↔ word ∈ file_words.
Proof.
  change Upload.validTypes with (String "." <$> file_words).
  rewrite string_cons_app, string_nil_app, list_elem_of_fmap. split.
  - by intros (w & [= ->] & Hin).
  - intros Hin. by exists word.
Qed.

Lemma attachable_words (f : Browser.File) :
  Query.attachable f = true
  ↔ ∃ word, word ∈ file_words
            ∧ Browser.endsWith (Browser.toLowerCase (Browser.name f))
                ("." ++ word) = true.
Proof.
  unfold Query.attachable. rewrite existsb_exists. fold file_words.
  split; intros (word & Hin & Hends); exists word;
    (split; [by apply list_elem_of_In|done]).
Qed.

Lemma file_words_no_dot (word : string) :
  word ∈ file_words → Browser.occurs "." word = false.
Proof.
  unfold file_words. rewrite !elem_of_cons, elem_of_nil.
  intros H; repeat destruct H as [H|H]; try done; by subst.
Qed.

Lemma fileExtension_valid_iff (f : Browser.File) :
  Upload.fileExtension f ∈ Upload.validTypes
  ↔ Query.attachable f = true
    ∨ Browser.toLowerCase (Browser.name f) ∈ file_words.
Proof.
  rewrite attachable_words.
  destruct (fileExtension_cases f)
    as [[Hnodot ->] | (pre & seg & Hname & Hseg & ->)];
    rewrite validTypes_words.
  - split; [by right|]. intros [(word & Hword & Hends)|H]; [|done].
    apply endsWith_spec in Hends as (p & Hp).
    assert (Browser.occurs "." (Browser.toLowerCase (Browser.name f))
            = true) as Hdot.
    { rewrite Hp, occurs_app. cbn. by rewrite orb_true_r. }
    rewrite occurs_toLowerCase in Hdot. congruence.
  - rewrite Hname, !toLowerCase_app. cbn [Browser.toLowerCase].
    change (Browser.lower ".") with "."%char.
    split.
    + intros Hword. left. exists (Browser.toLowerCase seg).
      split; [done|]. apply endsWith_spec. eauto.
    + intros [(word & Hword & Hends)|Hbare].
      * apply endsWith_spec in Hends as (p & Hp).
        apply last_dot_unique in Hp as ->;
          [done|by rewrite occurs_toLowerCase|by apply file_words_no_dot].
      * apply file_words_no_dot in Hbare.
        rewrite occurs_app in Hbare. cbn in Hbare.
        by rewrite orb_true_r in Hbare.
Qed.

Lemma handleFile_accepts (f : Browser.File) (s : Upload.State) :
  Upload.file (Upload.handleFile f s) = Some f
  ↔ Upload.fileExtension f ∈ Upload.validTypes.
Proof.
  unfold Upload.handleFile. destruct (bool_decide _) eqn:Hb; cbn.
  - by apply bool_decide_eq_true in Hb.
  - by apply bool_decide_eq_false in Hb.
Qed.

(** X13.  The two pages that take files do not accept the same names.  The
    chat accepts a name that ends with a dot followed by one of the words
    pdf, pptx, ppt, html, htm, txt, in any case.  The upload page accepts
    every such name, and besides it the names that consist of one of these
    words alone, without any dot, because it takes the whole name for the
    extension when there is no dot. *)
Theorem upload_accepts_what_chat_accepts_and_bare_words
    (f : Browser.File) (s : Upload.State) :
  Upload.file (Upload.handleFile f s) = Some f
  ↔ Query.attachable f = true
    ∨ Browser.toLowerCase (Browser.name f) ∈ file_words.
Proof. by rewrite handleFile_accepts, fileExtension_valid_iff. Qed.

Example bare_word_is_uploaded_but_not_attached :
  let f := {| Browser.name := "PDF"; Browser.size := 10 |} in
  Upload.file (Upload.handleFile f Upload.initial) = Some f
  ∧ Query.attachable f = false.
Proof. vm_compute. done. Qed.

(** ** The upload page *)

Lemma upload_handleFile_ok (f : Browser.File) (s : Upload.State) :
  (∀ g, Upload.file (Upload.handleFile f s) = Some g →
        Upload.fileExtension g ∈ Upload.validTypes)
  ∧ Upload.uploading (Upload.handleFile f s) = Upload.uploading s.
Proof.
  unfold Upload.handleFile. destruct (bool_decide _) eqn:Hb; cbn; [|done].
  apply bool_decide_eq_true in Hb. split; [|done]. by intros g [= <-].
Qed.

Lemma upload_ok_step (w : Upload.World) (e : Upload.Event) :
  upload_ok w →
  upload_ok (Upload.step w e).1
  ∧ Forall upload_sends_accepted (Upload.step w e).2.
Proof.
  intros Hok. pose proof Hok as (Hfile & Hle & Hiff).
  assert (∀ s', Upload.uploading s' = Upload.uploading (Upload.ui w) →
            (∀ g, Upload.file s' = Some g →
                  Upload.fileExtension g ∈ Upload.validTypes) →
            upload_ok {| Upload.ui := s';
                         Upload.pendingUploads := Upload.pendingUploads w |})
    as Hkeep.
  { intros s' Hu Hf. split; [exact Hf|]. split; [exact Hle|].
    cbn. by rewrite Hu. }
  destruct e as [type|files|files| |v| | |r]; cbn.
  8: { destruct (Upload.pendingUploads w) as [|k] eqn:Hp;
         [split; [exact Hok|constructor]|].
       split; [|constructor]. assert (k = 0%nat) as -> by lia.
       destruct r; cbn.
       - split; [done|]. split; [cbn; lia|]. cbn. split; done.
       - split; [exact Hfile|]. split; [cbn; lia|]. cbn. split; done. }
  all: destruct (Upload.result (Upload.ui w)); cbn;
    try (split; [exact Hok|constructor]).
  - split; [|constructor]. unfold Upload.handleDrag.
    repeat case_match; exact Hok.
  - split; [|constructor]. unfold Upload.handleDrop.
    destruct (files !! 0%nat) as [f|]; [|exact Hok].
    destruct (upload_handleFile_ok f
                (Upload.setDragActive false (Upload.ui w))) as [Hf Hu].
    by apply Hkeep.
  - destruct (Upload.uploading (Upload.ui w)) eqn:Hup;
      [split; [exact Hok|constructor]|].
    split; [|constructor]. unfold Upload.handleFileSelect.
    destruct (files !! 0%nat) as [f|]; [|exact Hok].
    destruct (upload_handleFile_ok f (Upload.ui w)) as [Hf Hu].
    apply Hkeep; [by rewrite Hu|done].
  - destruct (Upload.file (Upload.ui w)) eqn:Hf;
      [|split; [exact Hok|constructor]].
    destruct (Upload.uploading (Upload.ui w)) eqn:Hup;
      [split; [exact Hok|constructor]|split; [|constructor]].
    split; [done|]. split; [exact Hle|]. cbn. by rewrite Hup.
  - destruct (Upload.file (Upload.ui w)) eqn:Hf;
      [|split; [exact Hok|constructor]].
    destruct (Upload.uploading (Upload.ui w)) eqn:Hup;
      [split; [exact Hok|constructor]|split; [|constructor]].
    split; [cbn; by rewrite Hf|]. split; [exact Hle|]. cbn. by rewrite Hup.
  - destruct (Upload.file (Upload.ui w)) as [f|] eqn:Hf;
      [|split; [exact Hok|constructor]].
    destruct (Upload.uploading (Upload.ui w)) eqn:Hup;
      [split; [exact Hok|constructor]|].
    unfold Upload.handleUpload. rewrite Hf. cbn.
    assert (Upload.pendingUploads w = 0%nat) as Hp.
    { destruct (Upload.pendingUploads w) as [|[|k]] eqn:Hp; [done| |lia].
      destruct Hiff as [_ Hiff]. by specialize (Hiff eq_refl). }
    split.
    + split; [cbn; by rewrite Hf|]. split; [cbn; lia|]. cbn. by rewrite Hp.
    + constructor; [|constructor]. cbn. by apply Hfile.
  - split; [|constructor]. split; [done|]. split; [exact Hle|exact Hiff].
Qed.

(** X14.  The upload page sends only files whose name [handleFile] has
    accepted, and one at a time: however the page is used from the moment
    it is loaded (drops on the area included, which are not disabled during
    an upload), every upload carries an accepted file, at most one upload is
    under way, and [uploading] is on exactly while one is. *)
Theorem upload_sends_accepted_files_one_at_a_time (es : list Upload.Event) :
  let after := Upload.run Upload.mount es in
  Forall upload_sends_accepted after.2
  ∧ (Upload.pendingUploads after.1 ≤ 1)%nat
  ∧ (Upload.uploading (Upload.ui after.1) = true
     ↔ Upload.pendingUploads after.1 = 1%nat).
Proof.
  cbn zeta.
  assert (∀ w, upload_ok w →
            upload_ok (Upload.run w es).1
            ∧ Forall upload_sends_accepted (Upload.run w es).2) as Hrun.
  { induction es as [|e es IH]; intros w Hw; [by split; [|constructor]|].
    cbn. destruct (upload_ok_step w e Hw) as [Hw1 Hout1].
    destruct (Upload.step w e) as [w1 out1]. cbn in Hw1, Hout1.
    destruct (IH w1 Hw1) as [Hw2 Hout2].
    destruct (Upload.run w1 es) as [w2 out2]. cbn in *.
    split; [done|]. by apply Forall_app. }
  destruct (Hrun Upload.mount) as [(_ & Hle & Hiff) Hout].
  { split; [done|]. split; [cbn; lia|]. cbn. split; done. }
  done.
Qed.

(** ** The chat *)

Lemma query_files_queryWithFiles query files uid difficulty filter clinical :
  query_files (Query.queryWithFiles query files uid difficulty filter clinical)
  = files.
Proof.
  unfold Query.queryWithFiles, query_files.
  assert (omap (λ entry : string * Query.FormValue,
                  match entry.2 with
                  | Query.FileField f => Some f
                  | Query.Field _ => None
                  end) ((λ f, ("files", Query.FileField f)) <$> files)
          = files) as Hfiles.
  { induction files as [|f files IH]; [done|]. cbn. by rewrite IH. }
  destruct (JS.truthy uid), (JS.truthy difficulty), filter as [x|], clinical;
    try destruct (JS.truthy x); cbn; exact Hfiles.
Qed.

Lemma query_handleSubmit_cases (now : Z) (s : Query.State) :
  (Query.handleSubmit now s = (s, [], None)
   ∧ ((JS.truthy (JS.trim (Query.input s)) = false
       ∧ Query.attachedFiles s = [])
      ∨ Query.loading s = true))
  ∨ (Query.loading s = false
     ∧ ∃ request text,
         Query.handleSubmit now s
         = (Query.setLoading true
              (Query.setAttachedFiles [] (Query.setInput "" s)),
            [request], Some (Query.UserMessage now text now))
         ∧ query_files request = Query.attachedFiles s).
Proof.
  unfold Query.handleSubmit.
  destruct (JS.truthy (JS.trim (Query.input s))) eqn:Ht,
    (Query.loading s) eqn:Hl, (Query.attachedFiles s) as [|f files] eqn:Hf;
    cbn -[JS.trim JS.truthy Query.queryText Query.queryWithFiles JS.join];
    try (left; split; [done|]; auto; fail).
  all: right; split; [done|]; do 2 eexists; split; [reflexivity|].
  all: try done.
  all: by rewrite query_files_queryWithFiles.
Qed.

Lemma query_ok_step (w : Query.World) (e : Query.Event) :
  query_ok w →
  query_ok (Query.step w e).1
  ∧ Forall (λ request,
              Forall (λ f, Query.attachable f = true) (query_files request))
      (Query.step w e).2.
Proof.
  intros Hok. pose proof Hok as (Hfiles & Hle & Hiff).
  unfold Query.step.
  destruct (Query.chatMessages w) as [messages|];
    [|split; [exact Hok|constructor]].
  destruct e as [ | |v|v|b|i|files|idx|v|now|now r|ok];
    cbn -[Query.attachable Query.handleSubmit].
  - case_match; (split; [first [exact Hok|by destruct Hok]|constructor]).
  - split; [exact Hok|constructor].
  - case_match; (split; [first [exact Hok|by destruct Hok]|constructor]).
  - case_match; (split; [first [exact Hok|by destruct Hok]|constructor]).
  - case_match; (split; [first [exact Hok|by destruct Hok]|constructor]).
  - repeat case_match; (split; [first [exact Hok|by destruct Hok]|constructor]).
  - split; [|constructor]. split; [|split; [exact Hle|exact Hiff]].
    cbn. apply Forall_app. split; [done|].
    apply Forall_forall. intros f Hf%list_elem_of_In.
    by apply filter_In in Hf as [_ Hf].
  - destruct (Query.attachedFiles (Query.ui w) !! idx);
      [|split; [exact Hok|constructor]].
    split; [|constructor]. split; [|split; [exact Hle|exact Hiff]].
    cbn. clear -Hfiles. generalize 0%nat.
    induction Hfiles as [|f l Hf _ IH]; intros k; [constructor|].
    cbn. case_match; [constructor; [done|]|]; apply IH.
  - destruct (Query.loading (Query.ui w)) eqn:Hl;
      [split; [exact Hok|constructor]|split; [|constructor]].
    split; [done|]. split; [exact Hle|]. cbn. by rewrite Hl.
  - destruct (query_handleSubmit_cases now (Query.ui w))
      as [[-> _] | (Hl & request & text & -> & Hrequest)];
      cbn -[Query.attachable].
    + split; [|constructor]. rewrite Nat.add_0_r. exact Hok.
    + assert (Query.pendingQueries w = 0%nat) as Hp.
      { destruct (Query.pendingQueries w) as [|[|k]] eqn:Hp; [done| |lia].
        destruct Hiff as [_ Hiff]. specialize (Hiff eq_refl). congruence. }
      split.
      * split; [constructor|]. cbn. rewrite Hp. split; [lia|]. split; done.
      * constructor; [|constructor]. by rewrite Hrequest.
  - destruct (Query.pendingQueries w) as [|k] eqn:Hp;
      [split; [exact Hok|constructor]|].
    assert (k = 0%nat) as -> by lia.
    destruct r; cbn -[Query.attachable]; (split; [|constructor]);
      (split; [exact Hfiles|]; split; [cbn; lia|]; cbn; split; done).
  - destruct (Query.pendingHealth w); (split; [exact Hok|constructor]).
Qed.

Lemma query_ok_run (w : Query.World) (es : list Query.Event) :
  query_ok w →
  query_ok (Query.run w es).1
  ∧ Forall (λ request,
              Forall (λ f, Query.attachable f = true) (query_files request))
      (Query.run w es).2.
Proof.
  revert w. induction es as [|e es IH]; intros w Hw; [by split; [|constructor]|].
  cbn. destruct (query_ok_step w e Hw) as [Hw1 Hout1].
  destruct (Query.step w e) as [w1 out1]. cbn in Hw1, Hout1.
  destruct (IH w1 Hw1) as [Hw2 Hout2].
  destruct (Query.run w1 es) as [w2 out2]. cbn in *.
  split; [done|]. by apply Forall_app.
Qed.

Lemma query_mount_ok uid canWrite stored :
  query_ok (Query.mount uid canWrite stored).1.
Proof. split; [constructor|]. cbn. split; [lia|]. split; done. Qed.

(** X15.  Every file that the chat sends with a question has passed its
    filter, and therefore would be accepted by the upload page as well:
    however the chat is used from the moment it is loaded, the files of a
    request end with a dot and one of the words pdf, pptx, ppt, html, htm,
    txt. *)
Theorem chat_sends_only_attachable_files
    (uid : string) (canWrite : bool)
    (stored : gmap string (AppContext.Item (list Query.Message)))
    (es : list Query.Event) :
  Forall (λ request,
            Forall (λ f, Query.attachable f = true
                         ∧ ∀ s, Upload.file (Upload.handleFile f s) = Some f)
              (query_files request))
    (Query.run (Query.mount uid canWrite stored).1 es).2.
Proof.
  destruct (query_ok_run (Query.mount uid canWrite stored).1 es
              (query_mount_ok uid canWrite stored)) as [_ Hout].
  eapply Forall_impl; [exact Hout|]. intros request Hfiles. cbn beta in *.
  eapply Forall_impl; [exact Hfiles|]. intros f Hf. cbn beta in *.
  split; [done|]. intros s. apply handleFile_accepts, fileExtension_valid_iff.
  by left.
Qed.

(** X16.  At most one question of the chat waits for its answer, and
    [loading] is on exactly while one does, however the chat is used from
    the moment it is loaded: the form sends nothing while an answer is
    awaited, and the indicator goes off with the answer or the error. *)
Theorem chat_loading_iff_query_in_flight
    (uid : string) (canWrite : bool)
    (stored : gmap string (AppContext.Item (list Query.Message)))
    (es : list Query.Event) :
  let w := (Query.run (Query.mount uid canWrite stored).1 es).1 in
  (Query.pendingQueries w ≤ 1)%nat
  ∧ (Query.loading (Query.ui w) = true ↔ Query.pendingQueries w = 1%nat).
Proof.
  cbn zeta.
  by destruct (query_ok_run (Query.mount uid canWrite stored).1 es
                 (query_mount_ok uid canWrite stored)) as [(_ & Hle & Hiff) _].
Qed.

Lemma setChatMessages_synced next (w : Query.World) :
  Query.writable w = true →
  Query.restoreChat (Query.localStorage (Query.setChatMessages next w))
  = Query.chatMessages (Query.setChatMessages next w)
  ∧ Query.writable (Query.setChatMessages next w) = true.
Proof.
  intros Hw. unfold Query.setChatMessages, Query.restoreChat. cbn.
  rewrite Hw. cbn. by rewrite lookup_insert_eq.
Qed.

Lemma query_store_step (w : Query.World) (e : Query.Event) :
  (Query.writable w = true →
   Query.restoreChat (Query.localStorage w) = Query.chatMessages w →
   Query.restoreChat (Query.localStorage (Query.step w e).1)
   = Query.chatMessages (Query.step w e).1)
  ∧ Query.writable (Query.step w e).1 = Query.writable w
  ∧ (Query.writable w = false →
     Query.localStorage (Query.step w e).1 = Query.localStorage w).
Proof.
  unfold Query.step.
  destruct (Query.chatMessages w) as [messages|] eqn:Hchat;
    [|cbn; rewrite ?Hchat; repeat split; intros; done].
  assert (∀ next w',
            Query.writable w' = Query.writable w →
            Query.localStorage w' = Query.localStorage w →
            (Query.writable w = true →
             Query.restoreChat (Query.localStorage w) = Some messages →
             Query.restoreChat
               (Query.localStorage (Query.setChatMessages next w'))
             = Query.chatMessages (Query.setChatMessages next w'))
            ∧ Query.writable (Query.setChatMessages next w') = Query.writable w
            ∧ (Query.writable w = false →
               Query.localStorage (Query.setChatMessages next w')
               = Query.localStorage w)) as Hset.
  { intros next w' Hwr Hst. split; [|split; [done|]].
    - intros Hw _. apply setChatMessages_synced. congruence.
    - intros Hw. cbn. by rewrite Hwr, Hw. }
  assert (∀ w',
            Query.writable w' = Query.writable w →
            Query.localStorage w' = Query.localStorage w →
            Query.chatMessages w' = Some messages →
            (Query.writable w = true →
             Query.restoreChat (Query.localStorage w) = Some messages →
             Query.restoreChat (Query.localStorage w') = Query.chatMessages w')
            ∧ Query.writable w' = Query.writable w
            ∧ (Query.writable w = false →
               Query.localStorage w' = Query.localStorage w)) as Hkeep.
  { intros w' Hwr Hst Hc. rewrite Hwr, Hst, Hc. done. }
  destruct e as [ | |v|v|b|i|files|idx|v|now|now r|ok];
    cbn -[Query.handleSubmit Query.setChatMessages].
  - case_match; [by apply Hset|by apply Hkeep].
  - by apply Hkeep.
  - case_match; by apply Hkeep.
  - case_match; by apply Hkeep.
  - case_match; by apply Hkeep.
  - repeat case_match; by apply Hkeep.
  - by apply Hkeep.
  - case_match; by apply Hkeep.
  - case_match; by apply Hkeep.
  - destruct (Query.handleSubmit now (Query.ui w)) as [[s' out] [m|]];
      [by apply Hset|by apply Hkeep].
  - destruct (Query.pendingQueries w); [by apply Hkeep|].
    destruct (Query.handleSubmit_settled now r (Query.ui w)) as [s' m].
    by apply Hset.
  - case_match; by apply Hkeep.
Qed.

(** X17.  The conversation of the chat survives a reload.  With a storage
    that accepts writes, however the chat is used from the moment it is
    loaded, the stored item holds the conversation that is on the page, so
    that loading the page from the storage at any moment gives the same
    conversation.  With a storage that refuses writes the items of the
    provider stay as they were found. *)
Theorem chat_survives_reload
    (uid uid' : string) (canWrite canWrite' : bool)
    (stored : gmap string (AppContext.Item (list Query.Message)))
    (es : list Query.Event) :
  let w := (Query.run (Query.mount uid canWrite stored).1 es).1 in
  (canWrite = true →
   Query.chatMessages (Query.mount uid' canWrite' (Query.localStorage w)).1
   = Query.chatMessages w)
  ∧ (canWrite = false → Query.localStorage w = stored).
Proof.
  cbn zeta.
  assert (∀ w,
            (Query.writable w = true →
             Query.restoreChat (Query.localStorage w) = Query.chatMessages w →
             Query.restoreChat (Query.localStorage (Query.run w es).1)
             = Query.chatMessages (Query.run w es).1)
            ∧ (Query.writable w = false →
               Query.localStorage (Query.run w es).1 = Query.localStorage w))
    as Hrun.
  { induction es as [|e es IH]; intros w; [done|].
    cbn. destruct (query_store_step w e) as (Hsync & Hwr & Hkeep).
    destruct (Query.step w e) as [w1 out1]. cbn in *.
    destruct (IH w1) as (Hsync' & Hkeep').
    destruct (Query.run w1 es) as [w2 out2]. cbn in *.
    split.
    - intros Hw Hs. apply Hsync'; [congruence|by apply Hsync].
    - intros Hw. rewrite Hkeep', Hkeep; [done|done|congruence]. }
  destruct (Hrun (Query.mount uid canWrite stored).1) as (Hsync & Hkeep).
  split; [|exact Hkeep].
  intros ->. by apply Hsync.
Qed.

Lemma chat_survives_reload_witness :
  let w := (Query.run (Query.mount "u1" true ∅).1
              [ Query.ChangeInput "What is the pons?"; Query.Submit 1000 ]).1 in
  Query.chatMessages (Query.mount "u2" true (Query.localStorage w)).1
  = Some [Query.UserMessage 1000 "What is the pons?" 1000].
Proof.
  cbn zeta.
  destruct (chat_survives_reload "u1" "u2" true true ∅
              [ Query.ChangeInput "What is the pons?"; Query.Submit 1000 ])
    as (Hsync & _).
  rewrite (Hsync eq_refl). vm_compute. reflexivity.
Defined.

(** X18.  The conversation of the chat only grows, one message at a time.
    Apart from "Clear", which empties it, an event leaves the messages as
    they are and adds at most one at the end; a request is sent exactly
    when the message added is the user's own, which is put on the page
    before the service replies. *)
Theorem chat_only_grows
    (w : Query.World) (e : Query.Event) (messages : list Query.Message) :
  Query.chatMessages w = Some messages →
  e ≠ Query.ClickClear →
  ∃ added,
    Query.chatMessages (Query.step w e).1 = Some (messages ++ added)%list
    ∧ (length added ≤ 1)%nat
    ∧ ((Query.step w e).2 ≠ []
       ↔ ∃ now text, added = [Query.UserMessage now text now]).
Proof.
  intros Hchat He. unfold Query.step. rewrite Hchat.
  assert (∃ added,
            Some messages = Some (messages ++ added)%list
            ∧ (length added ≤ 1)%nat
            ∧ (@nil Query.Effect ≠ []
               ↔ ∃ now text, added = [Query.UserMessage now text now]))
    as Hsame.
  { exists []. rewrite app_nil_r. split; [done|]. split; [cbn; lia|].
    split; [done|]. by intros (? & ? & ?). }
  destruct e as [ | |v|v|b|i|files|idx|v|now|now r|ok];
    cbn -[Query.handleSubmit]; try done.
  all: try (repeat case_match; cbn; rewrite ?Hchat; exact Hsame).
  - destruct (query_handleSubmit_cases now (Query.ui w))
      as [[-> _] | (Hl & request & text & -> & _)];
      cbn; [rewrite Hchat; exact Hsame|].
    exists [Query.UserMessage now text now]. split; [done|].
    split; [cbn; lia|]. split; [eauto|done].
  - destruct (Query.pendingQueries w); [cbn; rewrite Hchat; exact Hsame|].
    destruct r; cbn; eexists; (split; [done|]); (split; [cbn; lia|]);
      (split; [done|]); by intros (? & ? & ?).
Qed.

Lemma chat_only_grows_witness :
  let w := (Query.run (Query.mount "u1" true ∅).1
              [ Query.ChangeInput "What is the pons?" ]).1 in
  ∃ added,
    Query.chatMessages (Query.step w (Query.Submit 1000)).1 = Some added
    ∧ (length added ≤ 1)%nat.
Proof.
  cbn zeta.
  assert (Query.chatMessages
            (Query.run (Query.mount "u1" true ∅).1
               [ Query.ChangeInput "What is the pons?" ]).1 = Some [])
    as Hempty by (vm_compute; reflexivity).
  destruct (chat_only_grows _ (Query.Submit 1000) [] Hempty
              ltac:(discriminate))
    as (added & Hchat & Hlen & _).
  exists added. exact (conj Hchat Hlen).
Defined.

(** ** Attached files *)

Lemma filteri_after {A} (j k : nat) (l : list A) :
  (k < j)%nat → Browser.filteri (λ _ i, negb (i =? k)%nat) j l = l.
Proof.
  revert j. induction l as [|x l IH]; intros j Hlt; [done|].
  cbn. destruct (j =? k)%nat eqn:E; [apply Nat.eqb_eq in E; lia|].
  cbn. f_equal. apply IH. lia.
Qed.

Lemma filteri_delete {A} (idx k : nat) (l : list A) :
  Browser.filteri (λ _ i, negb (i =? k + idx)%nat) k l = delete idx l.
Proof.
  revert idx k. induction l as [|x l IH]; intros idx k; [by destruct idx|].
  cbn. destruct idx as [|idx].
  - rewrite Nat.add_0_r, Nat.eqb_refl. cbn. apply filteri_after. lia.
  - destruct (k =? k + S idx)%nat eqn:E; [apply Nat.eqb_eq in E; lia|].
    cbn. f_equal. replace (k + S idx)%nat with (S k + idx)%nat by lia.
    apply IH.
Qed.

(** X19.  The cross beside an attached file removes exactly that file: the
    file at its position goes, the others stay in their order, and a
    position beyond the list removes nothing.  A file that passes the
    filter, attached and removed again, leaves the form as it was; a file
    that does not pass is not attached at all. *)
Theorem chat_remove_file_removes_that_file
    (idx : nat) (f : Browser.File) (s : Query.State) :
  Query.attachedFiles (Query.removeFile idx s)
  = delete idx (Query.attachedFiles s)
  ∧ ((length (Query.attachedFiles s) ≤ idx)%nat → Query.removeFile idx s = s)
  ∧ Query.handleFileAttach [f] s
    = (if Query.attachable f
       then Query.setAttachedFiles (Query.attachedFiles s ++ [f])%list s
       else s)
  ∧ (Query.attachable f = true →
     Query.removeFile (length (Query.attachedFiles s))
       (Query.handleFileAttach [f] s) = s).
Proof.
  assert (∀ i s', Query.attachedFiles (Query.removeFile i s')
                  = delete i (Query.attachedFiles s')) as Hdel.
  { intros i s'. unfold Query.removeFile. cbn [Query.attachedFiles].
    apply (filteri_delete i 0). }
  assert (∀ i s', Query.removeFile i s'
                  = Query.setAttachedFiles
                      (Query.attachedFiles (Query.removeFile i s')) s')
    as Hrem by done.
  split; [apply Hdel|]. split; [|split].
  - intros Hle. rewrite Hrem, Hdel.
    rewrite delete_take_drop, take_ge, drop_ge, app_nil_r by lia.
    by destruct s.
  - unfold Query.handleFileAttach. cbn [List.filter].
    destruct (Query.attachable f); [done|]. rewrite app_nil_r. by destruct s.
  - intros Hf. rewrite Hrem, Hdel. unfold Query.handleFileAttach.
    cbn [List.filter]. rewrite Hf. destruct s. cbn -[delete].
    by rewrite delete_middle, app_nil_r.
Qed.

Lemma chat_remove_file_removes_that_file_witness :
  let f := {| Browser.name := "notes.PDF"; Browser.size := 2048 |} in
  Query.removeFile 0 (Query.handleFileAttach [f] (Query.initial "u1"))
  = Query.initial "u1".
Proof.
  cbn zeta.
  destruct (chat_remove_file_removes_that_file 0
              {| Browser.name := "notes.PDF"; Browser.size := 2048 |}
              (Query.initial "u1")) as (_ & _ & _ & Hback).
  apply Hback. vm_compute. reflexivity.
Defined.

(** ** What the pages show when no response arrives *)

(** X20.  When a call fails without a response (time-out, server
    unreachable), the interceptor of the client replaces the message of the
    error by one of three texts, none of them empty, and a time-out wins
    over the text of the error.  Only the start of a quiz and the chat show
    that message; every handler that reads [detail] with a fallback shows
    its own fixed text instead, as a failed quiz answer does.  An error
    that comes with a response passes the interceptor unchanged. *)
Theorem network_failure_messages
    (e : AxiosError) (message : option string) (fallback : string)
    (qs : Quiz.State) (c : Quiz.SubmitClosure) :
  err_response e = None →
  let e' := interceptor e in
  JS.truthy (err_message e') = true
  ∧ (err_code e = Some "ECONNABORTED" →
     err_message e' = "Request timeout. Please try again.")
  ∧ Quiz.startQuiz_settled (Err e') qs
    = (Quiz.setStarting false qs, [Quiz.Alert (Text (err_message e'))])
  ∧ Query.errorContent {| Query.axios := e'; Query.data_message := message |}
    = Text (err_message e')
  ∧ detail_or e' fallback = Text fallback
  ∧ Quiz.submitAnswer_settled c (Err e') qs
    = (Quiz.setLoading false qs, [Quiz.Alert (Text "Failed to submit answer")])
  ∧ ∀ e0, is_Some (err_response e0) → interceptor e0 = e0.
Proof.
  intros Hnone. cbn zeta.
  assert (JS.truthy (err_message (interceptor e)) = true) as Htruthy.
  { unfold interceptor. rewrite Hnone. cbn. by repeat case_match. }
  assert (detail (interceptor e) = None) as Hdetail.
  { unfold detail, interceptor. by rewrite Hnone. }
  assert (∀ text, detail_or (interceptor e) text = Text text) as Hor.
  { intros text. unfold detail_or. by rewrite Hdetail. }
  split; [exact Htruthy|]. split; [|split; [|split; [|split; [|split]]]].
  - intros Hcode. unfold interceptor. rewrite Hnone. cbn.
    by rewrite bool_decide_eq_true_2.
  - cbn. unfold Quiz.startErrorMessage. rewrite Hdetail.
    unfold JS.or_else. by rewrite Htruthy.
  - unfold Query.errorContent. cbn [Query.axios].
    assert (err_response (interceptor e) = None) as ->
      by (unfold interceptor; by rewrite Hnone).
    unfold JS.or_else. by rewrite Htruthy.
  - apply Hor.
  - cbn. by rewrite Hor.
  - intros e0 [d Hd]. unfold interceptor. by rewrite Hd.
Qed.

Lemma network_failure_messages_witness :
  Quiz.startQuiz_settled (Err Sample.timeout) (Quiz.initial "u1")
  = (Quiz.setStarting false (Quiz.initial "u1"),
     [Quiz.Alert (Text "Request timeout. Please try again.")]).
Proof.
  destruct (network_failure_messages
              {| err_response := None; err_code := Some "ECONNABORTED";
                 err_message := "timeout of 30000ms exceeded" |}
              None "" (Quiz.initial "u1")
              {| Quiz.questionId := "q1"; Quiz.closed_selectedAnswer := "" |}
              eq_refl) as (_ & Htimeout & Hstart & _).
  cbn zeta in *. rewrite (Htimeout eq_refl) in Hstart. exact Hstart.
Defined.

(** ** The study notes *)

Lemma notes_ok_step (w : StudyNotes.World) (e : StudyNotes.Event) :
  notes_ok w →
  notes_ok (StudyNotes.step w e).1
  ∧ Forall notes_names_topic (StudyNotes.step w e).2.
Proof.
  intros Hok. pose proof Hok as (Hle & Hiff & Hquiet & Hexcl).
  destruct e as [v|v|b| | |r]; cbn -[JS.trim JS.truthy].
  - split; [exact Hok|constructor].
  - split; [exact Hok|constructor].
  - split; [exact Hok|constructor].
  - destruct (StudyNotes.loading (StudyNotes.ui w)) eqn:Hl;
      cbn -[JS.trim JS.truthy]; [split; [exact Hok|constructor]|].
    destruct (JS.truthy (JS.trim (StudyNotes.topic (StudyNotes.ui w))))
      eqn:Ht; cbn -[JS.trim JS.truthy]; [|split; [exact Hok|constructor]].
    unfold StudyNotes.generate. rewrite Ht. cbn -[JS.trim JS.truthy].
    assert (StudyNotes.pendingGenerates w = 0%nat) as Hp.
    { destruct (StudyNotes.pendingGenerates w) as [|[|k]] eqn:Hp;
        [done| |lia].
      destruct Hiff as [_ Hiff]. by specialize (Hiff eq_refl). }
    split; [|constructor; [exact Ht|constructor]].
    rewrite Hp. split; [cbn; lia|]. split; [done|]. split; [done|by left].
  - destruct (StudyNotes.notes (StudyNotes.ui w));
      (split; [exact Hok|repeat constructor]).
  - destruct (StudyNotes.pendingGenerates w) as [|k] eqn:Hp;
      [split; [exact Hok|constructor]|].
    assert (k = 0%nat) as -> by lia. split; [|constructor].
    assert (StudyNotes.loading (StudyNotes.ui w) = true) as Hl
      by (by apply Hiff).
    destruct (Hquiet Hl) as [Hnotes Herror].
    destruct r; cbn.
    + split; [cbn; lia|]. split; [done|]. split; [done|by right].
    + split; [cbn; lia|]. split; [done|]. split; [done|by left].
Qed.

(** X21.  The study-notes page asks for notes on a topic that is not
    blank, one request at a time: however the page is used from the moment
    it is loaded, every request carries a topic that is not empty, at most
    one generation is under way and [loading] is on exactly while one is;
    while it is, neither old notes nor an old error are on the page, and
    notes are never shown together with an error. *)
Theorem study_notes_one_request_for_a_topic (es : list StudyNotes.Event) :
  let after := StudyNotes.run StudyNotes.mount es in
  notes_ok after.1 ∧ Forall notes_names_topic after.2.
Proof.
  cbn zeta.
  assert (∀ w, notes_ok w →
            notes_ok (StudyNotes.run w es).1
            ∧ Forall notes_names_topic (StudyNotes.run w es).2) as Hrun.
  { induction es as [|e es IH]; intros w Hw; [by split; [|constructor]|].
    cbn. destruct (notes_ok_step w e Hw) as [Hw1 Hout1].
    destruct (StudyNotes.step w e) as [w1 out1]. cbn in Hw1, Hout1.
    destruct (IH w1 Hw1) as [Hw2 Hout2].
    destruct (StudyNotes.run w1 es) as [w2 out2]. cbn in *.
    split; [done|]. by apply Forall_app. }
  apply Hrun. split; [cbn; lia|]. cbn. split; [done|]. split; [done|by left].
Qed.

(** ** The average on the progress page *)






(** Twenty topics whose scores add up to 11.5: the average is the double
    just below 0.575 and the page shows 57, with the colour of a score
    below 0.6. *)
Example progress_average_in_doubles :
  let p :=
    {| Progress.topics_studied := SampleLongQuiz.name <$> seq 0 20;
       Progress.quiz_scores :=
         (((λ i, (SampleLongQuiz.name i, 1%Q)) <$> seq 0 11)
          ++ [(SampleLongQuiz.name 11, (1 # 2)%Q)])%list;
       Progress.difficulty_progression := ∅;
       Progress.misconceptions_identified := None;
       Progress.strengths := None;
       Progress.areas_for_improvement := None |} in
  Progress.totalOfScores p = 23 # 2
  ∧ Progress.percent (Progress.avgScore p) = 57
  ∧ Progress.getScoreColor (Progress.avgScore p) = "var(--error)".
Proof. vm_compute. done. Qed.

(** ** The bounds of the quiz score *)

(** X23.  The percentage of the quiz stays between 0 and 100 as long as
    every recorded answer belongs to a question of the quiz: then there are
    at most as many recorded answers as questions, and at most as many
    correct ones.  (The condition is needed: [resetQuiz] does not cancel a
    submission under way, and its reply is recorded in whatever quiz is on
    the page when it arrives.) *)
Theorem quiz_score_between_0_and_100 (s : Quiz.State) (q : Quiz.QuizData) :
  Quiz.quiz s = Some q →
  (∀ id, is_Some (Quiz.answers s !! id) →
         id ∈ Quiz.question_id <$> Quiz.questions q) →
  (Quiz.correctCount s ≤ size (Quiz.answers s))%nat
  ∧ (size (Quiz.answers s) ≤ length (Quiz.questions q))%nat
  ∧ 0 ≤ Quiz.displayedScore s ≤ 100.
Proof.
  intros Hq Hdom.
  pose proof (correctCount_le_size s) as Hcorrect.
  pose proof (answers_within_quiz s q Hdom) as Hsize.
  split; [exact Hcorrect|]. split; [exact Hsize|].
  unfold Quiz.displayedScore, Quiz.score. rewrite Hq.
  destruct (0 <? length (Quiz.questions q))%nat eqn:Hn;
    [|by apply Math_round_bounds].
  apply Nat.ltb_lt in Hn.
  destruct (percent_bounds (Quiz.correctCount s) (length (Quiz.questions q))
              ltac:(lia) Hn) as [H0 H100].
  by apply Math_round_bounds.
Qed.

Lemma quiz_score_between_0_and_100_witness :
  0 ≤ Quiz.displayedScore (Quiz.ui Sample.quizPlayed) ≤ 100.
Proof.
  assert (∀ id, is_Some (Quiz.answers (Quiz.ui Sample.quizPlayed) !! id) →
                id ∈ Quiz.question_id <$> Quiz.questions Sample.quiz3) as Hdom.
  { intros id [a Ha].
    assert (Quiz.answers (Quiz.ui Sample.quizPlayed)
            = {[ "q1" := {| Quiz.answer := "frontal";
                            Quiz.answer_feedback := Some Sample.wrong |} ]})
      as Hanswers by (vm_compute; reflexivity).
    rewrite Hanswers in Ha. apply lookup_singleton_Some in Ha as [<- _].
    left. }
  assert (Quiz.quiz (Quiz.ui Sample.quizPlayed) = Some Sample.quiz3) as Hq
    by (vm_compute; reflexivity).
  by destruct (quiz_score_between_0_and_100 _ _ Hq Hdom) as (_ & _ & Hscore).
Defined.

(** A reply that arrives after "Finish Quiz" is recorded in the next quiz:
    with one question there, both answers count and the page shows 200
    percent. *)
Example late_reply_counts_in_the_next_quiz :
  let s := Quiz.ui (Quiz.run (Quiz.mount "u1") SampleShortQuiz.lateReply).1 in
  Quiz.quiz s = Some SampleShortQuiz.second
  ∧ size (Quiz.answers s) = 2%nat
  ∧ Quiz.displayedScore s = 200.
Proof. vm_compute. done. Qed.

(** ** A reply that arrives after the reset *)

(** X24.  "Start New Topic" on the teaching page does not cancel an answer
    that is under way.  When its reply arrives after the reset, the session
    is opened again from what the call had kept: the topic and difficulty of
    the old session with the new question of the reply, and the list of
    question-answer pairs holds that one pair alone. *)
Theorem teaching_reset_does_not_cancel_reply
    (w : Teaching.World) (n : nat) (c : Teaching.SubmitClosure)
    (sess : Teaching.Session) (response : Teaching.TeachResponse) :
  Teaching.session (Teaching.ui w) = Some sess →
  Teaching.pendingAnswers w !! n = Some c →
  let reset := (Teaching.step w Teaching.ClickReset).1 in
  let after := (Teaching.step reset (Teaching.AnswerSettled n (Ok response))).1 in
  Teaching.session (Teaching.ui reset) = None
  ∧ Teaching.pendingAnswers reset = Teaching.pendingAnswers w
  ∧ Teaching.session_topic <$> Teaching.session (Teaching.ui after)
    = Some (Teaching.session_topic (Teaching.closed_session c))
  ∧ Teaching.currentQuestion <$> Teaching.session (Teaching.ui after)
    = Some (Teaching.response_question response)
  ∧ Teaching.qaPairs (Teaching.ui after)
    = [ {| Teaching.question := Teaching.currentQ c;
           Teaching.answer := Teaching.userResponse c |} ].
Proof.
  intros Hs Hc. cbn zeta. cbn. rewrite Hs. cbn. rewrite Hc. cbn. done.
Qed.

Lemma teaching_reset_does_not_cancel_reply_witness :
  let w := (Teaching.run (Teaching.mount "u1")
              [ Teaching.ChangeTopic "hippocampus"; Teaching.ClickStart;
                Teaching.StartSettled 0 (Ok (Sample.asks "What does it do?"));
                Teaching.ChangeAnswer "memory"; Teaching.ClickSubmit;
                Teaching.ClickReset;
                Teaching.AnswerSettled 0 (Ok (Sample.asks "Which part?")) ]).1 in
  Teaching.qaPairs (Teaching.ui w)
  = [ {| Teaching.question := Some "What does it do?";
         Teaching.answer := "memory" |} ].
Proof.
  cbn zeta.
  assert (Teaching.session
            (Teaching.ui
               (Teaching.run (Teaching.mount "u1")
                  [ Teaching.ChangeTopic "hippocampus"; Teaching.ClickStart;
                    Teaching.StartSettled 0
                      (Ok (Sample.asks "What does it do?"));
                    Teaching.ChangeAnswer "memory"; Teaching.ClickSubmit ]).1)
          = Some {| Teaching.session_topic := "hippocampus";
                    Teaching.session_difficulty := "undergrad";
                    Teaching.currentQuestion := Some "What does it do?";
                    Teaching.explanation := None; Teaching.hint := None;
                    Teaching.isComplete := false;
                    Teaching.nextStep := None |}) as Hs
    by (vm_compute; reflexivity).
  assert (Teaching.pendingAnswers
            (Teaching.run (Teaching.mount "u1")
               [ Teaching.ChangeTopic "hippocampus"; Teaching.ClickStart;
                 Teaching.StartSettled 0 (Ok (Sample.asks "What does it do?"));
                 Teaching.ChangeAnswer "memory"; Teaching.ClickSubmit ]).1
            !! 0%nat
          = Some {| Teaching.userResponse := "memory";
                    Teaching.currentQ := Some "What does it do?";
                    Teaching.closed_session :=
                      {| Teaching.session_topic := "hippocampus";
                         Teaching.session_difficulty := "undergrad";
                         Teaching.currentQuestion := Some "What does it do?";
                         Teaching.explanation := None; Teaching.hint := None;
                         Teaching.isComplete := false;
                         Teaching.nextStep := None |} |}) as Hc
    by (vm_compute; reflexivity).
  destruct (teaching_reset_does_not_cancel_reply _ 0 _ _
              (Sample.asks "Which part?") Hs Hc) as (_ & _ & _ & _ & Hqa).
  vm_compute in Hqa. vm_compute. exact Hqa.
Defined.
